(** * SMARTII voice front-end: a shallow embedding of the browser code

    The development follows three source units:
    - [BrowserWakeWordDetector] (script.js, second unit): module [Wake];
    - [FullDuplexAudioEngine] (the audio engine unit): module [Duplex];
    - the recognition / synthesis orchestration of script.js: module [App].

    Further parts of the same units follow these: the detector's engine
    events and [setSensitivity] (module [WakeLoop]), the audio engine's
    [destroy()] (module [DuplexLife]), and the settings, theme, chat and
    backend calls of script.js (module [Ui]).  Module [Text] says which
    texts the string functions are exact for, module [Vad] what the root
    mean square of a frame and a detection are.

    JavaScript methods are written in a small monad that threads the object
    state, collects the observable effects in order (console output, calls
    into the browser, callbacks) and carries exceptions.  As in JavaScript,
    a [throw] keeps every assignment made before it.

    The browser objects the code talks to (SpeechRecognition,
    speechSynthesis, timers) are not part of the repository; their models
    below state what is assumed about them. *)

From Stdlib Require Import List String Ascii Bool Arith NArith ZArith Lia.
From Stdlib Require Import DecimalString.
From Stdlib Require Floats.SpecFloat Floats.FloatOps Floats.FloatAxioms.
From Stdlib Require Import Floats.PrimFloat.
Import ListNotations.

Set Warnings "-inexact-float".

(* ===================================================================== *)
(** ** JavaScript runtime pieces *)
(* ===================================================================== *)

Module Js.

(** Exceptions the modelled code can meet. *)
Inductive exn : Type :=
| InvalidStateError
| NotAllowedError
| Error (message : string).

(** How a statement or call ends. *)
Inductive completion (A : Type) : Type :=
| Normal (a : A)
| Throw (e : exn).

Arguments Normal {A} a.
Arguments Throw {A} e.

(** Callbacks handed in by client code are opaque: calling one is recorded
    as an effect and is assumed not to re-enter the object. *)
Definition callback : Type := nat.

Inductive level : Type := LogL | WarnL | ErrorL.

Section Eff.
Context {St Ev : Type}.

Definition M (A : Type) : Type := St -> completion A * St * list Ev.

Definition ret {A} (a : A) : M A := fun s => (Normal a, s, []).

Definition bind {A B} (m : M A) (f : A -> M B) : M B := fun s =>
  match m s with
  | (Normal a, s1, t1) =>
      match f a s1 with
      | (r, s2, t2) => (r, s2, t1 ++ t2)
      end
  | (Throw e, s1, t1) => (Throw e, s1, t1)
  end.

Definition gets {A} (f : St -> A) : M A := fun s => (Normal (f s), s, []).

Definition modify (f : St -> St) : M unit := fun s => (Normal tt, f s, []).

Definition emit (e : Ev) : M unit := fun s => (Normal tt, s, [e]).

Definition throw {A} (e : exn) : M A := fun s => (Throw e, s, []).

(** [try { m } catch (e) { h e }] *)
Definition try_catch {A} (m : M A) (h : exn -> M A) : M A := fun s =>
  match m s with
  | (Normal a, s1, t1) => (Normal a, s1, t1)
  | (Throw e, s1, t1) =>
      match h e s1 with
      | (r, s2, t2) => (r, s2, t1 ++ t2)
      end
  end.

(** [if (c) { m }] with no else branch. *)
Definition when (c : bool) (m : M unit) : M unit :=
  if c then m else ret tt.

(** [xs.forEach(x => f x)] *)
Fixpoint forEach {A} (xs : list A) (f : A -> M unit) : M unit :=
  match xs with
  | [] => ret tt
  | x :: rest => bind (f x) (fun _ => forEach rest f)
  end.

Definition result_of {A} (r : completion A * St * list Ev) : completion A :=
  fst (fst r).
Definition state_of {A} (r : completion A * St * list Ev) : St :=
  snd (fst r).
Definition trace_of {A} (r : completion A * St * list Ev) : list Ev :=
  snd r.

End Eff.

Arguments M St Ev A : clear implicits.

(** Run a method of a sub-object inside the object that owns it. *)
Definition zoom {S1 S2 E1 E2 A} (proj : S2 -> S1) (upd : S1 -> S2 -> S2)
  (inj : E1 -> E2) (m : M S1 E1 A) : M S2 E2 A := fun s =>
  match m (proj s) with
  | (r, s1, t) => (r, upd s1 s, map inj t)
  end.

Definition normal {A} (c : completion A) : bool :=
  match c with Normal _ => true | Throw _ => false end.

(** [wp m Q s]: run from [s], the method [m] ends with a completion, a
    state and a trace that satisfy [Q]. *)
Definition wp {St Ev A} (m : M St Ev A)
  (Q : completion A -> St -> list Ev -> Prop) (s : St) : Prop :=
  Q (result_of (m s)) (state_of (m s)) (trace_of (m s)).

Arguments wp : simpl never.

End Js.

Declare Scope js_scope.
Delimit Scope js_scope with js.
Notation "x <- m ;; k" := (Js.bind m (fun x => k))
  (at level 61, m at next level, right associativity) : js_scope.
Notation "m ;; k" := (Js.bind m (fun _ => k))
  (at level 61, right associativity) : js_scope.

(* ===================================================================== *)
(** ** Strings: the ASCII part of [toLowerCase], [trim], [includes] *)
(* ===================================================================== *)

Module Str.

Definition is_upper (c : ascii) : bool :=
  let n := N_of_ascii c in (65 <=? n)%N && (n <=? 90)%N.

Definition is_lower (c : ascii) : bool :=
  let n := N_of_ascii c in (97 <=? n)%N && (n <=? 122)%N.

Definition lower_ascii (c : ascii) : ascii :=
  if is_upper c then ascii_of_N (N_of_ascii c + 32) else c.

Definition upper_ascii (c : ascii) : ascii :=
  if is_lower c then ascii_of_N (N_of_ascii c - 32) else c.

(** [String.prototype.toLowerCase] on ASCII text; a character outside
    ASCII is left as it is (see module [Text]). *)
Fixpoint toLowerCase (s : string) : string :=
  match s with
  | EmptyString => EmptyString
  | String c rest => String (lower_ascii c) (toLowerCase rest)
  end.

(** The ASCII members of the WhiteSpace and LineTerminator classes, which
    are also the ASCII members of the regular-expression class [\s].  The
    members outside ASCII (the no-break space and others) are not taken
    for white space here: see module [Text]. *)
Definition isWhiteSpace (c : ascii) : bool :=
  let n := N_of_ascii c in
  ((9 <=? n)%N && (n <=? 13)%N) || (n =? 32)%N.

Fixpoint trimStart (s : string) : string :=
  match s with
  | EmptyString => EmptyString
  | String c rest => if isWhiteSpace c then trimStart rest else s
  end.

(** Drops the trailing white space: a character is kept when something
    that is kept follows it, or when it is not white space itself. *)
Fixpoint trimEnd (s : string) : string :=
  match s with
  | EmptyString => EmptyString
  | String c rest =>
      match trimEnd rest with
      | EmptyString => if isWhiteSpace c then EmptyString else String c EmptyString
      | kept => String c kept
      end
  end.

Definition trim (s : string) : string := trimEnd (trimStart s).

Fixpoint startsWith (p s : string) : bool :=
  match p, s with
  | EmptyString, _ => true
  | String _ _, EmptyString => false
  | String a p', String b s' => Ascii.eqb a b && startsWith p' s'
  end.

(** [hay.includes(needle)] *)
Fixpoint includes (needle hay : string) : bool :=
  startsWith needle hay ||
  match hay with
  | EmptyString => false
  | String _ rest => includes needle rest
  end.

(** Another spelling of the same letters: where the mask says so, a letter
    changes case.  Every upper/lower-case variant of a word in ASCII is
    [recase m w] for some mask [m]. *)
Definition flip_case (c : ascii) : ascii :=
  if is_upper c then lower_ascii c else upper_ascii c.

Fixpoint recase (mask : list bool) (s : string) : string :=
  match s with
  | EmptyString => EmptyString
  | String c rest =>
      match mask with
      | [] => s
      | b :: mask' => String (if b then flip_case c else c) (recase mask' rest)
      end
  end.

End Str.

(* ===================================================================== *)
(** ** Regular expressions: literals and [\s+], as the source uses them *)
(* ===================================================================== *)

Module RegExp.

Inductive atom : Type :=
| Lit (s : string)     (* a run of literal characters *)
| Spaces.              (* \s+ *)

Record t : Type := { source : list atom; ignoreCase : bool }.

Definition same_char (ic : bool) (a b : ascii) : bool :=
  if ic then Ascii.eqb (Str.lower_ascii a) (Str.lower_ascii b) else Ascii.eqb a b.

(** The rest of [s] after the literal [l], when [s] starts with it. *)
Fixpoint eat (ic : bool) (l s : string) : option string :=
  match l, s with
  | EmptyString, _ => Some s
  | String _ _, EmptyString => None
  | String a l', String b s' => if same_char ic a b then eat ic l' s' else None
  end.

(** A match of the atoms anchored at the start of [s]; [\s+] takes one or
    more white-space characters and every split is tried. *)
Fixpoint match_here (ic : bool) (p : list atom) (s : string) : bool :=
  match p with
  | [] => true
  | Lit l :: p' =>
      match eat ic l s with
      | Some rest => match_here ic p' rest
      | None => false
      end
  | Spaces :: p' =>
      (fix spaces (s : string) : bool :=
         match s with
         | EmptyString => false
         | String c rest =>
             Str.isWhiteSpace c && (match_here ic p' rest || spaces rest)
         end) s
  end.

Fixpoint search (ic : bool) (p : list atom) (s : string) : bool :=
  match_here ic p s ||
  match s with
  | EmptyString => false
  | String _ rest => search ic p rest
  end.

(** [re.test(s)] for a pattern without the [g] or [y] flag: the search
    starts at index 0 and the object keeps no position between calls. *)
Definition test (re : t) (s : string) : bool :=
  search (ignoreCase re) (source re) s.

End RegExp.

(* ===================================================================== *)
(** ** The browser's SpeechRecognition object *)
(* ===================================================================== *)

Module Speech.

(** [Active]: started and not yet ended.  [Stopping]: [stop()] was called,
    the [end] event is still to come.  An engine can be started again only
    once it is [Idle]. *)
Inductive phase : Type := Idle | Active | Stopping.

(** [strict] engines raise on a [stop()] that finds nothing to stop; the
    Web Speech draft asks for the call to be ignored, and the source wraps
    its calls in try/catch for engines that do raise. *)
Record Recognizer : Type := { phase_of : phase; strict : bool }.

Definition fresh (strict : bool) : Recognizer :=
  {| phase_of := Idle; strict := strict |}.

Definition with_phase (p : phase) (r : Recognizer) : Recognizer :=
  {| phase_of := p; strict := strict r |}.

Definition start (r : Recognizer) : Js.completion unit * Recognizer :=
  match phase_of r with
  | Idle => (Js.Normal tt, with_phase Active r)
  | _ => (Js.Throw Js.InvalidStateError, r)
  end.

Definition stop (r : Recognizer) : Js.completion unit * Recognizer :=
  match phase_of r with
  | Active => (Js.Normal tt, with_phase Stopping r)
  | _ => if strict r then (Js.Throw Js.InvalidStateError, r) else (Js.Normal tt, r)
  end.

Definition is_active (r : Recognizer) : bool :=
  match phase_of r with Active => true | _ => false end.

End Speech.

(* ===================================================================== *)
(** ** BrowserWakeWordDetector *)
(* ===================================================================== *)

(** The constructor, [initialize]'s result handler, [start], [stop],
    [_isWakeWord], [onWakeWord] and [addWakeWord].  The detector's own
    [onerror] and [onend] restarts and [setSensitivity] are in module
    [WakeLoop]. *)

Module Wake.

Record Detector : Type := {
  isActive : bool;
  recognition : option Speech.Recognizer;     (* null until initialize() *)
  wakeWords : list string;
  onWakeWordCallback : option Js.callback;
  sensitivity : float
}.

(** Callbacks the detector schedules with setTimeout. *)
Inductive timer : Type :=
| RestartAfterWake.        (* () => { if (this.isActive) this.start(); } *)

Inductive effect : Type :=
| Console (l : Js.level) (msg : string)
| Invoke (cb : Js.callback) (transcript : string)
| SetTimeout (ms : N) (t : timer).

Definition M : Type -> Type := Js.M Detector effect.

Definition set_isActive (b : bool) (d : Detector) : Detector :=
  {| isActive := b; recognition := recognition d; wakeWords := wakeWords d;
     onWakeWordCallback := onWakeWordCallback d; sensitivity := sensitivity d |}.

Definition set_recognition (r : option Speech.Recognizer) (d : Detector) : Detector :=
  {| isActive := isActive d; recognition := r; wakeWords := wakeWords d;
     onWakeWordCallback := onWakeWordCallback d; sensitivity := sensitivity d |}.

Definition set_wakeWords (ws : list string) (d : Detector) : Detector :=
  {| isActive := isActive d; recognition := recognition d; wakeWords := ws;
     onWakeWordCallback := onWakeWordCallback d; sensitivity := sensitivity d |}.

Definition set_onWakeWordCallback (c : option Js.callback) (d : Detector) : Detector :=
  {| isActive := isActive d; recognition := recognition d; wakeWords := wakeWords d;
     onWakeWordCallback := c; sensitivity := sensitivity d |}.

Local Open Scope js_scope.
Local Open Scope string_scope.

(** [constructor()] *)
Definition constructor : Detector :=
  {| isActive := false;
     recognition := None;
     wakeWords := ["hey smartii"; "hey smart"; "smartii"; "computer"];
     onWakeWordCallback := None;
     sensitivity := 0.7%float |}.

(** The pattern literals of [_isWakeWord]. *)
Definition fuzzyPatterns : list RegExp.t :=
  let re := fun p => {| RegExp.source := p; RegExp.ignoreCase := true |} in
  [ re [RegExp.Lit "hey"; RegExp.Spaces; RegExp.Lit "smart"];
    re [RegExp.Lit "hello"; RegExp.Spaces; RegExp.Lit "smart"];
    re [RegExp.Lit "hi"; RegExp.Spaces; RegExp.Lit "smart"];
    re [RegExp.Lit "okay"; RegExp.Spaces; RegExp.Lit "smart"];
    re [RegExp.Lit "computer"] ].

(** [_isWakeWord(text)]: the two loops return [true] at their first hit. *)
Definition _isWakeWord (text : string) : M bool :=
  let text := Str.trim (Str.toLowerCase text) in
  words <- Js.gets wakeWords ;;
  if existsb (fun wakeWord => Str.includes wakeWord text) words then Js.ret true
  else if existsb (fun pattern => RegExp.test pattern text) fuzzyPatterns
       then Js.ret true
       else Js.ret false.

(** [onWakeWord(callback)] *)
Definition onWakeWord (cb : Js.callback) : M unit :=
  Js.modify (set_onWakeWordCallback (Some cb)).

(** [addWakeWord(word)] *)
Definition addWakeWord (word : string) : M unit :=
  words <- Js.gets wakeWords ;;
  if negb (existsb (String.eqb (Str.toLowerCase word)) words) then
    Js.modify (set_wakeWords (words ++ [Str.toLowerCase word])) ;;
    Js.emit (Console Js.LogL ("Added wake word: " ++ word))
  else Js.ret tt.

(** [this.recognition.start()] and [this.recognition.stop()] on the engine
    the detector holds. *)
Definition recognition_start (r : Speech.Recognizer) : M unit :=
  match Speech.start r with
  | (Js.Normal _, r') => Js.modify (set_recognition (Some r'))
  | (Js.Throw e, r') => Js.modify (set_recognition (Some r')) ;; Js.throw e
  end.

Definition recognition_stop (r : Speech.Recognizer) : M unit :=
  match Speech.stop r with
  | (Js.Normal _, r') => Js.modify (set_recognition (Some r'))
  | (Js.Throw e, r') => Js.modify (set_recognition (Some r')) ;; Js.throw e
  end.

(** [initialize()]: [engine] is what [new SpeechRecognition()] yields, or
    [None] where the browser has no such constructor. *)
Definition initialize (engine : option Speech.Recognizer) : M bool :=
  match engine with
  | None =>
      Js.emit (Console Js.ErrorL "Speech recognition not supported in this browser") ;;
      Js.ret false
  | Some r =>
      Js.modify (set_recognition (Some r)) ;;
      Js.ret true
  end.

(** [start()] *)
Definition start : M bool :=
  rec <- Js.gets recognition ;;
  match rec with
  | None =>
      Js.emit (Console Js.ErrorL "Recognition not initialized") ;;
      Js.ret false
  | Some r =>
      active <- Js.gets isActive ;;
      if active then
        Js.emit (Console Js.WarnL "Wake word detection already active") ;;
        Js.ret false
      else
        Js.modify (set_isActive true) ;;
        Js.try_catch
          (recognition_start r ;;
           Js.emit (Console Js.LogL "Wake word listening started") ;;
           Js.ret true)
          (fun _ =>
             Js.emit (Console Js.ErrorL "Failed to start wake word detection") ;;
             Js.ret false)
  end.

(** [stop()] *)
Definition stop : M unit :=
  active <- Js.gets isActive ;;
  if negb active then Js.ret tt
  else
    Js.modify (set_isActive false) ;;
    rec <- Js.gets recognition ;;
    match rec with
    | Some r => Js.try_catch (recognition_stop r) (fun _ => Js.ret tt)
    | None => Js.ret tt
    end ;;
    Js.emit (Console Js.LogL "Wake word detection stopped").

(** [recognition.onresult]: [results] holds, for the indices from
    [event.resultIndex] on, the first alternative's transcript. *)
Fixpoint onresult (results : list string) : M unit :=
  match results with
  | [] => Js.ret tt
  | r :: rest =>
      let transcript := Str.trim (Str.toLowerCase r) in
      hit <- _isWakeWord transcript ;;
      Js.when hit
        (Js.emit (Console Js.LogL "Wake word detected") ;;
         cb <- Js.gets onWakeWordCallback ;;
         match cb with
         | Some c => Js.emit (Invoke c transcript)
         | None => Js.ret tt
         end ;;
         stop ;;
         Js.emit (SetTimeout 1000 RestartAfterWake)) ;;
      onresult rest
  end.

(** The timer callback set by [onresult]. *)
Definition fire (t : timer) : M unit :=
  match t with
  | RestartAfterWake =>
      active <- Js.gets isActive ;;
      Js.when active (_ <- start ;; Js.ret tt)
  end.

(** What the callback of a detection is called with. *)
Definition invoked (t : list effect) : list string :=
  flat_map (fun e => match e with Invoke _ s => [s] | _ => [] end) t.

(** A detector whose word list has grown from the constructor's by calls
    of [addWakeWord]. *)
Definition after_adding (added : list string) (d : Detector) : Detector :=
  fold_left (fun d w => Js.state_of (addWakeWord w d)) added
    (set_wakeWords (wakeWords constructor) d).

(** A detector that was initialized and started. *)
Definition idle_detector : Detector :=
  Js.state_of (initialize (Some (Speech.fresh false)) constructor).

Definition active_detector : Detector := Js.state_of (start idle_detector).

End Wake.

(* ===================================================================== *)
(** ** The browser's speechSynthesis object *)
(* ===================================================================== *)

Module Synthesis.

(** [window.speechSynthesis], as Chromium behaves: [speaking] holds while
    an utterance is queued or being spoken; [cancel()] empties the queue,
    and the utterances it cut still get their last event, later, from the
    event loop. *)
Record Synth : Type := {
  queue : list nat;      (* utterances handed to speak(), the head is spoken *)
  ending : list nat      (* cut by cancel(), last event not yet delivered *)
}.

Definition silent : Synth := {| queue := []; ending := [] |}.

Definition speaking (s : Synth) : bool :=
  match queue s with [] => false | _ :: _ => true end.

Definition speak (u : nat) (s : Synth) : Synth :=
  {| queue := queue s ++ [u]; ending := ending s |}.

Definition cancel (s : Synth) : Synth :=
  {| queue := []; ending := ending s ++ queue s |}.

Definition remove (u : nat) (l : list nat) : list nat :=
  filter (fun v => negb (Nat.eqb u v)) l.

Definition finish (u : nat) (s : Synth) : Synth :=
  {| queue := remove u (queue s); ending := remove u (ending s) |}.

End Synthesis.

(* ===================================================================== *)
(** ** FullDuplexAudioEngine *)
(* ===================================================================== *)

Module Duplex.

(** [audioContext.state] *)
Inductive audio_state : Type := Running | Suspended.

(** Messages sent over the socket, by their [type]. *)
Inductive message : Type :=
| TtsStarted
| TtsEnded
| Interrupt (reason : string)
| VadDetected
| AudioStream.

Inductive effect : Type :=
| Console (l : Js.level) (msg : string)
| SynthCancel                               (* speechSynthesis.cancel() *)
| SynthSpeak (u : nat) (text : string)      (* speechSynthesis.speak(utterance) *)
| WsSend (m : message)
| InterruptCallback (cb : Js.callback) (reason : string)
| VADCallback (cb : Js.callback)
| OnEnd (cb : Js.callback)                  (* the onEnd given to startSpeaking *)
| AudioResume.                              (* audioContext.resume() *)

(** The console line that announces a detection. *)
Definition activity : effect := Console Js.LogL "Voice activity detected".

(** [buffer.length] as a number. *)
Definition length_as_number (buffer : list float) : float :=
  fold_left (fun n _ => n + 1)%float buffer 0%float.

Record Playback : Type := {
  isPlaying : bool;
  currentUtterance : option nat
}.

Definition set_isPlaying (x : bool) (p : Playback) : Playback :=
  {| isPlaying := x; currentUtterance := currentUtterance p |}.

Definition set_currentUtterance (x : option nat) (p : Playback) : Playback :=
  {| isPlaying := isPlaying p; currentUtterance := x |}.

Record Capture : Type := {
  isCapturing : bool;
  vadDetected : bool
}.

Definition set_isCapturing (x : bool) (c : Capture) : Capture :=
  {| isCapturing := x; vadDetected := vadDetected c |}.

Definition set_vadDetected (x : bool) (c : Capture) : Capture :=
  {| isCapturing := isCapturing c; vadDetected := x |}.

Record Browser : Type := {
  synthesis : Synthesis.Synth;   (* window.speechSynthesis *)
  closures : list (option Js.callback);   (* per utterance created, the onEnd its handlers closed over *)
  socketOpen : bool;   (* this.ws && this.ws.readyState === WebSocket.OPEN *)
  timers : list N;   (* due times of the pending setTimeout callbacks *)
  clock : N   (* Date.now(), in ms *)
}.

Definition set_synthesis (x : Synthesis.Synth) (b : Browser) : Browser :=
  {| synthesis := x; closures := closures b; socketOpen := socketOpen b;
     timers := timers b; clock := clock b |}.

Definition set_closures (x : list (option Js.callback)) (b : Browser) : Browser :=
  {| synthesis := synthesis b; closures := x; socketOpen := socketOpen b;
     timers := timers b; clock := clock b |}.

Definition set_socketOpen (x : bool) (b : Browser) : Browser :=
  {| synthesis := synthesis b; closures := closures b; socketOpen := x;
     timers := timers b; clock := clock b |}.

Definition set_timers (x : list N) (b : Browser) : Browser :=
  {| synthesis := synthesis b; closures := closures b; socketOpen :=
     socketOpen b; timers := x; clock := clock b |}.

Definition set_clock (x : N) (b : Browser) : Browser :=
  {| synthesis := synthesis b; closures := closures b; socketOpen :=
     socketOpen b; timers := timers b; clock := x |}.

Record Engine : Type := {
  audioContext : option audio_state;   (* null until initialize() succeeds *)
  playbackState : Playback;
  captureState : Capture;
  isSpeaking : bool;
  isListening : bool;
  isInterrupted : bool;
  vadThreshold : float;
  vadConsecutiveFrames : nat;
  vadFrameCount : nat;
  onInterruptCallbacks : list Js.callback;
  onVADCallbacks : list Js.callback;
  _lastSendTime : option N;   (* undefined until the first send *)
  browser : Browser   (* the page the engine runs in *)
}.

Definition set_audioContext (x : option audio_state) (e : Engine) : Engine :=
  {| audioContext := x; playbackState := playbackState e; captureState :=
     captureState e; isSpeaking := isSpeaking e; isListening := isListening
     e; isInterrupted := isInterrupted e; vadThreshold := vadThreshold e;
     vadConsecutiveFrames := vadConsecutiveFrames e; vadFrameCount :=
     vadFrameCount e; onInterruptCallbacks := onInterruptCallbacks e;
     onVADCallbacks := onVADCallbacks e; _lastSendTime := _lastSendTime e;
     browser := browser e |}.

Definition set_playbackState (x : Playback) (e : Engine) : Engine :=
  {| audioContext := audioContext e; playbackState := x; captureState :=
     captureState e; isSpeaking := isSpeaking e; isListening := isListening
     e; isInterrupted := isInterrupted e; vadThreshold := vadThreshold e;
     vadConsecutiveFrames := vadConsecutiveFrames e; vadFrameCount :=
     vadFrameCount e; onInterruptCallbacks := onInterruptCallbacks e;
     onVADCallbacks := onVADCallbacks e; _lastSendTime := _lastSendTime e;
     browser := browser e |}.

Definition set_captureState (x : Capture) (e : Engine) : Engine :=
  {| audioContext := audioContext e; playbackState := playbackState e;
     captureState := x; isSpeaking := isSpeaking e; isListening :=
     isListening e; isInterrupted := isInterrupted e; vadThreshold :=
     vadThreshold e; vadConsecutiveFrames := vadConsecutiveFrames e;
     vadFrameCount := vadFrameCount e; onInterruptCallbacks :=
     onInterruptCallbacks e; onVADCallbacks := onVADCallbacks e;
     _lastSendTime := _lastSendTime e; browser := browser e |}.

Definition set_isSpeaking (x : bool) (e : Engine) : Engine :=
  {| audioContext := audioContext e; playbackState := playbackState e;
     captureState := captureState e; isSpeaking := x; isListening :=
     isListening e; isInterrupted := isInterrupted e; vadThreshold :=
     vadThreshold e; vadConsecutiveFrames := vadConsecutiveFrames e;
     vadFrameCount := vadFrameCount e; onInterruptCallbacks :=
     onInterruptCallbacks e; onVADCallbacks := onVADCallbacks e;
     _lastSendTime := _lastSendTime e; browser := browser e |}.

Definition set_isListening (x : bool) (e : Engine) : Engine :=
  {| audioContext := audioContext e; playbackState := playbackState e;
     captureState := captureState e; isSpeaking := isSpeaking e; isListening
     := x; isInterrupted := isInterrupted e; vadThreshold := vadThreshold e;
     vadConsecutiveFrames := vadConsecutiveFrames e; vadFrameCount :=
     vadFrameCount e; onInterruptCallbacks := onInterruptCallbacks e;
     onVADCallbacks := onVADCallbacks e; _lastSendTime := _lastSendTime e;
     browser := browser e |}.

Definition set_isInterrupted (x : bool) (e : Engine) : Engine :=
  {| audioContext := audioContext e; playbackState := playbackState e;
     captureState := captureState e; isSpeaking := isSpeaking e; isListening
     := isListening e; isInterrupted := x; vadThreshold := vadThreshold e;
     vadConsecutiveFrames := vadConsecutiveFrames e; vadFrameCount :=
     vadFrameCount e; onInterruptCallbacks := onInterruptCallbacks e;
     onVADCallbacks := onVADCallbacks e; _lastSendTime := _lastSendTime e;
     browser := browser e |}.

Definition set_vadThreshold (x : float) (e : Engine) : Engine :=
  {| audioContext := audioContext e; playbackState := playbackState e;
     captureState := captureState e; isSpeaking := isSpeaking e; isListening
     := isListening e; isInterrupted := isInterrupted e; vadThreshold := x;
     vadConsecutiveFrames := vadConsecutiveFrames e; vadFrameCount :=
     vadFrameCount e; onInterruptCallbacks := onInterruptCallbacks e;
     onVADCallbacks := onVADCallbacks e; _lastSendTime := _lastSendTime e;
     browser := browser e |}.

Definition set_vadConsecutiveFrames (x : nat) (e : Engine) : Engine :=
  {| audioContext := audioContext e; playbackState := playbackState e;
     captureState := captureState e; isSpeaking := isSpeaking e; isListening
     := isListening e; isInterrupted := isInterrupted e; vadThreshold :=
     vadThreshold e; vadConsecutiveFrames := x; vadFrameCount :=
     vadFrameCount e; onInterruptCallbacks := onInterruptCallbacks e;
     onVADCallbacks := onVADCallbacks e; _lastSendTime := _lastSendTime e;
     browser := browser e |}.

Definition set_vadFrameCount (x : nat) (e : Engine) : Engine :=
  {| audioContext := audioContext e; playbackState := playbackState e;
     captureState := captureState e; isSpeaking := isSpeaking e; isListening
     := isListening e; isInterrupted := isInterrupted e; vadThreshold :=
     vadThreshold e; vadConsecutiveFrames := vadConsecutiveFrames e;
     vadFrameCount := x; onInterruptCallbacks := onInterruptCallbacks e;
     onVADCallbacks := onVADCallbacks e; _lastSendTime := _lastSendTime e;
     browser := browser e |}.

Definition set_onInterruptCallbacks (x : list Js.callback) (e : Engine) : Engine :=
  {| audioContext := audioContext e; playbackState := playbackState e;
     captureState := captureState e; isSpeaking := isSpeaking e; isListening
     := isListening e; isInterrupted := isInterrupted e; vadThreshold :=
     vadThreshold e; vadConsecutiveFrames := vadConsecutiveFrames e;
     vadFrameCount := vadFrameCount e; onInterruptCallbacks := x;
     onVADCallbacks := onVADCallbacks e; _lastSendTime := _lastSendTime e;
     browser := browser e |}.

Definition set_onVADCallbacks (x : list Js.callback) (e : Engine) : Engine :=
  {| audioContext := audioContext e; playbackState := playbackState e;
     captureState := captureState e; isSpeaking := isSpeaking e; isListening
     := isListening e; isInterrupted := isInterrupted e; vadThreshold :=
     vadThreshold e; vadConsecutiveFrames := vadConsecutiveFrames e;
     vadFrameCount := vadFrameCount e; onInterruptCallbacks :=
     onInterruptCallbacks e; onVADCallbacks := x; _lastSendTime :=
     _lastSendTime e; browser := browser e |}.

Definition set_lastSendTime (x : option N) (e : Engine) : Engine :=
  {| audioContext := audioContext e; playbackState := playbackState e;
     captureState := captureState e; isSpeaking := isSpeaking e; isListening
     := isListening e; isInterrupted := isInterrupted e; vadThreshold :=
     vadThreshold e; vadConsecutiveFrames := vadConsecutiveFrames e;
     vadFrameCount := vadFrameCount e; onInterruptCallbacks :=
     onInterruptCallbacks e; onVADCallbacks := onVADCallbacks e;
     _lastSendTime := x; browser := browser e |}.

Definition set_browser (x : Browser) (e : Engine) : Engine :=
  {| audioContext := audioContext e; playbackState := playbackState e;
     captureState := captureState e; isSpeaking := isSpeaking e; isListening
     := isListening e; isInterrupted := isInterrupted e; vadThreshold :=
     vadThreshold e; vadConsecutiveFrames := vadConsecutiveFrames e;
     vadFrameCount := vadFrameCount e; onInterruptCallbacks :=
     onInterruptCallbacks e; onVADCallbacks := onVADCallbacks e;
     _lastSendTime := _lastSendTime e; browser := x |}.


Definition M : Type -> Type := Js.M Engine effect.

Local Open Scope js_scope.
Local Open Scope string_scope.

Definition upd_playback (f : Playback -> Playback) : M unit :=
  Js.modify (fun e => set_playbackState (f (playbackState e)) e).

Definition upd_capture (f : Capture -> Capture) : M unit :=
  Js.modify (fun e => set_captureState (f (captureState e)) e).

Definition upd_browser (f : Browser -> Browser) : M unit :=
  Js.modify (fun e => set_browser (f (browser e)) e).

(** [constructor(websocket)], in a page whose synthesizer is silent. *)
Definition constructor (socketOpen : bool) : Engine :=
  {| audioContext := None;
     playbackState := {| isPlaying := false; currentUtterance := None |};
     captureState := {| isCapturing := false; vadDetected := false |};
     isSpeaking := false;
     isListening := false;
     isInterrupted := false;
     vadThreshold := 0.01%float;
     vadConsecutiveFrames := 3;
     vadFrameCount := 0;
     onInterruptCallbacks := [];
     onVADCallbacks := [];
     _lastSendTime := None;
     browser := {| synthesis := Synthesis.silent; closures := []; socketOpen := socketOpen;
                   timers := []; clock := 0 |} |}.

(** [if (this.ws && this.ws.readyState === WebSocket.OPEN) this.ws.send(...)] *)
Definition ws_send (m : message) : M unit :=
  open <- Js.gets (fun e => socketOpen (browser e)) ;;
  Js.when open (Js.emit (WsSend m)).

(** [setTimeout(() => { this.captureState.vadDetected = false; }, ms)] *)
Definition setTimeout (ms : N) : M unit :=
  upd_browser (fun b => set_timers (timers b ++ [(clock b + ms)%N]) b).

(** [initialize()]: [media] is the state of the audio context that the
    page obtains, [None] when [getUserMedia] is refused. *)
Definition initialize (media : option audio_state) : M bool :=
  match media with
  | Some st =>
      Js.modify (set_audioContext (Some st)) ;;
      upd_capture (set_isCapturing true) ;;
      Js.emit (Console Js.LogL "Audio system initialized - Full duplex ready") ;;
      Js.ret true
  | None =>
      Js.emit (Console Js.ErrorL "Audio initialization failed") ;;
      Js.ret false
  end.

(** [startListening()] *)
Definition startListening : M bool :=
  ctx <- Js.gets audioContext ;;
  match ctx with
  | None =>
      Js.emit (Console Js.ErrorL "Audio context not initialized") ;;
      Js.ret false
  | Some st =>
      listening <- Js.gets isListening ;;
      if listening then
        Js.emit (Console Js.WarnL "Already listening") ;;
        Js.ret false
      else
        Js.modify (set_isListening true) ;;
        Js.modify (set_vadFrameCount 0) ;;
        match st with
        | Suspended =>
            Js.emit AudioResume ;;
            Js.modify (set_audioContext (Some Running))
        | Running => Js.ret tt
        end ;;
        Js.emit (Console Js.LogL "Listening started - VAD active") ;;
        Js.ret true
  end.

(** [stopListening()] *)
Definition stopListening : M unit :=
  Js.modify (set_isListening false) ;;
  Js.modify (set_vadFrameCount 0) ;;
  Js.emit (Console Js.LogL "Listening stopped").

(** [stopSpeaking()] *)
Definition stopSpeaking : M unit :=
  speaking <- Js.gets (fun e => Synthesis.speaking (synthesis (browser e))) ;;
  Js.when speaking
    (Js.emit SynthCancel ;;
     upd_browser (fun b => set_synthesis (Synthesis.cancel (synthesis b)) b)) ;;
  Js.modify (set_isSpeaking false) ;;
  upd_playback (set_isPlaying false) ;;
  upd_playback (set_currentUtterance None) ;;
  Js.emit (Console Js.LogL "Speaking STOPPED").

(** [startSpeaking(text, onEnd)].  The new utterance is named by its rank
    among the utterances created so far; its three handlers are
    [utterance_onstart], [utterance_onend] and [utterance_onerror] below,
    the second closed over [onEnd].  The choice of a voice has no bearing
    on the engine's state and is left out. *)
Definition startSpeaking (text : string) (onEnd : option Js.callback) : M unit :=
  if String.eqb text "" then Js.ret tt
  else
    stopSpeaking ;;
    Js.modify (set_isSpeaking true) ;;
    Js.modify (set_isInterrupted false) ;;
    u <- Js.gets (fun e => List.length (closures (browser e))) ;;
    upd_browser (fun b => set_closures (closures b ++ [onEnd]) b) ;;
    upd_playback (set_currentUtterance (Some u)) ;;
    upd_browser (fun b => set_synthesis (Synthesis.speak u (synthesis b)) b) ;;
    Js.emit (SynthSpeak u text) ;;
    Js.emit (Console Js.LogL "Speaking").

(** [utterance.onstart] *)
Definition utterance_onstart : M unit :=
  Js.emit (Console Js.LogL "Speaking started") ;;
  upd_playback (set_isPlaying true) ;;
  ws_send TtsStarted.

(** [utterance.onend], for an utterance made with the callback [onEnd]. *)
Definition utterance_onend (onEnd : option Js.callback) : M unit :=
  Js.emit (Console Js.LogL "Speaking ended") ;;
  Js.modify (set_isSpeaking false) ;;
  upd_playback (set_isPlaying false) ;;
  upd_playback (set_currentUtterance None) ;;
  ws_send TtsEnded ;;
  interrupted <- Js.gets isInterrupted ;;
  match onEnd with
  | Some cb => Js.when (negb interrupted) (Js.emit (OnEnd cb))
  | None => Js.ret tt
  end.

(** [utterance.onerror] *)
Definition utterance_onerror : M unit :=
  Js.emit (Console Js.ErrorL "Speech error") ;;
  Js.modify (set_isSpeaking false) ;;
  upd_playback (set_isPlaying false).

(** [interrupt(reason = 'user_interrupt')] *)
Definition interrupt (reason : string) : M unit :=
  Js.emit (Console Js.WarnL ("INTERRUPT: " ++ reason)) ;;
  Js.modify (set_isInterrupted true) ;;
  stopSpeaking ;;
  ws_send (Interrupt reason) ;;
  cbs <- Js.gets onInterruptCallbacks ;;
  Js.forEach cbs (fun cb => Js.emit (InterruptCallback cb reason)) ;;
  _ <- startListening ;;
  Js.ret tt.

(** [_onVoiceActivityDetected()] *)
Definition _onVoiceActivityDetected : M unit :=
  detected <- Js.gets (fun e => vadDetected (captureState e)) ;;
  Js.when (negb detected)
    (upd_capture (set_vadDetected true) ;;
     Js.emit activity ;;
     speaking <- Js.gets isSpeaking ;;
     Js.when speaking (interrupt "vad_detected") ;;
     ws_send VadDetected ;;
     cbs <- Js.gets onVADCallbacks ;;
     Js.forEach cbs (fun cb => Js.emit (VADCallback cb)) ;;
     setTimeout 1000).

(** [_calculateRMS(buffer)] *)
Definition _calculateRMS (buffer : list float) : float :=
  let sum := fold_left (fun sum x => sum + x * x)%float buffer 0%float in
  sqrt (sum / length_as_number buffer).

Arguments _calculateRMS : simpl never.

(** [_sendAudioToBackend(audioData)]: the throttle is modelled, the
    Int16/base64 encoding of the payload is not. *)
Definition _sendAudioToBackend (audioData : list float) : M unit :=
  last <- Js.gets _lastSendTime ;;
  now <- Js.gets (fun e => clock (browser e)) ;;
  let due :=
    match last with
    | None => true
    | Some t => (t =? 0)%N || (100 <? now - t)%N
    end in
  Js.when due
    (Js.modify (set_lastSendTime (Some now)) ;;
     ws_send AudioStream).

(** [this.processor.onaudioprocess] *)
Definition onaudioprocess (inputData : list float) : M unit :=
  listening <- Js.gets isListening ;;
  if negb listening then Js.ret tt
  else
    let rms := _calculateRMS inputData in
    threshold <- Js.gets vadThreshold ;;
    (if ltb threshold rms then
       Js.modify (fun e => set_vadFrameCount (S (vadFrameCount e)) e) ;;
       count <- Js.gets vadFrameCount ;;
       needed <- Js.gets vadConsecutiveFrames ;;
       Js.when (Nat.leb needed count)
         (_onVoiceActivityDetected ;;
          Js.modify (set_vadFrameCount 0))
     else Js.modify (set_vadFrameCount 0)) ;;
    _sendAudioToBackend inputData.

(** [onInterrupt(callback)] and [onVAD(callback)] *)
Definition onInterrupt (cb : Js.callback) : M unit :=
  Js.modify (fun e => set_onInterruptCallbacks (onInterruptCallbacks e ++ [cb]) e).

Definition onVAD (cb : Js.callback) : M unit :=
  Js.modify (fun e => set_onVADCallbacks (onVADCallbacks e ++ [cb]) e).

(** *** The engine in its page: what can happen next *)

Inductive event : Type :=
| Initialize (media : option audio_state)
| StartListening
| StopListening
| StartSpeaking (text : string) (onEnd : option Js.callback)
| StopSpeaking
| Interrupt_ (reason : string)
| OnInterrupt (cb : Js.callback)
| OnVAD (cb : Js.callback)
| AudioProcess (inputData : list float)    (* the processor delivers a frame *)
| UtteranceStart (u : nat)                 (* the synthesizer's events *)
| UtteranceEnd (u : nat)
| UtteranceError (u : nat)
| Timeout                                  (* the oldest pending timer fires *)
| Tick (ms : N)                            (* time passes *)
| Socket (open : bool).                    (* the socket opens or closes *)

Definition drop {A} (m : M A) : M unit := _ <- m ;; Js.ret tt.

(** An utterance's last event ([end] or [error]) takes it out of the
    synthesizer; it comes for the utterance being spoken and for one that
    [cancel()] has cut. *)
Definition finishes (u : nat) (e : Engine) : bool :=
  let s := synthesis (browser e) in
  match Synthesis.queue s with
  | v :: _ => Nat.eqb u v || existsb (Nat.eqb u) (Synthesis.ending s)
  | [] => existsb (Nat.eqb u) (Synthesis.ending s)
  end.

Definition starts (u : nat) (e : Engine) : bool :=
  match Synthesis.queue (synthesis (browser e)) with
  | v :: _ => Nat.eqb u v
  | [] => false
  end.

Definition due (e : Engine) : bool :=
  match timers (browser e) with
  | t :: _ => (t <=? clock (browser e))%N
  | [] => false
  end.

Definition closure_of (u : nat) (e : Engine) : option Js.callback :=
  nth u (closures (browser e)) None.

(** The handler that runs for an event; an event that cannot happen in
    the current state (a frame before [initialize], the end of an
    utterance that is not in the synthesizer, a timer that is not due)
    runs nothing. *)
Definition handler (ev : event) : M unit :=
  match ev with
  | Initialize media => drop (initialize media)
  | StartListening => drop startListening
  | StopListening => stopListening
  | StartSpeaking text onEnd => startSpeaking text onEnd
  | StopSpeaking => stopSpeaking
  | Interrupt_ reason => interrupt reason
  | OnInterrupt cb => onInterrupt cb
  | OnVAD cb => onVAD cb
  | AudioProcess inputData =>
      ctx <- Js.gets audioContext ;;
      match ctx with
      | Some _ => onaudioprocess inputData
      | None => Js.ret tt
      end
  | UtteranceStart u =>
      can <- Js.gets (starts u) ;;
      Js.when can utterance_onstart
  | UtteranceEnd u =>
      can <- Js.gets (finishes u) ;;
      onEnd <- Js.gets (closure_of u) ;;
      Js.when can
        (upd_browser (fun b => set_synthesis (Synthesis.finish u (synthesis b)) b) ;;
         utterance_onend onEnd)
  | UtteranceError u =>
      can <- Js.gets (finishes u) ;;
      Js.when can
        (upd_browser (fun b => set_synthesis (Synthesis.finish u (synthesis b)) b) ;;
         utterance_onerror)
  | Timeout =>
      can <- Js.gets due ;;
      Js.when can
        (upd_browser (fun b => set_timers (tl (timers b)) b) ;;
         upd_capture (set_vadDetected false))
  | Tick ms => upd_browser (fun b => set_clock (clock b + ms)%N b)
  | Socket open => upd_browser (set_socketOpen open)
  end.

(** Running a sequence of events: the final state and everything observed. *)
Fixpoint run (evs : list event) (e : Engine) : Engine * list effect :=
  match evs with
  | [] => (e, [])
  | ev :: rest =>
      match handler ev e with
      | (_, e1, t1) =>
          match run rest e1 with
          | (e2, t2) => (e2, (t1 ++ t2)%list)
          end
      end
  end.

(** How many times voice activity was announced on the console.  What
    else a detection does (the message on the socket, the callbacks, the
    interruption, the timer) is observed in module [Vad]. *)
Definition is_activity (x : effect) : bool :=
  match x with
  | Console Js.LogL msg => String.eqb msg "Voice activity detected"
  | _ => false
  end.

Definition activities (t : list effect) : nat := List.length (filter is_activity t).

Arguments activities : simpl never.

(** Is the frame's RMS above the engine's threshold?  Does it complete a
    run of [vadConsecutiveFrames] such frames? *)
Definition loud (e : Engine) (f : list float) : bool :=
  ltb (vadThreshold e) (_calculateRMS f).

Definition confirms (e : Engine) (f : list float) : bool :=
  loud e f && Nat.leb (vadConsecutiveFrames e) (S (vadFrameCount e)).

Definition is_timeout (ev : event) : bool :=
  match ev with Timeout => true | _ => false end.

Definition is_startSpeaking (ev : event) : bool :=
  match ev with StartSpeaking _ _ => true | _ => false end.

(** The completion callbacks that ran. *)
Definition completions (t : list effect) : list Js.callback :=
  flat_map (fun x => match x with OnEnd cb => [cb] | _ => [] end) t.

Arguments completions : simpl never.

(** *** Sample states and inputs *)

(** An engine that listens, and one that also speaks. *)
Definition listening_engine : Engine :=
  fst (run [Initialize (Some Running); StartListening] (constructor true)).

Definition speaking_engine : Engine :=
  fst (run [Initialize (Some Running); StartListening;
            StartSpeaking "It is sunny today" (Some 7); UtteranceStart 0]
         (constructor true)).

Definition loud_frame : list float := [0.5; (-0.5); 0.25; (-0.25)]%float.
Definition quiet_frame : list float := [0.001; (-0.002); 0; 0.001]%float.

(** Frames 128 ms apart (2048 samples at 16 kHz), all above the threshold. *)
Definition burst (n : nat) : list event :=
  flat_map (fun _ => [AudioProcess loud_frame; Tick 128%N]) (seq 0 n).

End Duplex.

(* ===================================================================== *)
(** ** script.js: recognition and synthesis orchestration *)
(* ===================================================================== *)

(** Updates of the DOM (class lists, text content, the waveform and the
    holographic sphere) never feed back into the logic and are left out;
    [updateStatus], [alert], [addMessage] and the calls into the browser's
    engines are kept as effects. *)

Module App.

(** The closures the script hands to [setTimeout]. *)
Inductive timer : Type :=
| ProcessFinal (finalTranscript : string)   (* onresult, 200 ms *)
| NoSpeechRestartContinuous                 (* onerror, 300 ms *)
| NoSpeechRestartSingle                     (* onerror, 300 ms *)
| EndRestart                                (* onend, 100 ms *)
| RetryStartListening (continuous : bool)   (* startListening, 300 ms *)
| ForceRetry (continuous : bool)            (* startListening's catch, 500 ms *)
| HideTranscription                         (* stopListening, 3000 ms *)
| ResumeAfterSpeech                         (* utterance.onend, 2000 ms *)
| ResumeAfterSpeechError.                   (* utterance.onerror, 1500 ms *)

Inductive kind : Type := Success | Info | Warning | Failure.

Inductive sender : Type := User | Assistant.

Inductive effect : Type :=
| Console (l : Js.level) (msg : string)
| Status (msg : string) (k : kind)                 (* updateStatus(msg, k) *)
| Alert (msg : string)
| AddMessage (text : string) (who : sender)
| Heard (interim final : string)                   (* onresult ran: 'Speech detected!' *)
| RecognitionStart (c : Js.completion unit)        (* state.recognition.start() *)
| RecognitionStop (c : Js.completion unit)         (* state.recognition.stop() *)
| BackendRequest (text : string)                   (* fetch(.../chat) *)
| SynthCancel                                      (* state.synthesis.cancel() *)
| SynthSpeak (u : nat) (text : string)             (* state.synthesis.speak(utterance) *)
| FromWake (e : Wake.effect)                       (* effects of the wake-word detector *)
| Uncaught (e : Js.exn).                           (* an exception reached the event loop *)

Record Settings : Type := {
  voiceEnabled : bool;
  alwaysListening : bool
}.

Definition set_voiceEnabled (x : bool) (c : Settings) : Settings :=
  {| voiceEnabled := x; alwaysListening := alwaysListening c |}.

Definition set_alwaysListening (x : bool) (c : Settings) : Settings :=
  {| voiceEnabled := voiceEnabled c; alwaysListening := x |}.

Record State : Type := {
  isListening : bool;
  isSpeaking : bool;
  isRecognitionActive : bool;
  continuousListening : bool;
  recognition : option Speech.Recognizer;   (* null where the browser has no SpeechRecognition *)
  synthesis : option Synthesis.Synth;   (* window.speechSynthesis *)
  settings : Settings
}.

Definition set_isListening (x : bool) (s : State) : State :=
  {| isListening := x; isSpeaking := isSpeaking s; isRecognitionActive :=
     isRecognitionActive s; continuousListening := continuousListening s;
     recognition := recognition s; synthesis := synthesis s; settings :=
     settings s |}.

Definition set_isSpeaking (x : bool) (s : State) : State :=
  {| isListening := isListening s; isSpeaking := x; isRecognitionActive :=
     isRecognitionActive s; continuousListening := continuousListening s;
     recognition := recognition s; synthesis := synthesis s; settings :=
     settings s |}.

Definition set_isRecognitionActive (x : bool) (s : State) : State :=
  {| isListening := isListening s; isSpeaking := isSpeaking s;
     isRecognitionActive := x; continuousListening := continuousListening s;
     recognition := recognition s; synthesis := synthesis s; settings :=
     settings s |}.

Definition set_continuousListening (x : bool) (s : State) : State :=
  {| isListening := isListening s; isSpeaking := isSpeaking s;
     isRecognitionActive := isRecognitionActive s; continuousListening := x;
     recognition := recognition s; synthesis := synthesis s; settings :=
     settings s |}.

Definition set_recognition (x : option Speech.Recognizer) (s : State) : State :=
  {| isListening := isListening s; isSpeaking := isSpeaking s;
     isRecognitionActive := isRecognitionActive s; continuousListening :=
     continuousListening s; recognition := x; synthesis := synthesis s;
     settings := settings s |}.

Definition set_synthesis (x : option Synthesis.Synth) (s : State) : State :=
  {| isListening := isListening s; isSpeaking := isSpeaking s;
     isRecognitionActive := isRecognitionActive s; continuousListening :=
     continuousListening s; recognition := recognition s; synthesis := x;
     settings := settings s |}.

Definition set_settings (x : Settings) (s : State) : State :=
  {| isListening := isListening s; isSpeaking := isSpeaking s;
     isRecognitionActive := isRecognitionActive s; continuousListening :=
     continuousListening s; recognition := recognition s; synthesis :=
     synthesis s; settings := x |}.

Record Page : Type := {
  state : State;   (* the global object [state] *)
  wakeWordDetector : option Wake.Detector;   (* null until initWakeWordDetection() *)
  utterances : nat;   (* how many utterances speakText has created *)
  inFlight : nat;   (* chat requests awaiting the backend's reply *)
  timers : list (N * timer);   (* pending setTimeout callbacks with their due times *)
  clock : N   (* time, in ms *)
}.

Definition set_state (x : State) (p : Page) : Page :=
  {| state := x; wakeWordDetector := wakeWordDetector p; utterances :=
     utterances p; inFlight := inFlight p; timers := timers p; clock :=
     clock p |}.

Definition set_wakeWordDetector (x : option Wake.Detector) (p : Page) : Page :=
  {| state := state p; wakeWordDetector := x; utterances := utterances p;
     inFlight := inFlight p; timers := timers p; clock := clock p |}.

Definition set_utterances (x : nat) (p : Page) : Page :=
  {| state := state p; wakeWordDetector := wakeWordDetector p; utterances :=
     x; inFlight := inFlight p; timers := timers p; clock := clock p |}.

Definition set_inFlight (x : nat) (p : Page) : Page :=
  {| state := state p; wakeWordDetector := wakeWordDetector p; utterances :=
     utterances p; inFlight := x; timers := timers p; clock := clock p |}.

Definition set_timers (x : list (N * timer)) (p : Page) : Page :=
  {| state := state p; wakeWordDetector := wakeWordDetector p; utterances :=
     utterances p; inFlight := inFlight p; timers := x; clock := clock p |}.

Definition set_clock (x : N) (p : Page) : Page :=
  {| state := state p; wakeWordDetector := wakeWordDetector p; utterances :=
     utterances p; inFlight := inFlight p; timers := timers p; clock := x |}.

Definition M : Type -> Type := Js.M Page effect.

Local Open Scope js_scope.
Local Open Scope string_scope.

Definition upd_state (f : State -> State) : M unit :=
  Js.modify (fun p => set_state (f (state p)) p).

Definition get_state {A} (f : State -> A) : M A :=
  Js.gets (fun p => f (state p)).

(** [setTimeout(t, ms)] *)
Definition setTimeout (t : timer) (ms : N) : M unit :=
  Js.modify (fun p => set_timers (timers p ++ [((clock p + ms)%N, t)]) p).

(** The declaration of [state], with the settings' defaults. *)
Definition initial_state : State :=
  {| isListening := false;
     isSpeaking := false;
     isRecognitionActive := false;
     continuousListening := false;
     recognition := None;
     synthesis := Some Synthesis.silent;
     settings := {| voiceEnabled := true; alwaysListening := true |} |}.

(** The page once [initSpeechRecognition()] and [initWakeWordDetection()]
    have found their engines. *)
Definition loaded (strict : bool) : Page :=
  {| state := set_recognition (Some (Speech.fresh strict)) initial_state;
     wakeWordDetector :=
       Some (Wake.set_recognition (Some (Speech.fresh strict)) Wake.constructor);
     utterances := 0;
     inFlight := 0;
     timers := [];
     clock := 0 |}.

(** [state.recognition.start()] and [state.recognition.stop()]; the
    callers have tested that [state.recognition] is there. *)
Definition recognition_start : M unit :=
  rec <- get_state recognition ;;
  match rec with
  | Some r =>
      match Speech.start r with
      | (c, r') =>
          upd_state (set_recognition (Some r')) ;;
          Js.emit (RecognitionStart c) ;;
          match c with
          | Js.Normal _ => Js.ret tt
          | Js.Throw e => Js.throw e
          end
      end
  | None => Js.throw (Js.Error "state.recognition is null")
  end.

Definition recognition_stop : M unit :=
  rec <- get_state recognition ;;
  match rec with
  | Some r =>
      match Speech.stop r with
      | (c, r') =>
          upd_state (set_recognition (Some r')) ;;
          Js.emit (RecognitionStop c) ;;
          match c with
          | Js.Normal _ => Js.ret tt
          | Js.Throw e => Js.throw e
          end
      end
  | None => Js.throw (Js.Error "state.recognition is null")
  end.

(** A method of the wake-word detector [d], run on the page's detector. *)
Definition on_detector {A} (d : Wake.Detector) (m : Wake.M A) : M A :=
  Js.zoom (fun _ => d) (fun d' p => set_wakeWordDetector (Some d') p) FromWake m.

(** [error.message] as the script reads it. *)
Definition message (e : Js.exn) : string :=
  match e with
  | Js.InvalidStateError => "recognition has already started"
  | Js.NotAllowedError => "permission denied"
  | Js.Error m => m
  end.

(** [stopListening()] *)
Definition stopListening : M unit :=
  upd_state (set_isListening false) ;;
  upd_state (set_isRecognitionActive false) ;;
  upd_state (set_continuousListening false) ;;
  Js.emit (Status "Ready" Success) ;;
  rec <- get_state recognition ;;
  match rec with
  | Some _ => Js.try_catch recognition_stop (fun _ => Js.ret tt)
  | None => Js.ret tt
  end ;;
  setTimeout HideTranscription 3000.

(** [startListening(continuous = false)] *)
Definition startListening (continuous : bool) : M unit :=
  rec <- get_state recognition ;;
  match rec with
  | None =>
      Js.emit (Alert "Speech recognition is not supported in your browser.")
  | Some _ =>
      Js.emit (Console Js.LogL "startListening called") ;;
      active <- get_state isRecognitionActive ;;
      if active then
        Js.emit (Console Js.WarnL "Recognition already active, stopping first") ;;
        Js.try_catch recognition_stop
          (fun _ => Js.emit (Console Js.LogL "Error stopping existing recognition")) ;;
        setTimeout (RetryStartListening continuous) 300
      else
        upd_state (set_continuousListening continuous) ;;
        upd_state (set_isListening true) ;;
        (if continuous
         then Js.emit (Status "Continuous mode - Always listening" Success)
         else Js.emit (Status "Listening - Speak now!" Success)) ;;
        Js.try_catch
          (recognition_start ;;
           upd_state (set_isRecognitionActive true) ;;
           Js.emit (Console Js.LogL "Recognition start() called successfully"))
          (fun error =>
             Js.emit (Console Js.ErrorL "Failed to start recognition") ;;
             upd_state (set_isListening false) ;;
             upd_state (set_isRecognitionActive false) ;;
             if Str.includes "permission" (message error) then
               Js.emit (Status "Microphone access denied" Failure) ;;
               Js.emit (Alert "SMARTII needs microphone access.")
             else if Str.includes "already started" (message error) then
               Js.emit (Console Js.WarnL "Recognition already started, retrying...") ;;
               setTimeout (ForceRetry continuous) 500
             else
               Js.emit (Status ("Failed to start: " ++ message error) Failure) ;;
               Js.emit (Alert ("Voice recognition error: " ++ message error)))
  end.

(** [toggleListening()]; [isMobile] is the outcome of the user-agent test. *)
Definition toggleListening (isMobile : bool) : M unit :=
  listening <- get_state isListening ;;
  if listening then stopListening else startListening isMobile.

(** [speakText(text)].  The utterance made here has the handlers
    [utterance_onend] and [utterance_onerror] below. *)
Definition speakText (text : string) : M unit :=
  syn <- get_state synthesis ;;
  match syn with
  | None => Js.ret tt
  | Some _ =>
      wd <- Js.gets wakeWordDetector ;;
      match wd with
      | Some d =>
          Js.when (Wake.isActive d)
            (on_detector d Wake.stop ;;
             Js.emit (Console Js.LogL "Wake word stopped during speech"))
      | None => Js.ret tt
      end ;;
      rec <- get_state recognition ;;
      listening <- get_state isListening ;;
      match rec with
      | Some _ =>
          Js.when listening
            (Js.try_catch
               (recognition_stop ;;
                upd_state (set_isListening false) ;;
                upd_state (set_isRecognitionActive false))
               (fun _ => Js.ret tt))
      | None => Js.ret tt
      end ;;
      upd_state (set_isSpeaking true) ;;
      Js.emit SynthCancel ;;
      upd_state (fun s => set_synthesis (option_map Synthesis.cancel (synthesis s)) s) ;;
      u <- Js.gets utterances ;;
      Js.modify (set_utterances (S u)) ;;
      upd_state (fun s => set_synthesis (option_map (Synthesis.speak u) (synthesis s)) s) ;;
      Js.emit (SynthSpeak u text)
  end.

(** What the two resume timers do once they fire. *)
Definition resume_wake (announce : bool) : M unit :=
  wd <- Js.gets wakeWordDetector ;;
  match wd with
  | Some d =>
      Js.when (negb (Wake.isActive d))
        (_ <- on_detector d Wake.start ;;
         Js.when announce (Js.emit (Console Js.LogL "Wake word detection resumed")))
  | None => Js.ret tt
  end.

(** [utterance.onend] and [utterance.onerror] of [speakText] *)
Definition utterance_onend : M unit :=
  Js.emit (Console Js.LogL "Speech finished") ;;
  upd_state (set_isSpeaking false) ;;
  always <- get_state (fun s => alwaysListening (settings s)) ;;
  Js.when always (setTimeout ResumeAfterSpeech 2000).

Definition utterance_onerror : M unit :=
  Js.emit (Console Js.ErrorL "Speech error") ;;
  upd_state (set_isSpeaking false) ;;
  always <- get_state (fun s => alwaysListening (settings s)) ;;
  Js.when always (setTimeout ResumeAfterSpeechError 1500).

Definition stopped_listening : string :=
  "Stopped listening. Click the microphone button when you want to talk again.".

(** [processUserMessage(text)] up to its [await]: the request is sent and
    the function is suspended until the reply comes. *)
Definition processUserMessage (text : string) : M unit :=
  if String.eqb (Str.trim text) "" then Js.ret tt
  else
    rec <- get_state recognition ;;
    listening <- get_state isListening ;;
    match rec with
    | Some _ =>
        Js.when listening
          (Js.try_catch
             (recognition_stop ;;
              upd_state (set_isListening false) ;;
              upd_state (set_isRecognitionActive false))
             (fun _ => Js.ret tt))
    | None => Js.ret tt
    end ;;
    let lowerText := Str.toLowerCase text in
    if Str.includes "stop listening" lowerText
       || Str.includes "deactivate" lowerText
       || Str.includes "go to sleep" lowerText
    then
      Js.emit (AddMessage text User) ;;
      Js.emit (AddMessage stopped_listening Assistant) ;;
      voice <- get_state (fun s => voiceEnabled (settings s)) ;;
      Js.when voice (speakText stopped_listening) ;;
      upd_state (fun s => set_settings (set_alwaysListening false (settings s)) s) ;;
      stopListening
    else
      Js.emit (AddMessage text User) ;;
      Js.emit (Status "Processing..." Info) ;;
      Js.emit (BackendRequest text) ;;
      Js.modify (fun p => set_inFlight (S (inFlight p)) p).

(** [processUserMessage] from its [await] on: [sendMessageToBackend] never
    rejects, [response] is the reply's text or the apology it substitutes.
    Opening the reply's URL in a new tab is left out. *)
Definition processUserMessage_resumed (response : string) : M unit :=
  Js.modify (fun p => set_inFlight (pred (inFlight p)) p) ;;
  Js.emit (AddMessage response Assistant) ;;
  voice <- get_state (fun s => voiceEnabled (settings s)) ;;
  Js.when voice (speakText response) ;;
  Js.emit (Status "Ready" Success).

(** [state.recognition.onstart] *)
Definition onstart : M unit :=
  Js.emit (Console Js.LogL "Speech recognition started successfully") ;;
  upd_state (set_isListening true) ;;
  upd_state (set_isRecognitionActive true) ;;
  Js.emit (Status "Listening - Speak now!" Success).

(** [state.recognition.onresult]: [results] are the entries from
    [event.resultIndex] on, each with its first transcript and [isFinal]. *)
Definition onresult (results : list (string * bool)) : M unit :=
  let interimTranscript :=
    fold_left (fun (acc : string) (r : string * bool) =>
                 if snd r then acc else acc ++ fst r) results "" in
  let finalTranscript :=
    fold_left (fun (acc : string) (r : string * bool) =>
                 if snd r then acc ++ fst r else acc) results "" in
  Js.emit (Heard interimTranscript finalTranscript) ;;
  Js.when (negb (String.eqb interimTranscript ""))
    (Js.emit (Console Js.LogL ("Hearing: " ++ interimTranscript))) ;;
  Js.when (negb (String.eqb finalTranscript ""))
    (Js.emit (Console Js.LogL ("Final transcript: " ++ finalTranscript)) ;;
     continuous <- get_state continuousListening ;;
     Js.when (negb continuous) stopListening ;;
     setTimeout (ProcessFinal finalTranscript) 200).

(** [state.recognition.onerror] *)
Definition onerror (error : string) : M unit :=
  Js.emit (Console Js.LogL ("Speech recognition error: " ++ error)) ;;
  upd_state (set_isRecognitionActive false) ;;
  if String.eqb error "aborted" then Js.ret tt
  else if String.eqb error "no-speech" then
    Js.emit (Console Js.LogL "No speech detected, but keeping microphone active...") ;;
    continuous <- get_state continuousListening ;;
    listening <- get_state isListening ;;
    if continuous && listening then
      Js.emit (Console Js.LogL "Continuous mode: Restarting after no-speech...") ;;
      setTimeout NoSpeechRestartContinuous 300
    else
      Js.emit (Status "Still listening - Speak now!" Success) ;;
      setTimeout NoSpeechRestartSingle 300
  else
    stopListening ;;
    if String.eqb error "not-allowed" || String.eqb error "permission-denied" then
      Js.emit (Status "Microphone access denied. Please allow microphone access." Failure) ;;
      Js.emit (Alert "SMARTII needs microphone access to work.")
    else
      Js.emit (Status ("Error: " ++ error) Failure).

(** [state.recognition.onend] *)
Definition onend : M unit :=
  Js.emit (Console Js.LogL "Recognition ended") ;;
  upd_state (set_isRecognitionActive false) ;;
  listening <- get_state isListening ;;
  speaking <- get_state isSpeaking ;;
  if listening && negb speaking then
    Js.emit (Console Js.LogL "Restarting recognition to keep listening...") ;;
    setTimeout EndRestart 100
  else
    Js.emit (Console Js.LogL "Stopping recognition completely").

(** The body of each timer callback. *)
Definition fire (t : timer) : M unit :=
  match t with
  | ProcessFinal finalTranscript => processUserMessage finalTranscript
  | NoSpeechRestartContinuous =>
      continuous <- get_state continuousListening ;;
      listening <- get_state isListening ;;
      Js.when (continuous && listening)
        (Js.try_catch recognition_start
           (fun _ => Js.emit (Console Js.ErrorL "Restart failed")))
  | NoSpeechRestartSingle =>
      continuous <- get_state continuousListening ;;
      listening <- get_state isListening ;;
      Js.when (listening && negb continuous)
        (Js.try_catch recognition_start
           (fun _ => Js.emit (Console Js.ErrorL "Restart failed")))
  | EndRestart =>
      listening <- get_state isListening ;;
      active <- get_state isRecognitionActive ;;
      Js.when (listening && negb active) recognition_start
  | RetryStartListening continuous => startListening continuous
  | ForceRetry continuous =>
      upd_state (set_isRecognitionActive false) ;;
      startListening continuous
  | HideTranscription => Js.ret tt
  | ResumeAfterSpeech =>
      Js.emit (Console Js.LogL "Restarting listening after speech...") ;;
      startListening false ;;
      resume_wake true
  | ResumeAfterSpeechError =>
      startListening false ;;
      resume_wake false
  end.

(** *** The page and its event loop *)

Inductive event : Type :=
| Click (isMobile : bool)                        (* microphone button, space bar *)
| UserMessage (text : string)                    (* Enter or the send button *)
| BackendReply (response : string)               (* the awaited fetch settles *)
| RecognitionStarted                             (* the engine's events *)
| RecognitionResult (results : list (string * bool))
| RecognitionError (error : string)
| RecognitionEnded
| UtteranceEnd (u : nat)                         (* the synthesizer's events *)
| UtteranceError (u : nat)
| Fire (k : nat)                                 (* the k-th pending timer fires *)
| Tick (ms : N).                                 (* time passes *)

Definition engine_phase (p : Page) : option Speech.phase :=
  option_map Speech.phase_of (recognition (state p)).

(** The recognition engine delivers results only while it is active; a
    session that was started ends with [end], after [stop()] as well. *)
Definition hearing (p : Page) : bool :=
  match engine_phase p with
  | Some Speech.Active => true
  | _ => false
  end.

Definition in_session (p : Page) : bool :=
  match engine_phase p with
  | Some Speech.Active | Some Speech.Stopping => true
  | _ => false
  end.

Definition playing (p : Page) : bool :=
  match synthesis (state p) with
  | Some s => Synthesis.speaking s
  | None => false
  end.

Definition finishes (u : nat) (p : Page) : bool :=
  match synthesis (state p) with
  | Some s =>
      match Synthesis.queue s with
      | v :: _ => Nat.eqb u v || existsb (Nat.eqb u) (Synthesis.ending s)
      | [] => existsb (Nat.eqb u) (Synthesis.ending s)
      end
  | None => false
  end.

Definition finish (u : nat) : M unit :=
  upd_state (fun s => set_synthesis (option_map (Synthesis.finish u) (synthesis s)) s).

Definition session_over : M unit :=
  upd_state (fun s =>
    set_recognition (option_map (Speech.with_phase Speech.Idle) (recognition s)) s).

Fixpoint remove_nth {A} (k : nat) (l : list A) : list A :=
  match k, l with
  | _, [] => []
  | O, _ :: rest => rest
  | S k', x :: rest => x :: remove_nth k' rest
  end.

(** The handler that runs for an event; an event that cannot happen in
    the current state runs nothing. *)
Definition handler (ev : event) : M unit :=
  match ev with
  | Click isMobile => toggleListening isMobile
  | UserMessage text => processUserMessage text
  | BackendReply response =>
      waiting <- Js.gets inFlight ;;
      match waiting with
      | O => Js.ret tt
      | S _ => processUserMessage_resumed response
      end
  | RecognitionStarted =>
      can <- Js.gets hearing ;;
      Js.when can onstart
  | RecognitionResult results =>
      can <- Js.gets hearing ;;
      Js.when can (onresult results)
  | RecognitionError error =>
      can <- Js.gets in_session ;;
      Js.when can (onerror error)
  | RecognitionEnded =>
      can <- Js.gets in_session ;;
      Js.when can (session_over ;; onend)
  | UtteranceEnd u =>
      can <- Js.gets (finishes u) ;;
      Js.when can (finish u ;; utterance_onend)
  | UtteranceError u =>
      can <- Js.gets (finishes u) ;;
      Js.when can (finish u ;; utterance_onerror)
  | Fire k =>
      pending <- Js.gets (fun p => nth_error (timers p) k) ;;
      now <- Js.gets clock ;;
      match pending with
      | Some (at_, t) =>
          Js.when (at_ <=? now)%N
            (Js.modify (fun p => set_timers (remove_nth k (timers p)) p) ;;
             fire t)
      | None => Js.ret tt
      end
  | Tick ms => Js.modify (fun p => set_clock (clock p + ms)%N p)
  end.

(** One turn of the event loop: an exception nobody caught is reported
    and the loop goes on. *)
Definition turn (ev : event) (p : Page) : Page * list effect :=
  match handler ev p with
  | (Js.Normal _, p', t) => (p', t)
  | (Js.Throw e, p', t) => (p', (t ++ [Uncaught e])%list)
  end.

Fixpoint run (evs : list event) (p : Page) : Page * list effect :=
  match evs with
  | [] => (p, [])
  | ev :: rest =>
      match turn ev p with
      | (p1, t1) =>
          match run rest p1 with
          | (p2, t2) => (p2, (t1 ++ t2)%list)
          end
      end
  end.

(** Does the page take a recognition result at a moment when it is
    speaking ([isSpeaking] set, an utterance in the synthesizer)? *)
Fixpoint hears_itself (evs : list event) (p : Page) : bool :=
  match evs with
  | [] => false
  | ev :: rest =>
      (match ev with
       | RecognitionResult _ => hearing p && isSpeaking (state p) && playing p
       | _ => false
       end)
      || hears_itself rest (fst (turn ev p))
  end.

(** Calls of [recognition.start()] that started the engine. *)
Definition starts (t : list effect) : nat :=
  List.length (filter (fun x => match x with
                                | RecognitionStart (Js.Normal _) => true
                                | _ => false
                                end) t).

(** Reports of a failure to the user. *)
Definition is_failure (x : effect) : bool :=
  match x with
  | Status _ Failure => true
  | Alert _ => true
  | _ => false
  end.

(** A timer that is due fires: its callback runs in the page without it. *)
Definition fired (t : timer) (p : Page) : Page * list effect :=
  match fire t p with
  | (Js.Normal _, p', tr) => (p', tr)
  | (Js.Throw e, p', tr) => (p', (tr ++ [Uncaught e])%list)
  end.

(** *** Sample states and runs *)

(** The page while it listens (the microphone button was pressed and the
    engine has reported its start), at time [now]. *)
Definition listening_at (now : N) (continuous : bool) : Page :=
  {| state :=
       {| isListening := true;
          isSpeaking := false;
          isRecognitionActive := true;
          continuousListening := continuous;
          recognition := Some (Speech.with_phase Speech.Active (Speech.fresh false));
          synthesis := Some Synthesis.silent;
          settings := {| voiceEnabled := true; alwaysListening := true |} |};
     wakeWordDetector :=
       Some (Wake.set_recognition (Some (Speech.fresh false)) Wake.constructor);
     utterances := 0;
     inFlight := 0;
     timers := [];
     clock := now |}.

(** One transient failure and what follows it within 300 ms: the engine
    reports [no-speech] and ends; the restart that [onend] scheduled
    fires after 100 ms and the engine starts; the restart that [onerror]
    scheduled fires after 300 ms and finds the engine started. *)
Definition no_speech_cycle : list event :=
  [RecognitionError "no-speech"; RecognitionEnded; Tick 100; Fire 1;
   RecognitionStarted; Tick 200; Fire 0].

Definition cycles (n : nat) : list event :=
  List.concat (repeat no_speech_cycle n).

(** Two typed messages; the second reply is spoken while the timer that
    the end of the first reply set is still pending. *)
Definition feedback_run : list event :=
  [UserMessage "hello"; BackendReply "Hi there"; Tick 3000; UtteranceEnd 0;
   Tick 1000; UserMessage "tell me more"; BackendReply "A long answer";
   Tick 1000; Fire 0; RecognitionStarted; Tick 500].

(** A continuous session after one command: [processUserMessage] has
    stopped the engine and the engine has ended. *)
Definition idle_after_command : Page :=
  fst (run [Click true; RecognitionStarted;
            RecognitionResult [("what time is it", true)]; Tick 200; Fire 0;
            RecognitionEnded] (loaded false)).

End App.

(* ===================================================================== *)
(** ** Text: ASCII, and lower case in words *)
(* ===================================================================== *)

(** A string of the development is a sequence of bytes; a text with
    characters outside ASCII is held in UTF-8.  On ASCII text
    [Str.toLowerCase], [Str.trim] and the matching of module [RegExp] are
    JavaScript's.  Outside ASCII they are not: JavaScript lower-cases [É]
    and takes a no-break space for white space, the definitions of [Str]
    leave both as they are.  Where a statement would not hold of the
    code for a text outside ASCII, it is made for ASCII text. *)

Module Text.

Definition ascii_char (c : ascii) : bool := (N_of_ascii c <? 128)%N.

Fixpoint is_ascii (s : string) : bool :=
  match s with
  | EmptyString => true
  | String c rest => ascii_char c && is_ascii rest
  end.

(** Lower case, said with the alphabet: a capital letter becomes the
    small letter at the same place of the alphabet, every other character
    stays. *)
Definition capitals : string := "ABCDEFGHIJKLMNOPQRSTUVWXYZ".
Definition smalls : string := "abcdefghijklmnopqrstuvwxyz".

Fixpoint small_of (c : ascii) (capitals smalls : string) : ascii :=
  match capitals, smalls with
  | String a capitals', String b smalls' =>
      if Ascii.eqb c a then b else small_of c capitals' smalls'
  | _, _ => c
  end.

Fixpoint lowercase (s : string) : string :=
  match s with
  | EmptyString => EmptyString
  | String c rest => String (small_of c capitals smalls) (lowercase rest)
  end.

End Text.

(* ===================================================================== *)
(** ** Voice activity: the root mean square and what a detection is *)
(* ===================================================================== *)

Module Vad.

Import Duplex.

(** The sum of the squares of the samples heard so far, the latest sample
    first; and the number of samples. *)
Fixpoint squares (latest_first : list float) : float :=
  match latest_first with
  | [] => 0
  | x :: earlier => squares earlier + x * x
  end.

Fixpoint count (samples : list float) : float :=
  match samples with
  | [] => 0
  | _ :: rest => count rest + 1
  end.

(** The root mean square of a frame: the root of the sum of the squares
    over the number of samples, in binary64 as every number of
    JavaScript. *)
Definition rms (frame : list float) : float :=
  sqrt (squares (rev frame) / count frame).

(** What a detection is to the rest of the system: the [vad_detected]
    message on the socket and the call of each callback given to
    [onVAD]. *)
Definition is_message (x : effect) : bool :=
  match x with WsSend VadDetected => true | _ => false end.

Definition messages (t : list effect) : nat := List.length (filter is_message t).

Definition notified (t : list effect) : list Js.callback :=
  flat_map (fun x => match x with VADCallback cb => [cb] | _ => [] end) t.

Arguments rms : simpl never.
Arguments messages : simpl never.
Arguments notified : simpl never.

(** A frame that starts in silence and is loud after it, and a frame that
    is a single click: its first sample is above the threshold of 0.01,
    its root mean square, a half of it, is not. *)
Definition voiced_frame : list float := [0; 0.5; (-0.5); 0.25]%float.
Definition click_frame : list float := [0.015625; 0; 0; 0]%float.

(** An engine that listens, with a callback registered for detections. *)
Definition watched_engine : Engine :=
  fst (run [Initialize (Some Running); OnVAD 5; StartListening] (constructor true)).

End Vad.

(* ===================================================================== *)
(** ** FullDuplexAudioEngine: what is observed of a run *)
(* ===================================================================== *)

Module DuplexWatch.
Import Duplex.

(** Audio frames that went out over the socket. *)
Definition is_stream (x : effect) : bool :=
  match x with WsSend AudioStream => true | _ => false end.

Definition streams (t : list effect) : nat := List.length (filter is_stream t).

Arguments streams : simpl never.

(** The calls that switch capture on. *)
Definition is_listen_call (ev : event) : bool :=
  match ev with StartListening | Interrupt_ _ => true | _ => false end.

(** The earliest time at which [_sendAudioToBackend] lets a frame through. *)
Definition next_send (e : Engine) : N :=
  match _lastSendTime e with
  | None => clock (browser e)
  | Some t => if (t =? 0)%N then clock (browser e)
              else N.max (t + 101) (clock (browser e))
  end.

(** Does the throttle let a frame through now? *)
Definition sendable (e : Engine) : bool :=
  match _lastSendTime e with
  | None => true
  | Some t => (t =? 0)%N || (100 <? clock (browser e) - t)%N
  end.

Local Open Scope string_scope.

(** What [startListening] prints and asks of the audio context, on every
    engine. *)
Definition capture_effects (e : Engine) : list effect :=
  match audioContext e with
  | None => [Console Js.ErrorL "Audio context not initialized"]
  | Some st =>
      if isListening e then [Console Js.WarnL "Already listening"]
      else (match st with
            | Suspended => [AudioResume]
            | Running => []
            end ++ [Console Js.LogL "Listening started - VAD active"])%list
  end.

(** An engine that speaks and was never initialized. *)
Definition uninitialized_speaker : Engine :=
  fst (run [StartSpeaking "It is sunny today" (Some 7); UtteranceStart 0]
         (constructor true)).

(** An engine that listens, at a time after the epoch. *)
Definition awake_engine : Engine :=
  fst (run [Initialize (Some Running); Tick 7; StartListening] (constructor true)).

End DuplexWatch.

(* ===================================================================== *)
(** ** Math.min and Math.max *)
(* ===================================================================== *)

Module Math.

(** [Math.min(a, b)] and [Math.max(a, b)] on numbers: NaN when an argument
    is NaN; of two zeros, [-0] is the smaller one. *)
Definition min (a b : float) : float :=
  if is_nan a || is_nan b then nan
  else if ltb a b then a
  else if ltb b a then b
  else if get_sign a then a else b.

Definition max (a b : float) : float :=
  if is_nan a || is_nan b then nan
  else if ltb a b then b
  else if ltb b a then a
  else if get_sign a then b else a.

End Math.

(* ===================================================================== *)
(** ** BrowserWakeWordDetector: the engine's events and [setSensitivity] *)
(* ===================================================================== *)

(** The listeners that [initialize()] installs on the recognition engine
    beside [onresult] (module [Wake]): [onerror], [onend] and [onstart],
    with the restarts they schedule. *)

Module WakeLoop.

Import Wake.

(** The callbacks handed to [setTimeout]. *)
Inductive timer : Type :=
| AfterWake      (* onresult, 1000 ms: if (this.isActive) this.start() *)
| AfterError     (* onerror, 1000 ms: if (this.isActive) try recognition.start() *)
| AfterEnd.      (* onend, 500 ms: if (this.isActive) try recognition.start() *)

Inductive effect : Type :=
| Of (e : Wake.effect)                 (* what the methods of [Wake] do *)
| SetTimeout (ms : N) (t : timer).

Definition M : Type -> Type := Js.M Detector effect.

Local Open Scope js_scope.
Local Open Scope string_scope.

(** A method of module [Wake], run here. *)
Definition lift {A} (m : Wake.M A) : M A :=
  Js.zoom (fun d => d) (fun d' _ => d') Of m.

Definition set_sensitivity (x : float) (d : Detector) : Detector :=
  {| isActive := isActive d; recognition := recognition d; wakeWords := wakeWords d;
     onWakeWordCallback := onWakeWordCallback d; sensitivity := x |}.

(** [setSensitivity(value)]; the number is left out of the console line. *)
Definition setSensitivity (value : float) : M unit :=
  Js.modify (set_sensitivity (Math.max 0 (Math.min 1 value))) ;;
  Js.emit (Of (Console Js.LogL "Wake word sensitivity")).

(** [try { this.recognition.start(); } catch (e) { }] *)
Definition try_start : M unit :=
  rec <- Js.gets recognition ;;
  match rec with
  | Some r => Js.try_catch (lift (recognition_start r)) (fun _ => Js.ret tt)
  | None => Js.ret tt
  end.

(** [recognition.onerror]; [error] is [event.error]. *)
Definition onerror (error : string) : M unit :=
  if String.eqb error "no-speech" then Js.ret tt
  else if String.eqb error "aborted" then Js.ret tt
  else
    Js.emit (Of (Console Js.WarnL ("Wake word recognition error: " ++ error))) ;;
    active <- Js.gets isActive ;;
    Js.when (active && negb (String.eqb error "not-allowed"))
      (Js.emit (SetTimeout 1000 AfterError)).

(** [recognition.onend] *)
Definition onend : M unit :=
  active <- Js.gets isActive ;;
  Js.when active
    (Js.emit (Of (Console Js.LogL "Restarting wake word detection...")) ;;
     Js.emit (SetTimeout 500 AfterEnd)).

(** [recognition.onstart] *)
Definition onstart : M unit :=
  Js.emit (Of (Console Js.LogL "Wake word detection ACTIVE")).

(** The body of each timer callback. *)
Definition fire (t : timer) : M unit :=
  match t with
  | AfterWake => lift (Wake.fire RestartAfterWake)
  | AfterError | AfterEnd =>
      active <- Js.gets isActive ;;
      Js.when active try_start
  end.

(** *** The detector and its engine: what can happen next *)

Inductive event : Type :=
| Start                                 (* start() *)
| Stop                                  (* stop() *)
| AddWakeWord (word : string)
| OnWakeWord (cb : Js.callback)
| SetSensitivity (value : float)
| Started                               (* the engine's events *)
| Result (results : list string)
| Error (error : string)
| Ended
| Fire (t : timer).                     (* a timer callback runs *)

Definition phase_is (ok : Speech.phase -> bool) (d : Detector) : bool :=
  match recognition d with
  | Some r => ok (Speech.phase_of r)
  | None => false
  end.

(** The engine delivers results while it is active, and errors and its
    end while a session lasts. *)
Definition hearing : Detector -> bool :=
  phase_is (fun ph => match ph with Speech.Active => true | _ => false end).

Definition in_session : Detector -> bool :=
  phase_is (fun ph => match ph with Speech.Idle => false | _ => true end).

Definition session_over : M unit :=
  Js.modify (fun d =>
    set_recognition (option_map (Speech.with_phase Speech.Idle) (recognition d)) d).

(** The handler that runs for an event.  An event of the engine that
    cannot come in its current phase runs nothing; a timer callback may
    run at any moment, so what is proved holds for every delay.  Results
    are events of an active engine.  A browser may still deliver a result
    between [stop()] and the end of the session: such a late result is
    not an event of a run, it is [Wake.onresult] applied to the state, and
    a statement that depends on there being none says so. *)
Definition handler (ev : event) : M unit :=
  match ev with
  | Start => _ <- lift Wake.start ;; Js.ret tt
  | Stop => lift Wake.stop
  | AddWakeWord word => lift (Wake.addWakeWord word)
  | OnWakeWord cb => lift (Wake.onWakeWord cb)
  | SetSensitivity value => setSensitivity value
  | Started =>
      can <- Js.gets hearing ;;
      Js.when can onstart
  | Result results =>
      can <- Js.gets hearing ;;
      Js.when can (lift (Wake.onresult results))
  | Error error =>
      can <- Js.gets in_session ;;
      Js.when can (onerror error)
  | Ended =>
      can <- Js.gets in_session ;;
      Js.when can (session_over ;; onend)
  | Fire t => fire t
  end.

Fixpoint run (evs : list event) (d : Detector) : Detector * list effect :=
  match evs with
  | [] => (d, [])
  | ev :: rest =>
      match handler ev d with
      | (_, d1, t1) =>
          match run rest d1 with
          | (d2, t2) => (d2, (t1 ++ t2)%list)
          end
      end
  end.

Definition is_start (ev : event) : bool :=
  match ev with Start => true | _ => false end.

Definition is_result (ev : event) : bool :=
  match ev with Result _ => true | _ => false end.

(** The transcripts the wake-word callback was called with. *)
Definition woken (t : list effect) : list string :=
  flat_map (fun x => match x with Of (Invoke _ s) => [s] | _ => [] end) t.

(** The restarts that were scheduled. *)
Definition scheduled (t : list effect) : list (N * timer) :=
  flat_map (fun x => match x with
                     | SetTimeout ms k => [(ms, k)]
                     | Of (Wake.SetTimeout ms RestartAfterWake) => [(ms, AfterWake)]
                     | _ => []
                     end) t.

End WakeLoop.

(* ===================================================================== *)
(** ** FullDuplexAudioEngine: [destroy()] *)
(* ===================================================================== *)

Module DuplexLife.

Import Duplex.

(** The engine with the handles that [initialize()] keeps and
    [destroy()] releases; [true]: the field is set. *)
Record Device : Type := {
  engine : Engine;
  processor : bool;           (* this.processor *)
  microphone : bool;          (* this.microphone *)
  stream : bool               (* this.captureState.stream *)
}.

Definition set_engine (x : Engine) (d : Device) : Device :=
  {| engine := x; processor := processor d; microphone := microphone d;
     stream := stream d |}.

Definition set_processor (x : bool) (d : Device) : Device :=
  {| engine := engine d; processor := x; microphone := microphone d;
     stream := stream d |}.

Definition set_microphone (x : bool) (d : Device) : Device :=
  {| engine := engine d; processor := processor d; microphone := x;
     stream := stream d |}.

Definition set_stream (x : bool) (d : Device) : Device :=
  {| engine := engine d; processor := processor d; microphone := microphone d;
     stream := x |}.

Inductive effect : Type :=
| Of (e : Duplex.effect)          (* what the methods of [Duplex] do *)
| ProcessorDisconnect             (* this.processor.disconnect() *)
| MicrophoneDisconnect            (* this.microphone.disconnect() *)
| TracksStop                      (* stream.getTracks().forEach(track => track.stop()) *)
| AudioClose.                     (* this.audioContext.close() *)

Definition M : Type -> Type := Js.M Device effect.

Local Open Scope js_scope.
Local Open Scope string_scope.

(** A method of module [Duplex], run on the device's engine. *)
Definition lift {A} (m : Duplex.M A) : M A :=
  Js.zoom engine set_engine Of m.

(** [destroy()] *)
Definition destroy : M unit :=
  lift stopListening ;;
  lift stopSpeaking ;;
  has_processor <- Js.gets processor ;;
  Js.when has_processor
    (Js.emit ProcessorDisconnect ;; Js.modify (set_processor false)) ;;
  has_microphone <- Js.gets microphone ;;
  Js.when has_microphone
    (Js.emit MicrophoneDisconnect ;; Js.modify (set_microphone false)) ;;
  has_stream <- Js.gets stream ;;
  Js.when has_stream
    (Js.emit TracksStop ;; Js.modify (set_stream false)) ;;
  ctx <- Js.gets (fun d => audioContext (engine d)) ;;
  match ctx with
  | Some _ =>
      Js.emit AudioClose ;;
      Js.modify (fun d => set_engine (set_audioContext None (engine d)) d)
  | None => Js.ret tt
  end ;;
  Js.emit (Of (Console Js.LogL "Audio engine destroyed")).

(** The calls that release something. *)
Definition releases (x : effect) : bool :=
  match x with
  | ProcessorDisconnect | MicrophoneDisconnect | TracksStop | AudioClose => true
  | Of SynthCancel => true
  | _ => false
  end.

End DuplexLife.


(* ===================================================================== *)
(** ** BrowserWakeWordDetector: what [onresult] matches *)
(* ===================================================================== *)

Module WakeWatch.
Import Wake.
Local Open Scope string_scope.

(** The answer of [_isWakeWord] for a word list and a transcript. *)
Definition matches (words : list string) (text : string) : bool :=
  existsb (fun wakeWord => Str.includes wakeWord (Str.trim (Str.toLowerCase text))) words
  || existsb (fun pattern => RegExp.test pattern (Str.trim (Str.toLowerCase text)))
       fuzzyPatterns.

(** [transcript.toLowerCase().trim()] of [onresult]. *)
Definition normalized (transcript : string) : string :=
  Str.trim (Str.toLowerCase transcript).

End WakeWatch.

(* ===================================================================== *)
(** ** script.js: what [processUserMessage] tells apart *)
(* ===================================================================== *)

Module AppWatch.
Import App.
Local Open Scope string_scope.

(** Text made of white space only (the empty text included): the texts
    whose [trim()] is the empty string. *)
Fixpoint blank (s : string) : bool :=
  match s with
  | EmptyString => true
  | String c rest => Str.isWhiteSpace c && blank rest
  end.

(** The test [processUserMessage] makes for its stop commands. *)
Definition is_sleep_command (text : string) : bool :=
  let lowerText := Str.toLowerCase text in
  Str.includes "stop listening" lowerText
  || Str.includes "deactivate" lowerText
  || Str.includes "go to sleep" lowerText.


(** What was added to the chat for a sender, and what went to the backend. *)
Definition said (who : sender) (t : list effect) : list string :=
  flat_map (fun x => match x, who with
                     | AddMessage text User, User => [text]
                     | AddMessage text Assistant, Assistant => [text]
                     | _, _ => []
                     end) t.

Definition requests (t : list effect) : list string :=
  flat_map (fun x => match x with BackendRequest text => [text] | _ => [] end) t.

(** The timers with which [onend] and [onerror] restart the engine. *)
Definition is_restart (t : timer) : bool :=
  match t with
  | EndRestart | NoSpeechRestartContinuous | NoSpeechRestartSingle => true
  | _ => false
  end.

End AppWatch.

(* ===================================================================== *)
(** ** The browser's localStorage and class lists *)
(* ===================================================================== *)

Module Storage.

(** [window.localStorage]: string keys, string values, one entry per key. *)
Definition t : Type := list (string * string).

(** [getItem(key)]: [None] is JavaScript's [null]. *)
Fixpoint getItem (key : string) (s : t) : option string :=
  match s with
  | [] => None
  | (k, v) :: rest => if String.eqb k key then Some v else getItem key rest
  end.

(** [setItem(key, value)]: an existing entry keeps its place. *)
Fixpoint setItem (key value : string) (s : t) : t :=
  match s with
  | [] => [(key, value)]
  | (k, v) :: rest =>
      if String.eqb k key then (k, value) :: rest
      else (k, v) :: setItem key value rest
  end.

(** [String(b)], what [setItem(key, b)] stores for a boolean. *)
Definition of_bool (b : bool) : string :=
  if b then "true"%string else "false"%string.

End Storage.

Module ClassList.

(** [element.classList]: a set of tokens in insertion order. *)
Definition t : Type := list string.

Definition contains (c : string) (l : t) : bool := existsb (String.eqb c) l.

Definition add (c : string) (l : t) : t :=
  if contains c l then l else (l ++ [c])%list.

Definition remove (c : string) (l : t) : t :=
  filter (fun x => negb (String.eqb c x)) l.

(** [toggle(token, force)] *)
Definition toggle (c : string) (force : bool) (l : t) : t :=
  if force then add c l else remove c l.

Arguments contains : simpl never.
Arguments add : simpl never.
Arguments remove : simpl never.

End ClassList.

(* ===================================================================== *)
(** ** script.js: settings, theme, chat and the backend calls *)
(* ===================================================================== *)

(** The settings panel and the theme switch with what they keep in
    localStorage, the chat list, the memory cards and the two requests to
    the backend.  Of the DOM the model keeps the class list of [body] and
    the children of [chatMessages]; the values shown in the controls are
    written but never read back by the script and are left out. *)

Module Ui.

(** A value that JavaScript takes for true in a condition. *)
Definition truthy (s : option string) : bool :=
  match s with
  | Some v => negb (String.eqb v "")
  | None => false
  end.

(** [a || b] for a string that may be missing. *)
Definition or_else (a : option string) (b : string) : string :=
  match a with
  | Some v => if String.eqb v "" then b else v
  | None => b
  end.

(** A number written in decimal, as [String(n)] and template literals
    write an integer. *)
Definition number (n : N) : string := NilZero.string_of_uint (N.to_uint n).

Definition integer (z : Z) : string := NilZero.string_of_int (Z.to_int z).

Record Settings : Type := {
  theme : string;
  voiceType : string;
  speechRate : float;
  voiceEnabled : bool;
  alwaysListening : bool;
  animations : bool;
  language : string;
  wakeWordEnabled : bool;
  vadSensitivity : float;
  autoDetectLanguage : option bool      (* undefined until it is first set *)
}.

Definition set_theme (x : string) (c : Settings) : Settings :=
  {| theme := x; voiceType := voiceType c; speechRate := speechRate c;
     voiceEnabled := voiceEnabled c; alwaysListening := alwaysListening c;
     animations := animations c; language := language c;
     wakeWordEnabled := wakeWordEnabled c; vadSensitivity := vadSensitivity c;
     autoDetectLanguage := autoDetectLanguage c |}.

Definition set_voiceType (x : string) (c : Settings) : Settings :=
  {| theme := theme c; voiceType := x; speechRate := speechRate c;
     voiceEnabled := voiceEnabled c; alwaysListening := alwaysListening c;
     animations := animations c; language := language c;
     wakeWordEnabled := wakeWordEnabled c; vadSensitivity := vadSensitivity c;
     autoDetectLanguage := autoDetectLanguage c |}.

Definition set_speechRate (x : float) (c : Settings) : Settings :=
  {| theme := theme c; voiceType := voiceType c; speechRate := x;
     voiceEnabled := voiceEnabled c; alwaysListening := alwaysListening c;
     animations := animations c; language := language c;
     wakeWordEnabled := wakeWordEnabled c; vadSensitivity := vadSensitivity c;
     autoDetectLanguage := autoDetectLanguage c |}.

Definition set_alwaysListening (x : bool) (c : Settings) : Settings :=
  {| theme := theme c; voiceType := voiceType c; speechRate := speechRate c;
     voiceEnabled := voiceEnabled c; alwaysListening := x;
     animations := animations c; language := language c;
     wakeWordEnabled := wakeWordEnabled c; vadSensitivity := vadSensitivity c;
     autoDetectLanguage := autoDetectLanguage c |}.

Definition set_animations (x : bool) (c : Settings) : Settings :=
  {| theme := theme c; voiceType := voiceType c; speechRate := speechRate c;
     voiceEnabled := voiceEnabled c; alwaysListening := alwaysListening c;
     animations := x; language := language c;
     wakeWordEnabled := wakeWordEnabled c; vadSensitivity := vadSensitivity c;
     autoDetectLanguage := autoDetectLanguage c |}.

Definition set_language (x : string) (c : Settings) : Settings :=
  {| theme := theme c; voiceType := voiceType c; speechRate := speechRate c;
     voiceEnabled := voiceEnabled c; alwaysListening := alwaysListening c;
     animations := animations c; language := x;
     wakeWordEnabled := wakeWordEnabled c; vadSensitivity := vadSensitivity c;
     autoDetectLanguage := autoDetectLanguage c |}.

Definition set_autoDetectLanguage (x : option bool) (c : Settings) : Settings :=
  {| theme := theme c; voiceType := voiceType c; speechRate := speechRate c;
     voiceEnabled := voiceEnabled c; alwaysListening := alwaysListening c;
     animations := animations c; language := language c;
     wakeWordEnabled := wakeWordEnabled c; vadSensitivity := vadSensitivity c;
     autoDetectLanguage := x |}.

(** An entry of [state.messages]. *)
Record Message : Type := {
  id : N;
  text : string;
  sender : App.sender;
  timestamp : N
}.

(** What [createMessageElement] builds: the class of the outer [div], the
    text and the time shown under it. *)
Record Element : Type := {
  className : string;
  textContent : string;
  timeText : string
}.

(** [CONFIG] *)
Record Config : Type := {
  API_BASE_URL : string;
  BACKEND_WS_URL : string;
  CLIENT_ID : string
}.

Record Page : Type := {
  settings : Settings;                 (* state.settings *)
  messages : list Message;             (* state.messages *)
  recognitionLang : option string;     (* state.recognition.lang; None: state.recognition is null *)
  localStorage : Storage.t;
  bodyClasses : ClassList.t;           (* document.body.classList *)
  chatMessages : list Element;         (* the children of elements.chatMessages *)
  config : Config;
  pending : list string;               (* memory requests awaiting their reply, by type *)
  clock : N                            (* Date.now() *)
}.

Definition set_settings (x : Settings) (p : Page) : Page :=
  {| settings := x; messages := messages p; recognitionLang := recognitionLang p;
     localStorage := localStorage p; bodyClasses := bodyClasses p;
     chatMessages := chatMessages p; config := config p; pending := pending p;
     clock := clock p |}.

Definition set_messages (x : list Message) (p : Page) : Page :=
  {| settings := settings p; messages := x; recognitionLang := recognitionLang p;
     localStorage := localStorage p; bodyClasses := bodyClasses p;
     chatMessages := chatMessages p; config := config p; pending := pending p;
     clock := clock p |}.

Definition set_recognitionLang (x : option string) (p : Page) : Page :=
  {| settings := settings p; messages := messages p; recognitionLang := x;
     localStorage := localStorage p; bodyClasses := bodyClasses p;
     chatMessages := chatMessages p; config := config p; pending := pending p;
     clock := clock p |}.

Definition set_localStorage (x : Storage.t) (p : Page) : Page :=
  {| settings := settings p; messages := messages p; recognitionLang := recognitionLang p;
     localStorage := x; bodyClasses := bodyClasses p;
     chatMessages := chatMessages p; config := config p; pending := pending p;
     clock := clock p |}.

Definition set_bodyClasses (x : ClassList.t) (p : Page) : Page :=
  {| settings := settings p; messages := messages p; recognitionLang := recognitionLang p;
     localStorage := localStorage p; bodyClasses := x;
     chatMessages := chatMessages p; config := config p; pending := pending p;
     clock := clock p |}.

Definition set_chatMessages (x : list Element) (p : Page) : Page :=
  {| settings := settings p; messages := messages p; recognitionLang := recognitionLang p;
     localStorage := localStorage p; bodyClasses := bodyClasses p;
     chatMessages := x; config := config p; pending := pending p;
     clock := clock p |}.

Definition set_pending (x : list string) (p : Page) : Page :=
  {| settings := settings p; messages := messages p; recognitionLang := recognitionLang p;
     localStorage := localStorage p; bodyClasses := bodyClasses p;
     chatMessages := chatMessages p; config := config p; pending := x;
     clock := clock p |}.

Definition set_clock (x : N) (p : Page) : Page :=
  {| settings := settings p; messages := messages p; recognitionLang := recognitionLang p;
     localStorage := localStorage p; bodyClasses := bodyClasses p;
     chatMessages := chatMessages p; config := config p; pending := pending p;
     clock := x |}.

Inductive effect : Type :=
| Console (l : Js.level) (msg : string)
| Status (text : string) (k : App.kind)                 (* updateStatus(text, k) *)
| Fetch (method url : string) (body : list (string * string)).

Definition M : Type -> Type := Js.M Page effect.

Local Open Scope js_scope.
Local Open Scope string_scope.

Definition upd_settings (f : Settings -> Settings) : M unit :=
  Js.modify (fun p => set_settings (f (settings p)) p).

Definition upd_body (f : ClassList.t -> ClassList.t) : M unit :=
  Js.modify (fun p => set_bodyClasses (f (bodyClasses p)) p).

(** [localStorage.getItem(key)] and [localStorage.setItem(key, value)] *)
Definition getItem (key : string) : M (option string) :=
  Js.gets (fun p => Storage.getItem key (localStorage p)).

Definition setItem (key value : string) : M unit :=
  Js.modify (fun p => set_localStorage (Storage.setItem key value (localStorage p)) p).

(** *** The client id *)

(** [getClientId()]; [random] is what
    [Math.random().toString(36).substring(7)] yields. *)
Definition getClientId (random : string) : M string :=
  clientId <- getItem "smartii_client_id" ;;
  if truthy clientId then Js.ret (or_else clientId "")
  else
    now <- Js.gets clock ;;
    let clientId := "client_" ++ random ++ "_" ++ number now in
    setItem "smartii_client_id" clientId ;;
    Js.ret clientId.

(** The declaration of [CONFIG] on a page served from [hostname]. *)
Definition CONFIG (hostname clientId : string) : Config :=
  let local := String.eqb hostname "localhost" || String.eqb hostname "127.0.0.1" in
  {| API_BASE_URL := if local then "http://localhost:8000" else "https://smartii.onrender.com";
     BACKEND_WS_URL := if local then "ws://localhost:8000/ws" else "wss://smartii.onrender.com/ws";
     CLIENT_ID := clientId |}.

(** What a request to the backend comes to: [fetch] rejects, or there is
    a response with its [ok] flag and the value [response.json()] resolves
    to, [None] when that rejects. *)
Inductive outcome (D : Type) : Type :=
| Rejected
| Answered (ok : bool) (json : option D).

Arguments Rejected {D}.
Arguments Answered {D} ok json.

(** *** The chat *)

Section Locale.

(** [date.toLocaleTimeString([], ...)] and [date.toLocaleDateString()]
    depend on the user's locale and time zone. *)
Variable toLocaleTimeString : N -> string.
Variable toLocaleDateString : N -> string.

(** [formatTime(date)], dates as milliseconds since the epoch. *)
Definition formatTime (date : N) : M string :=
  now <- Js.gets clock ;;
  let diff := (Z.of_N now - Z.of_N date)%Z in
  if (diff <? 60000)%Z then Js.ret "Just now"
  else if (diff <? 3600000)%Z then Js.ret (integer (diff / 60000) ++ "m ago")
  else if (diff <? 86400000)%Z then Js.ret (toLocaleTimeString date)
  else Js.ret (toLocaleDateString date).

Definition sender_name (who : App.sender) : string :=
  match who with App.User => "user" | App.Assistant => "assistant" end.

(** [createMessageElement(message)]; the avatar, which depends on the
    sender only, is left out. *)
Definition createMessageElement (message : Message) : M Element :=
  time <- formatTime (timestamp message) ;;
  Js.ret {| className := "message " ++ sender_name (sender message) ++ "-message";
            textContent := text message;
            timeText := time |}.

(** The element that [createMessageElement] builds for a message at the
    moment the message is made. *)
Definition rendered (m : Message) : Element :=
  {| className := "message " ++ sender_name (sender m) ++ "-message";
     textContent := text m;
     timeText := "Just now" |}.

(** [addMessage(text, sender)] *)
Definition addMessage (text : string) (sender : App.sender) : M unit :=
  now <- Js.gets clock ;;
  let message := {| id := now; text := text; sender := sender; timestamp := now |} in
  Js.modify (fun p => set_messages (messages p ++ [message]) p) ;;
  messageEl <- createMessageElement message ;;
  Js.modify (fun p => set_chatMessages (chatMessages p ++ [messageEl]) p).

Definition welcome : string :=
  "Hello! I'm SMARTII, your AI assistant. How can I help you today?".

(** [clearChat()]; [confirmed] is the answer to [confirm(...)]. *)
Definition clearChat (confirmed : bool) : M unit :=
  Js.when confirmed
    (Js.modify (set_messages []) ;;
     Js.modify (set_chatMessages []) ;;
     addMessage welcome App.Assistant).

(** *** The theme *)

(** [toggleTheme()] *)
Definition toggleTheme : M unit :=
  isDark <- Js.gets (fun p => ClassList.contains "dark-mode" (bodyClasses p)) ;;
  (if isDark then
     upd_body (ClassList.remove "dark-mode") ;;
     upd_body (ClassList.add "light-mode") ;;
     upd_settings (set_theme "light")
   else
     upd_body (ClassList.add "dark-mode") ;;
     upd_body (ClassList.remove "light-mode") ;;
     upd_settings (set_theme "dark")) ;;
  theme <- Js.gets (fun p => theme (settings p)) ;;
  setItem "smartii-theme" theme.

(** [loadTheme()] *)
Definition loadTheme : M unit :=
  saved <- getItem "smartii-theme" ;;
  let savedTheme := or_else saved "dark" in
  upd_settings (set_theme savedTheme) ;;
  Js.when (String.eqb savedTheme "light")
    (upd_body (ClassList.remove "dark-mode") ;;
     upd_body (ClassList.add "light-mode")).

(** *** The settings panel: the listeners that [updateSettings] installs *)

Section Numbers.

(** [parseFloat] *)
Variable parseFloat : string -> float.

(** [voiceType]'s [change] listener; [value] is [e.target.value]. *)
Definition voiceType_change (value : string) : M unit :=
  upd_settings (set_voiceType value) ;;
  setItem "smartii-voice-type" value ;;
  Js.emit (Console Js.LogL ("Voice type changed to: " ++ value)) ;;
  addMessage ("Voice type changed to " ++ value) App.Assistant.

(** [speechRate]'s [input] listener *)
Definition speechRate_input (value : string) : M unit :=
  upd_settings (set_speechRate (parseFloat value)) ;;
  setItem "smartii-speech-rate" value ;;
  Js.emit (Console Js.LogL ("Speech rate changed to: " ++ value)).

(** [alwaysListening]'s [change] listener; [checked] is [e.target.checked]. *)
Definition alwaysListening_change (checked : bool) : M unit :=
  upd_settings (set_alwaysListening checked) ;;
  setItem "smartii-always-listening" (Storage.of_bool checked) ;;
  Js.emit (Console Js.LogL ("Always listening: " ++ Storage.of_bool checked)) ;;
  if checked then
    upd_settings (set_alwaysListening true) ;;
    Js.emit (Status "Continuous mode activated" App.Success) ;;
    addMessage "Continuous conversation mode ON! Click microphone once, then keep talking without clicking again." App.Assistant
  else
    upd_settings (set_alwaysListening false) ;;
    Js.emit (Status "Continuous mode disabled" App.Info) ;;
    addMessage "Continuous mode OFF. You need to click microphone for each question." App.Assistant.

(** [animations]' [change] listener *)
Definition animations_change (checked : bool) : M unit :=
  upd_settings (set_animations checked) ;;
  upd_body (ClassList.toggle "no-animations" (negb checked)) ;;
  setItem "smartii-animations" (Storage.of_bool checked) ;;
  Js.emit (Status (if checked then "Animations enabled" else "Animations disabled") App.Info) ;;
  Js.emit (Console Js.LogL ("Animations: " ++ Storage.of_bool checked)).

(** The literal [langMap]. *)
Definition langMap : list (string * string) :=
  [("en", "en-US"); ("es", "es-ES"); ("fr", "fr-FR");
   ("de", "de-DE"); ("ja", "ja-JP"); ("zh", "zh-CN")].

(** [language]'s [change] listener.  [value] is the value of an option of
    the selector; the names that every object inherits ([constructor],
    [toString], ...) are not among them. *)
Definition language_change (value : string) : M unit :=
  upd_settings (set_language value) ;;
  setItem "smartii-language" value ;;
  rec <- Js.gets recognitionLang ;;
  match rec with
  | Some _ =>
      Js.modify (set_recognitionLang
                   (Some (or_else (Storage.getItem value langMap) "en-US")))
  | None => Js.ret tt
  end ;;
  Js.emit (Console Js.LogL ("Language changed to: " ++ value)) ;;
  addMessage ("Language changed to " ++ value) App.Assistant.

(** [autoDetect]'s [change] listener *)
Definition autoDetect_change (checked : bool) : M unit :=
  upd_settings (set_autoDetectLanguage (Some checked)) ;;
  setItem "smartii-auto-detect" (Storage.of_bool checked) ;;
  Js.emit (Status (if checked then "Auto language detection ON"
                   else "Auto language detection OFF") App.Info) ;;
  Js.emit (Console Js.LogL ("Auto-detect language: " ++ Storage.of_bool checked)).

(** A theme option's [click] listener; [theme] is the option's
    [data-theme]. *)
Definition themeOption_click (theme : string) : M unit :=
  (if String.eqb theme "dark" then
     upd_body (ClassList.add "dark-mode") ;;
     upd_body (ClassList.remove "light-mode")
   else
     upd_body (ClassList.remove "dark-mode") ;;
     upd_body (ClassList.add "light-mode")) ;;
  upd_settings (set_theme theme) ;;
  setItem "smartii-theme" theme.

(** [saved !== null] followed by [saved === 'true'] *)
Definition load_flag (key : string) (store : bool -> Settings -> Settings)
  (after : bool -> M unit) : M unit :=
  saved <- getItem key ;;
  match saved with
  | Some v =>
      let b := String.eqb v "true" in
      upd_settings (store b) ;; after b
  | None => Js.ret tt
  end.

(** [loadSettings()] *)
Definition loadSettings : M unit :=
  savedVoiceType <- getItem "smartii-voice-type" ;;
  savedSpeechRate <- getItem "smartii-speech-rate" ;;
  savedLanguage <- getItem "smartii-language" ;;
  Js.when (truthy savedVoiceType)
    (upd_settings (set_voiceType (or_else savedVoiceType ""))) ;;
  Js.when (truthy savedSpeechRate)
    (upd_settings (set_speechRate (parseFloat (or_else savedSpeechRate "")))) ;;
  Js.when (truthy savedLanguage)
    (upd_settings (set_language (or_else savedLanguage ""))) ;;
  load_flag "smartii-always-listening" set_alwaysListening (fun _ => Js.ret tt) ;;
  load_flag "smartii-animations" set_animations
    (fun b => upd_body (ClassList.toggle "no-animations" (negb b))) ;;
  load_flag "smartii-auto-detect" (fun b => set_autoDetectLanguage (Some b))
    (fun _ => Js.ret tt).

(** The declaration of [state.settings]. *)
Definition initial_settings : Settings :=
  {| theme := "dark"; voiceType := "female"; speechRate := 1.0%float;
     voiceEnabled := true; alwaysListening := true; animations := true;
     language := "en"; wakeWordEnabled := true; vadSensitivity := 0.5%float;
     autoDetectLanguage := None |}.

(** [initSpeechRecognition()] as far as the language goes: the new
    recognition object gets [state.settings.language || 'en-US'];
    [supported]: the browser has SpeechRecognition.  The listeners it
    installs are those of module [App]. *)
Definition recognition_language (supported : bool) : M unit :=
  if supported then
    lang <- Js.gets (fun p => language (settings p)) ;;
    Js.modify (set_recognitionLang (Some (or_else (Some lang) "en-US")))
  else
    Js.emit (Console Js.WarnL "Speech recognition not supported") ;;
    Js.emit (Status "Speech recognition not available" App.Warning).

(** A page as the browser has just loaded it: the script's declarations,
    the storage the browser kept, the [body] as the document has it. *)
Definition fresh (store : Storage.t) (body : ClassList.t) (cfg : Config) (now : N) : Page :=
  {| settings := initial_settings; messages := []; recognitionLang := None;
     localStorage := store; bodyClasses := body; chatMessages := [];
     config := cfg; pending := []; clock := now |}.

(** The steps of [init()] that restore the preferences, in their order:
    [loadTheme()], [loadSettings()] and, further down,
    [initSpeechRecognition()]. *)
Definition init_preferences (supported : bool) : M unit :=
  loadTheme ;;
  loadSettings ;;
  recognition_language supported.

(** *** The memory cards *)

Record Item : Type := {
  name : option string;
  title : option string
}.

(** The reply to a memory request: an object whose [items], when there,
    is an array of objects. *)
Record Memory : Type := { items : option (list Item) }.

(** [`${x}`] for a string that may be missing *)
Definition shown (x : option string) : string :=
  match x with Some v => v | None => "undefined" end.

(** [item.name || item.title] inside the template *)
Definition label (item : Item) : string :=
  if truthy (name item) then shown (name item) else shown (title item).

(** [lines.join('\n')] *)
Definition newline : string := String (ascii_of_nat 10) EmptyString.

Definition join (lines : list string) : string := String.concat newline lines.

(** [fetchMemoryData(type)] up to its first [await] *)
Definition fetchMemoryData (type : string) : M unit :=
  base <- Js.gets (fun p => API_BASE_URL (config p)) ;;
  Js.emit (Fetch "GET" (base ++ "/memory/" ++ type) []) ;;
  Js.modify (fun p => set_pending (pending p ++ [type]) p).

(** [fetchMemoryData(type)] from the [await]s on *)
Definition fetchMemoryData_resumed (type : string) (reply : outcome Memory) : M unit :=
  Js.try_catch
    (data <- match reply with
             | Rejected => Js.throw (Js.Error "Failed to fetch")
             | Answered false _ => Js.throw (Js.Error "Failed to fetch memory data")
             | Answered true None => Js.throw (Js.Error "Unexpected token")
             | Answered true (Some data) => Js.ret data
             end ;;
     Js.emit (Console Js.LogL ("Memory data (" ++ type ++ "):")) ;;
     match items data with
     | Some (first :: more) =>
         let all := first :: more in
         let summary :=
           "Found " ++ number (N.of_nat (List.length all)) ++ " " ++ type ++ ":" ++ newline
           ++ join (map (fun item => "• " ++ label item) (firstn 5 all)) in
         addMessage summary App.Assistant
     | _ =>
         addMessage ("No " ++ type ++ " data available yet. Keep using SMARTII to build your memory!")
           App.Assistant
     end)
    (fun _ =>
       Js.emit (Console Js.ErrorL "Error fetching memory:") ;;
       addMessage "Memory feature coming soon! Backend integration in progress."
         App.Assistant).

(** [handleMemoryAction(type)]; the call of [fetchMemoryData] is not
    awaited. *)
Definition handleMemoryAction (type : string) : M unit :=
  let lower := Str.toLowerCase type in
  Js.emit (Status ("Loading " ++ lower ++ "...") App.Info) ;;
  if String.eqb lower "routines" then
    addMessage "📊 Viewing learned routines and patterns. This will show your daily habits and preferences." App.Assistant ;;
    fetchMemoryData "routines"
  else if String.eqb lower "preferences" then
    addMessage "⚙️ Managing your saved preferences. You can view and edit what I've learned about you." App.Assistant ;;
    fetchMemoryData "preferences"
  else if String.eqb lower "tasks" then
    addMessage "✅ Viewing task history. Here's a summary of completed tasks and actions." App.Assistant ;;
    fetchMemoryData "tasks"
  else
    Js.emit (Console Js.WarnL ("Unknown memory action: " ++ type)).

(** *** The chat request *)

(** The JSON object the [/chat] endpoint answers with. *)
Record ChatData : Type := {
  response : option string;
  data_text : option string;
  data_actions : option (list string);
  data_url : option string;
  data_open_url : option bool;
  data_video_id : option string
}.

(** What [sendMessageToBackend] resolves to. *)
Record Reply : Type := {
  reply_text : string;
  actions : list string;
  url : option string;
  open_url : option bool;
  video_id : option string
}.

Definition apology : string :=
  "I'm having trouble connecting to my brain right now. Please check if the backend is running on port 8000.".

(** [sendMessageToBackend(text)] up to its first [await] *)
Definition sendMessageToBackend (text : string) : M unit :=
  base <- Js.gets (fun p => API_BASE_URL (config p)) ;;
  client <- Js.gets (fun p => CLIENT_ID (config p)) ;;
  Js.emit (Fetch "POST" (base ++ "/chat") [("message", text); ("client_id", client)]).

(** [sendMessageToBackend(text)] from the [await]s on *)
Definition sendMessageToBackend_resumed (reply : outcome ChatData) : M Reply :=
  Js.try_catch
    (data <- match reply with
             | Rejected => Js.throw (Js.Error "Failed to fetch")
             | Answered false _ => Js.throw (Js.Error "Backend request failed")
             | Answered true None => Js.throw (Js.Error "Unexpected token")
             | Answered true (Some data) => Js.ret data
             end ;;
     Js.emit (Console Js.LogL "Backend response:") ;;
     Js.ret {| reply_text :=
                 or_else (response data) (or_else (data_text data) "I received your message.");
               actions := match data_actions data with Some a => a | None => [] end;
               url := data_url data;
               open_url := data_open_url data;
               video_id := data_video_id data |})
    (fun _ =>
       Js.emit (Console Js.ErrorL "Error connecting to backend:") ;;
       Js.ret {| reply_text := apology; actions := []; url := None;
                 open_url := None; video_id := None |}).

(** [response.url && response.open_url], the test before [window.open] *)
Definition opens (r : Reply) : option string :=
  match url r, open_url r with
  | Some u, Some true => if String.eqb u "" then None else Some u
  | _, _ => None
  end.

(** *** What a message of the user does to the chat and the settings *)

(** [processUserMessage(text)] up to its [await], as this page has it:
    the chat, the settings, the status line and the request.  What it
    does to the recognition engine and the synthesizer is in module [App]
    ([App.processUserMessage]).  The stop command clears
    [alwaysListening] and stores nothing; the status [Ready] is
    [stopListening]'s. *)
Definition processUserMessage (text : string) : M unit :=
  if String.eqb (Str.trim text) "" then Js.ret tt
  else
    let lowerText := Str.toLowerCase text in
    if Str.includes "stop listening" lowerText
       || Str.includes "deactivate" lowerText
       || Str.includes "go to sleep" lowerText
    then
      addMessage text App.User ;;
      addMessage App.stopped_listening App.Assistant ;;
      upd_settings (set_alwaysListening false) ;;
      Js.emit (Status "Ready" App.Success)
    else
      addMessage text App.User ;;
      Js.emit (Status "Processing..." App.Info) ;;
      sendMessageToBackend text.

(** *** The page and its events *)

Inductive event : Type :=
| VoiceTypeChange (value : string)
| SpeechRateInput (value : string)
| AlwaysListeningChange (checked : bool)
| AnimationsChange (checked : bool)
| LanguageChange (value : string)
| AutoDetectChange (checked : bool)
| ThemeOptionClick (theme : string)
| ThemeToggleClick
| ClearChatClick (confirmed : bool)
| MemoryActionClick (title : string)
| MemoryReply (k : nat) (reply : outcome Memory)   (* the k-th pending request settles *)
| NewMessage (text : string) (who : App.sender)    (* addMessage, called by the rest of the script *)
| UserMessage (text : string)                      (* processUserMessage: typed, or heard *)
| Tick (ms : N).

Definition handler (ev : event) : M unit :=
  match ev with
  | VoiceTypeChange value => voiceType_change value
  | SpeechRateInput value => speechRate_input value
  | AlwaysListeningChange checked => alwaysListening_change checked
  | AnimationsChange checked => animations_change checked
  | LanguageChange value => language_change value
  | AutoDetectChange checked => autoDetect_change checked
  | ThemeOptionClick theme => themeOption_click theme
  | ThemeToggleClick => toggleTheme
  | ClearChatClick confirmed => clearChat confirmed
  | MemoryActionClick title => handleMemoryAction title
  | MemoryReply k reply =>
      waiting <- Js.gets (fun p => nth_error (pending p) k) ;;
      match waiting with
      | Some type =>
          Js.modify (fun p => set_pending (App.remove_nth k (pending p)) p) ;;
          fetchMemoryData_resumed type reply
      | None => Js.ret tt
      end
  | NewMessage text who => addMessage text who
  | UserMessage text => processUserMessage text
  | Tick ms => Js.modify (fun p => set_clock (clock p + ms)%N p)
  end.

Fixpoint run (evs : list event) (p : Page) : Page * list effect :=
  match evs with
  | [] => (p, [])
  | ev :: rest =>
      match handler ev p with
      | (_, p1, t1) =>
          match run rest p1 with
          | (p2, t2) => (p2, (t1 ++ t2)%list)
          end
      end
  end.

(** The page after a reload: the script's declarations again, the storage
    as the page before left it, and [init()]. *)
Definition reload (supported : bool) (body : ClassList.t) (p : Page) : Page :=
  Js.state_of (init_preferences supported (fresh (localStorage p) body (config p) (clock p))).

(** The settings that a storage holds: for each key the value kept under
    it, the declaration's default for a key that is missing. *)
Definition stored (st : Storage.t) : Settings :=
  {| theme := or_else (Storage.getItem "smartii-theme" st) "dark";
     voiceType := or_else (Storage.getItem "smartii-voice-type" st) "female";
     speechRate :=
       if truthy (Storage.getItem "smartii-speech-rate" st)
       then parseFloat (or_else (Storage.getItem "smartii-speech-rate" st) "")
       else 1.0%float;
     voiceEnabled := true;
     alwaysListening :=
       match Storage.getItem "smartii-always-listening" st with
       | Some v => String.eqb v "true"
       | None => true
       end;
     animations :=
       match Storage.getItem "smartii-animations" st with
       | Some v => String.eqb v "true"
       | None => true
       end;
     language := or_else (Storage.getItem "smartii-language" st) "en";
     wakeWordEnabled := true;
     vadSensitivity := 0.5%float;
     autoDetectLanguage :=
       option_map (fun v => String.eqb v "true")
         (Storage.getItem "smartii-auto-detect" st) |}.

(** The chat list shows [state.messages]. *)
Definition mirrors (p : Page) : Prop :=
  chatMessages p = map rendered (messages p).

(** What was asked of the backend. *)
Definition fetches (t : list effect) : list (string * string) :=
  flat_map (fun x => match x with Fetch m u _ => [(m, u)] | _ => [] end) t.

(** The inputs a control can deliver: a selector or slider always has a
    value, a theme option a [data-theme]; and the messages in ASCII. *)
Definition well_formed (ev : event) : bool :=
  match ev with
  | VoiceTypeChange value | SpeechRateInput value | LanguageChange value
  | ThemeOptionClick value => negb (String.eqb value "")
  | UserMessage text => Text.is_ascii text
  | _ => true
  end.

(** A message that [processUserMessage] takes for a stop command. *)
Definition is_stop_command (ev : event) : bool :=
  match ev with
  | UserMessage text => AppWatch.is_sleep_command text
  | _ => false
  end.

(** The settings with [alwaysListening] left out of account. *)
Definition but_alwaysListening (c : Settings) : Settings :=
  set_alwaysListening true c.

End Numbers.
End Locale.

End Ui.

(* ===================================================================== *)
(** * Properties *)
(* ===================================================================== *)

(** ** Reasoning about methods *)

Section Wp.
Context {St Ev : Type}.

Lemma wp_run {A} (m : Js.M St Ev A) (Q : _ -> St -> list Ev -> Prop) s :
  Js.wp m Q s <-> exists r s' t, m s = (r, s', t) /\ Q r s' t.
Proof.
  unfold Js.wp. destruct (m s) as [[r s'] t]. cbn. split.
  - intros H. now exists r, s', t.
  - intros (r0 & s0 & t0 & E & H). now inversion E; subst.
Qed.

Lemma wp_mono {A} (m : Js.M St Ev A) (Q Q' : _ -> St -> list Ev -> Prop) s :
  Js.wp m Q s -> (forall r s' t, Q r s' t -> Q' r s' t) -> Js.wp m Q' s.
Proof. unfold Js.wp. auto. Qed.

Lemma wp_ret {A} (a : A) (Q : _ -> St -> list Ev -> Prop) s :
  Q (Js.Normal a) s [] -> Js.wp (Js.ret a) Q s.
Proof. exact (fun H => H). Qed.

Lemma wp_gets {A} (f : St -> A) (Q : _ -> St -> list Ev -> Prop) s :
  Q (Js.Normal (f s)) s [] -> Js.wp (Js.gets f) Q s.
Proof. exact (fun H => H). Qed.

Lemma wp_modify (f : St -> St) (Q : _ -> St -> list Ev -> Prop) s :
  Q (Js.Normal tt) (f s) [] -> Js.wp (Js.modify f) Q s.
Proof. exact (fun H => H). Qed.

Lemma wp_emit (e : Ev) (Q : _ -> St -> list Ev -> Prop) s :
  Q (Js.Normal tt) s [e] -> Js.wp (Js.emit e) Q s.
Proof. exact (fun H => H). Qed.

Lemma wp_throw {A} (e : Js.exn) (Q : Js.completion A -> St -> list Ev -> Prop) s :
  Q (Js.Throw e) s [] -> Js.wp (Js.throw e) Q s.
Proof. exact (fun H => H). Qed.

Lemma wp_bind {A B} (m : Js.M St Ev A) (f : A -> Js.M St Ev B)
  (Q : _ -> St -> list Ev -> Prop) s :
  Js.wp m (fun r s1 t1 =>
          match r with
          | Js.Normal a => Js.wp (f a) (fun r2 s2 t2 => Q r2 s2 (t1 ++ t2)) s1
          | Js.Throw e => Q (Js.Throw e) s1 t1
          end) s ->
  Js.wp (Js.bind m f) Q s.
Proof.
  unfold Js.wp, Js.bind, Js.result_of, Js.state_of, Js.trace_of.
  destruct (m s) as [[[a|e] s1] t1]; cbn; [|auto].
  destruct (f a s1) as [[r2 s2] t2]; cbn. auto.
Qed.

Lemma wp_try_catch {A} (m : Js.M St Ev A) (h : Js.exn -> Js.M St Ev A)
  (Q : _ -> St -> list Ev -> Prop) s :
  Js.wp m (fun r s1 t1 =>
          match r with
          | Js.Normal a => Q (Js.Normal a) s1 t1
          | Js.Throw e => Js.wp (h e) (fun r2 s2 t2 => Q r2 s2 (t1 ++ t2)) s1
          end) s ->
  Js.wp (Js.try_catch m h) Q s.
Proof.
  unfold Js.wp, Js.try_catch, Js.result_of, Js.state_of, Js.trace_of.
  destruct (m s) as [[[a|e] s1] t1]; cbn; [auto|].
  destruct (h e s1) as [[r2 s2] t2]; cbn. auto.
Qed.

Lemma wp_when (c : bool) (m : Js.M St Ev unit) (Q : _ -> St -> list Ev -> Prop) s :
  (c = true -> Js.wp m Q s) -> (c = false -> Q (Js.Normal tt) s []) ->
  Js.wp (Js.when c m) Q s.
Proof. destruct c; intros H1 H2; [apply H1 | apply H2]; reflexivity. Qed.

Lemma wp_forEach_emit {A} (g : A -> Ev) (xs : list A)
  (Q : _ -> St -> list Ev -> Prop) s :
  Q (Js.Normal tt) s (map g xs) ->
  Js.wp (Js.forEach xs (fun x => Js.emit (g x))) Q s.
Proof.
  revert Q. induction xs as [|x xs IH]; intros Q H; [exact H|].
  cbn [Js.forEach]. apply wp_bind, wp_emit, IH. exact H.
Qed.

End Wp.

Lemma wp_zoom {S1 S2 E1 E2 A} (proj : S2 -> S1) (upd : S1 -> S2 -> S2)
  (inj : E1 -> E2) (m : Js.M S1 E1 A) (Q : _ -> S2 -> list E2 -> Prop) s :
  Js.wp m (fun r s1 t => Q r (upd s1 s) (map inj t)) (proj s) ->
  Js.wp (Js.zoom proj upd inj m) Q s.
Proof.
  unfold Js.wp, Js.zoom, Js.result_of, Js.state_of, Js.trace_of.
  destruct (m (proj s)) as [[r s1] t]. auto.
Qed.

(** One step of a symbolic run: the rule of the construct at the head, a
    case split where the code branches. *)
Ltac wp_step :=
  lazymatch goal with
  | |- Js.wp (Js.bind _ _) _ _ => apply wp_bind
  | |- Js.wp (Js.ret _) _ _ => apply wp_ret
  | |- Js.wp (Js.gets _) _ _ => apply wp_gets
  | |- Js.wp (Js.modify _) _ _ => apply wp_modify
  | |- Js.wp (Js.emit _) _ _ => apply wp_emit
  | |- Js.wp (Js.throw _) _ _ => apply wp_throw
  | |- Js.wp (Js.forEach _ _) _ _ => apply wp_forEach_emit
  | |- Js.wp (Js.try_catch _ _) _ _ => apply wp_try_catch
  | |- Js.wp (Js.zoom _ _ _ _) _ _ => apply wp_zoom
  | |- Js.wp (Js.when _ _) _ _ => apply wp_when; intros ?
  | |- Js.wp (if ?b then _ else _) _ _ => destruct b eqn:?
  | |- Js.wp (match ?x with _ => _ end) _ _ => destruct x eqn:?
  end.

(** The whole run; the postcondition is kept behind a name meanwhile. *)
Ltac wp_go :=
  lazymatch goal with
  | |- Js.wp _ ?Q _ =>
      let P := fresh "P" in
      let HP := fresh "HP" in
      remember Q as P eqn:HP;
      repeat (wp_step; cbn);
      subst P; cbn
  end.

(** Closing the goals a symbolic run leaves: each branch condition in the
    context is used once, to rewrite the goal and the other conditions; a
    condition that cannot hold closes its branch. *)
Ltac absurd_branch H :=
  solve [exfalso; cbn in H;
         rewrite ?andb_false_r, ?andb_true_r, ?orb_false_r, ?orb_true_r in H;
         discriminate H].

Ltac use_branches :=
  repeat match goal with
         | H : true = false |- _ => discriminate H
         | H : false = true |- _ => discriminate H
         | H : ?x = _ |- _ => is_var x; subst x
         | H : _ = ?x |- _ => is_var x; subst x
         | H : negb true = _ |- _ => cbn in H
         | H : negb false = _ |- _ => cbn in H
         | H : negb ?x = _ |- _ => is_var x; destruct x; cbn in H
         | H : _ = true |- _ => first [absurd_branch H | rewrite ?H in *; clear H]
         | H : _ = false |- _ => first [absurd_branch H | rewrite ?H in *; clear H]
         end.

Ltac wp_done :=
  use_branches; cbn; repeat apply conj; intros;
  try reflexivity; try congruence; try lia.

(** ** The wake-word detector *)

Section WakeFacts.

Local Open Scope string_scope.

Lemma lower_flip_case (c : ascii) :
  Str.lower_ascii (Str.flip_case c) = Str.lower_ascii c.
Proof.
  destruct c as [[] [] [] [] [] [] [] []]; reflexivity.
Qed.

Lemma toLowerCase_recase (mask : list bool) : forall w : string,
  Str.toLowerCase (Str.recase mask w) = Str.toLowerCase w.
Proof.
  induction mask as [|b mask IH]; intros [|c w]; simpl; try reflexivity.
  rewrite IH. destruct b; [rewrite lower_flip_case|]; reflexivity.
Qed.

(** [Str.toLowerCase] is lower case as the alphabet has it. *)
Lemma toLowerCase_lowercase (s : string) : Str.toLowerCase s = Text.lowercase s.
Proof.
  induction s as [|c s IH]; [reflexivity|].
  cbn [Str.toLowerCase Text.lowercase]. rewrite IH. f_equal.
  destruct c as [[] [] [] [] [] [] [] []]; reflexivity.
Qed.

(** [_isWakeWord] reads the word list and nothing else; it writes nothing. *)
Lemma isWakeWord_run (text : string) (d : Wake.Detector) :
  Wake._isWakeWord text d =
  (Js.Normal
     (existsb (fun wakeWord => Str.includes wakeWord (Str.trim (Str.toLowerCase text)))
        (Wake.wakeWords d)
      || existsb (fun pattern => RegExp.test pattern (Str.trim (Str.toLowerCase text)))
           Wake.fuzzyPatterns),
   d, []).
Proof.
  unfold Wake._isWakeWord, Js.bind, Js.gets, Js.ret.
  match goal with |- context [existsb ?f Wake.fuzzyPatterns] =>
    destruct (existsb f Wake.fuzzyPatterns) end;
  match goal with |- context [existsb ?f (Wake.wakeWords d)] =>
    destruct (existsb f (Wake.wakeWords d)) end;
  reflexivity.
Qed.

(** The first fuzzy pattern finds [hey], white space, [smart] in the
    scenario's input whatever the word list holds. *)
Lemma scenario_fuzzy_hit :
  existsb (fun pattern =>
             RegExp.test pattern (Str.trim (Str.toLowerCase "HEY   Smartii please")))
    Wake.fuzzyPatterns = true.
Proof. reflexivity. Qed.

Lemma addWakeWord_run (word : string) (d : Wake.Detector) :
  Wake.addWakeWord word d =
  if existsb (String.eqb (Str.toLowerCase word)) (Wake.wakeWords d)
  then (Js.Normal tt, d, [])
  else (Js.Normal tt,
        Wake.set_wakeWords (Wake.wakeWords d ++ [Str.toLowerCase word]) d,
        [Wake.Console Js.LogL ("Added wake word: " ++ word)]).
Proof.
  unfold Wake.addWakeWord, Js.bind, Js.gets, Js.ret, Js.modify, Js.emit.
  destruct (existsb _ (Wake.wakeWords d)); reflexivity.
Qed.

Lemma existsb_eqb_In (x : string) (l : list string) :
  existsb (String.eqb x) l = true <-> In x l.
Proof.
  rewrite existsb_exists. split.
  - intros [y [Hy E]]. apply String.eqb_eq in E. now subst.
  - intros H. exists x. split; [assumption | apply String.eqb_refl].
Qed.

Lemma addWakeWord_NoDup (w : string) (d : Wake.Detector) :
  NoDup (Wake.wakeWords d) ->
  NoDup (Wake.wakeWords (Js.state_of (Wake.addWakeWord w d))).
Proof.
  intros H. rewrite addWakeWord_run.
  destruct (existsb _ (Wake.wakeWords d)) eqn:E; cbn; [assumption|].
  apply NoDup_app; [assumption | repeat constructor; intros [] | ].
  intros x Hx [<-|[]].
  apply existsb_eqb_In in Hx. congruence.
Qed.

Lemma after_adding_NoDup (added : list string) (d : Wake.Detector) :
  NoDup (Wake.wakeWords (Wake.after_adding added d)).
Proof.
  unfold Wake.after_adding.
  assert (H0 : NoDup (Wake.wakeWords
                        (Wake.set_wakeWords (Wake.wakeWords Wake.constructor) d))).
  { cbn. repeat constructor; cbn; intuition discriminate. }
  revert H0. generalize (Wake.set_wakeWords (Wake.wakeWords Wake.constructor) d).
  induction added as [|w added IH]; intros d0 H0; cbn; [assumption|].
  apply IH, addWakeWord_NoDup, H0.
Qed.

Lemma count_occ_NoDup_In (x : string) (l : list string) :
  NoDup l -> In x l -> count_occ string_dec l x = 1.
Proof.
  intros N I. apply (proj1 (NoDup_count_occ string_dec l)) with (x := x) in N.
  apply (proj1 (count_occ_In string_dec l x)) in I. lia.
Qed.

End WakeFacts.

Section WakeClaims.

Local Open Scope string_scope.
Local Open Scope js_scope.

(** C7, the claim as written fails: with the one phrase [hey smartii]
    configured, the matcher answers the scenario's input with the boolean
    [true], and what the detector hands to its callback for that match is
    the whole lower-cased, trimmed transcript, not the phrase. *)
Lemma C7_match_is_not_the_phrase :
  let d := Wake.set_onWakeWordCallback (Some 0)
             (Wake.set_wakeWords ["hey smartii"] Wake.constructor) in
  Js.result_of (Wake._isWakeWord "HEY   Smartii please" d) = Js.Normal true /\
  Wake.invoked (Js.trace_of (Wake.onresult ["HEY   Smartii please"] d))
    = ["hey   smartii please"] /\
  Wake.invoked (Js.trace_of (Wake.onresult ["HEY   Smartii please"] d))
    <> ["hey smartii"].
Proof.
  cbv zeta. repeat apply conj; try reflexivity.
  vm_compute. discriminate.
Qed.

(** C7 (amended): with the wake phrase [hey smartii] configured,
    [_isWakeWord] answers [true] on [HEY   Smartii please] and [false] on
    [he smart]; the same answers come with the constructor's word list.
    In general [_isWakeWord] returns a boolean, never throws and changes
    nothing; on a match [onresult] calls the callback with the lower-cased,
    trimmed transcript. *)
Theorem C7_isWakeWord_scenarios :
  forall d : Wake.Detector,
    let d1 := Wake.set_wakeWords ["hey smartii"] d in
    let d4 := Wake.set_wakeWords (Wake.wakeWords Wake.constructor) d in
    Wake._isWakeWord "HEY   Smartii please" d1 = (Js.Normal true, d1, []) /\
    Wake._isWakeWord "he smart" d1 = (Js.Normal false, d1, []) /\
    Wake._isWakeWord "HEY   Smartii please" d4 = (Js.Normal true, d4, []) /\
    Wake._isWakeWord "he smart" d4 = (Js.Normal false, d4, []) /\
    (forall text, exists b : bool, Wake._isWakeWord text d = (Js.Normal b, d, [])) /\
    (forall cb,
       Wake.invoked (Js.trace_of (Wake.onresult ["HEY   Smartii please"]
                                    (Wake.set_onWakeWordCallback (Some cb) d1)))
       = ["hey   smartii please"]).
Proof.
  intros d d1 d4. repeat apply conj.
  - rewrite isWakeWord_run. reflexivity.
  - rewrite isWakeWord_run. reflexivity.
  - rewrite isWakeWord_run. reflexivity.
  - rewrite isWakeWord_run. reflexivity.
  - intros text. eexists. apply isWakeWord_run.
  - intros cb. subst d1.
    destruct d as [active [[phase strict]|] words c s];
      destruct active; try destruct phase; try destruct strict; reflexivity.
Qed.

(** C8: the matcher is pure and stateless.  For a word list and a text
    there is one answer [b]: in every detector state that carries this
    word list, whatever its other fields hold, the call returns [b], leaves
    the detector as it was and has no effect; so two calls in a row return
    the same answer. *)
Theorem C8_isWakeWord_pure :
  forall (words : list string) (text : string),
  exists b : bool,
    forall d : Wake.Detector,
      let d' := Wake.set_wakeWords words d in
      Wake._isWakeWord text d' = (Js.Normal b, d', []) /\
      (x <- Wake._isWakeWord text ;; y <- Wake._isWakeWord text ;; Js.ret (x, y)) d'
        = (Js.Normal (b, b), d', []).
Proof.
  intros words text.
  exists (existsb (fun wakeWord =>
                     Str.includes wakeWord (Str.trim (Str.toLowerCase text))) words
          || existsb (fun pattern =>
                        RegExp.test pattern (Str.trim (Str.toLowerCase text)))
               Wake.fuzzyPatterns).
  intros d d'. split.
  - rewrite isWakeWord_run. reflexivity.
  - unfold Js.bind. rewrite !isWakeWord_run. reflexivity.
Qed.

(** C10, the claim as written fails: JavaScript writes [straße] in
    capitals as [STRASSE], but the lower case of [STRASSE] is [strasse],
    another string than [straße].  After [addWakeWord('straße')] the call
    [addWakeWord('STRASSE')] finds no such word and the list grows again.
    (Neither word holds a capital letter outside ASCII, so the lower case
    taken here is JavaScript's.) *)
Lemma C10_other_case_is_added_again :
  let d1 := Js.state_of (Wake.addWakeWord "straße" Wake.constructor) in
  let d2 := Js.state_of (Wake.addWakeWord "STRASSE" d1) in
  Wake.wakeWords d1 = (Wake.wakeWords Wake.constructor ++ ["straße"])%list /\
  Wake.wakeWords d2 = (Wake.wakeWords Wake.constructor ++ ["straße"; "strasse"])%list /\
  Wake.wakeWords d2 <> Wake.wakeWords d1.
Proof.
  cbv zeta. repeat apply conj; try reflexivity.
  vm_compute. discriminate.
Qed.

(** C10 (amended): for words in ASCII, adding a wake word is idempotent
    and case-normalizing.  In a detector whose word list has grown from
    the constructor's by calls of [addWakeWord], [addWakeWord(w)] adds the
    lower case of [w] at the end of the list unless the list holds it
    already; afterwards that word is in the list exactly once, and a
    further [addWakeWord] of [w], in whatever case its letters are
    written, changes nothing and prints nothing. *)
Theorem C10_addWakeWord_idempotent :
  forall (d0 : Wake.Detector) (added : list string) (w : string) (mask : list bool),
    forallb Text.is_ascii added = true ->
    Text.is_ascii w = true ->
    let d := Wake.after_adding added d0 in
    let d1 := Js.state_of (Wake.addWakeWord w d) in
    Wake.wakeWords d1
      = (if existsb (String.eqb (Text.lowercase w)) (Wake.wakeWords d)
         then Wake.wakeWords d
         else Wake.wakeWords d ++ [Text.lowercase w])%list /\
    count_occ string_dec (Wake.wakeWords d1) (Text.lowercase w) = 1 /\
    Wake.addWakeWord (Str.recase mask w) d1 = (Js.Normal tt, d1, []).
Proof.
  intros d0 added w mask _ _ d d1.
  assert (N1 : NoDup (Wake.wakeWords d1))
    by apply addWakeWord_NoDup, after_adding_NoDup.
  assert (E1 : Wake.wakeWords d1
               = (if existsb (String.eqb (Text.lowercase w)) (Wake.wakeWords d)
                  then Wake.wakeWords d
                  else Wake.wakeWords d ++ [Text.lowercase w])%list).
  { subst d1. rewrite addWakeWord_run, toLowerCase_lowercase.
    destruct (existsb _ (Wake.wakeWords d)); reflexivity. }
  assert (I1 : In (Text.lowercase w) (Wake.wakeWords d1)).
  { rewrite E1.
    destruct (existsb _ (Wake.wakeWords d)) eqn:E.
    - now apply existsb_eqb_In.
    - apply in_or_app. right. now left. }
  repeat split.
  - exact E1.
  - now apply count_occ_NoDup_In.
  - rewrite addWakeWord_run, toLowerCase_recase, toLowerCase_lowercase.
    apply existsb_eqb_In in I1. now rewrite I1.
Qed.

Lemma C10_addWakeWord_idempotent_witness :
  let d := Wake.after_adding ["Jarvis"] Wake.constructor in
  let d1 := Js.state_of (Wake.addWakeWord "Hey Buddy" d) in
  Wake.wakeWords d1
    = ["hey smartii"; "hey smart"; "smartii"; "computer"; "jarvis"; "hey buddy"] /\
  count_occ string_dec (Wake.wakeWords d1) "hey buddy" = 1 /\
  Wake.addWakeWord "HEY buddY" d1 = (Js.Normal tt, d1, []).
Proof.
  exact (C10_addWakeWord_idempotent Wake.constructor ["Jarvis"] "Hey Buddy"
           [true; true; true; false; false; false; false; false; true]
           eq_refl eq_refl).
Defined.

End WakeClaims.

(** ** The full-duplex audio engine *)

Module DuplexFacts.

Import Duplex.

Section Traces.

Local Open Scope string_scope.

Lemma activities_nil : activities [] = 0.
Proof. reflexivity. Qed.

Lemma activities_cons x t :
  activities (x :: t) = (if is_activity x then 1 else 0) + activities t.
Proof. unfold activities. cbn. destruct (is_activity x); reflexivity. Qed.

Lemma activities_app t1 t2 : activities (t1 ++ t2) = activities t1 + activities t2.
Proof. unfold activities. now rewrite filter_app, length_app. Qed.

Lemma activities_interrupt_callbacks cbs reason :
  activities (map (fun cb => InterruptCallback cb reason) cbs) = 0.
Proof. induction cbs; [reflexivity|]. cbn [map]. now rewrite activities_cons. Qed.

Lemma activities_vad_callbacks cbs :
  activities (map (fun cb => VADCallback cb) cbs) = 0.
Proof. induction cbs; [reflexivity|]. cbn [map]. now rewrite activities_cons. Qed.

Lemma completions_nil : completions [] = [].
Proof. reflexivity. Qed.

Lemma completions_cons x t :
  completions (x :: t)
  = ((match x with OnEnd cb => [cb] | _ => [] end) ++ completions t)%list.
Proof. reflexivity. Qed.

Lemma completions_app t1 t2 :
  completions (t1 ++ t2) = (completions t1 ++ completions t2)%list.
Proof. unfold completions. now rewrite flat_map_app. Qed.

Lemma completions_interrupt_callbacks cbs reason :
  completions (map (fun cb => InterruptCallback cb reason) cbs) = [].
Proof. induction cbs; [reflexivity|]. cbn [map]. now rewrite completions_cons. Qed.

Lemma completions_vad_callbacks cbs :
  completions (map (fun cb => VADCallback cb) cbs) = [].
Proof. induction cbs; [reflexivity|]. cbn [map]. now rewrite completions_cons. Qed.

End Traces.

Create Rewrite HintDb trace.
#[local] Hint Rewrite activities_nil activities_cons activities_app
  activities_interrupt_callbacks activities_vad_callbacks
  completions_nil completions_cons completions_app
  completions_interrupt_callbacks completions_vad_callbacks : trace.

Ltac unfold_engine :=
  unfold handler, drop, onaudioprocess, _onVoiceActivityDetected,
    _sendAudioToBackend, interrupt, startSpeaking, stopSpeaking, startListening,
    stopListening, initialize, onInterrupt, onVAD, utterance_onstart,
    utterance_onend, utterance_onerror, setTimeout, ws_send,
    upd_playback, upd_browser, upd_capture.

Ltac engine_fields e :=
  destruct e as [ctx [pl cu] [cap vd] sp li intr thr k cnt icbs vcbs last
                 [[q en] clo so tm ck]].

Section Steps.

Local Open Scope string_scope.

(** What one frame does to the detector and to the flags that gate
    announcements and completions. *)
Lemma onaudioprocess_spec (f : list float) (e : Engine) :
  Js.wp (onaudioprocess f)
    (fun _ e' t =>
       completions t = [] /\
       activities t =
         (if isListening e && confirms e f && negb (vadDetected (captureState e))
          then 1 else 0) /\
       audioContext e' = audioContext e /\
       isListening e' = isListening e /\
       vadThreshold e' = vadThreshold e /\
       vadConsecutiveFrames e' = vadConsecutiveFrames e /\
       vadFrameCount e' =
         (if isListening e
          then if loud e f && negb (confirms e f) then S (vadFrameCount e) else 0
          else vadFrameCount e) /\
       vadDetected (captureState e')
         = vadDetected (captureState e) || (isListening e && confirms e f) /\
       (isInterrupted e = true -> isInterrupted e' = true)) e.
Proof.
  engine_fields e.
  unfold loud, confirms. cbn.
  unfold_engine. wp_go.
  all: autorewrite with trace; wp_done.
  all: now rewrite orb_false_r.
Qed.

(** A frame reaches [onaudioprocess] once the audio graph exists. *)
Lemma wp_frame (f : list float) (e : Engine) (Q : _ -> Engine -> list effect -> Prop) :
  (audioContext e = None -> Q (Js.Normal tt) e []) ->
  (audioContext e <> None -> Js.wp (onaudioprocess f) Q e) ->
  Js.wp (handler (AudioProcess f)) Q e.
Proof.
  intros Hskip Hrun. unfold handler. apply wp_bind, wp_gets.
  destruct (audioContext e) eqn:E; [|now apply Hskip].
  eapply wp_mono; [apply Hrun; discriminate|]. cbn. auto.
Qed.

(** While [vadDetected] is set, only the reset timer clears it, and no
    event announces voice activity. *)
Lemma refractory (ev : event) (e : Engine) :
  ev <> Timeout ->
  vadDetected (captureState e) = true ->
  Js.wp (handler ev)
    (fun _ e' t => vadDetected (captureState e') = true /\ activities t = 0) e.
Proof.
  intros Hev Hd. destruct ev; try congruence.
  9: { apply wp_frame; [now split|intros _].
       eapply wp_mono; [apply onaudioprocess_spec|].
       cbn. intros _ e' t (_ & Ha & _ & _ & _ & _ & _ & Hv & _).
       rewrite Hd in *. rewrite andb_false_r in Ha. now split. }
  all: revert Hd; engine_fields e; cbn; intros ->; unfold_engine; wp_go.
  all: autorewrite with trace; wp_done.
Qed.

End Steps.

Section Runs.

Local Open Scope string_scope.

Lemma wp_handler_run (ev : event) (rest : list event) (e : Engine)
  (Q : Engine -> list effect -> Prop) :
  Js.wp (handler ev) (fun _ e1 t1 =>
     forall e2 t2, run rest e1 = (e2, t2) -> Q e2 (t1 ++ t2)%list) e ->
  Q (fst (run (ev :: rest) e)) (snd (run (ev :: rest) e)).
Proof.
  unfold Js.wp. cbn [run].
  destruct (handler ev e) as [[r e1] t1]. cbn.
  destruct (run rest e1) as [e2 t2]. cbn. auto.
Qed.

(** After an announcement [vadDetected] is set. *)
Lemma activity_sets_detected (ev : event) (e : Engine) :
  Js.wp (handler ev)
    (fun _ e' t => 0 < activities t -> vadDetected (captureState e') = true) e.
Proof.
  destruct ev.
  9: { apply wp_frame; [rewrite activities_nil; lia|intros _].
       eapply wp_mono; [apply onaudioprocess_spec|].
       cbn. intros _ e' t (_ & Ha & _ & _ & _ & _ & _ & Hv & _) Hpos.
       rewrite Hv. rewrite Ha in Hpos.
       destruct (isListening e && confirms e inputData); [apply orb_true_r|].
       cbn in Hpos. lia. }
  all: engine_fields e; unfold_engine; wp_go.
  all: autorewrite with trace; wp_done.
Qed.

Lemma refractory_run (evs : list event) : forall e : Engine,
  vadDetected (captureState e) = true ->
  existsb is_timeout evs = false ->
  vadDetected (captureState (fst (run evs e))) = true /\
  activities (snd (run evs e)) = 0.
Proof.
  induction evs as [|ev evs IH]; intros e Hd Hno; [now split|].
  cbn [existsb] in Hno. apply orb_false_iff in Hno as [Hev Hno].
  apply (wp_handler_run ev evs e
           (fun e2 t => vadDetected (captureState e2) = true /\ activities t = 0)).
  eapply wp_mono.
  - apply refractory; [|exact Hd]. intros ->. discriminate.
  - cbn. intros _ e1 t1 [Hd1 Ht1] e2 t2 E.
    specialize (IH e1 Hd1 Hno). rewrite E in IH. cbn in IH.
    rewrite activities_app. intuition lia.
Qed.

(** While [isInterrupted] is set, only [startSpeaking] clears it, and no
    completion callback runs. *)
Lemma suppressed (ev : event) (e : Engine) :
  (forall text onEnd, ev <> StartSpeaking text onEnd) ->
  isInterrupted e = true ->
  Js.wp (handler ev)
    (fun _ e' t => isInterrupted e' = true /\ completions t = []) e.
Proof.
  intros Hev Hi. destruct ev; try (now exfalso; eapply Hev).
  8: { apply wp_frame; [now split|intros _].
       eapply wp_mono; [apply onaudioprocess_spec|].
       cbn. intros _ e' t (Hc & _ & _ & _ & _ & _ & _ & _ & Hk). auto. }
  all: revert Hi; engine_fields e; cbn; intros ->; unfold_engine; wp_go.
  all: autorewrite with trace; wp_done.
Qed.

Lemma suppressed_run (evs : list event) : forall e : Engine,
  isInterrupted e = true ->
  existsb is_startSpeaking evs = false ->
  isInterrupted (fst (run evs e)) = true /\
  completions (snd (run evs e)) = [].
Proof.
  induction evs as [|ev evs IH]; intros e Hd Hno; [now split|].
  cbn [existsb] in Hno. apply orb_false_iff in Hno as [Hev Hno].
  apply (wp_handler_run ev evs e
           (fun e2 t => isInterrupted e2 = true /\ completions t = [])).
  eapply wp_mono.
  - apply suppressed; [|exact Hd]. intros text onEnd ->. discriminate.
  - cbn. intros _ e1 t1 [Hd1 Ht1] e2 t2 E.
    specialize (IH e1 Hd1 Hno). rewrite E in IH. cbn in IH.
    rewrite completions_app, Ht1. intuition.
Qed.

Lemma interrupt_run_any (reason : string) (e : Engine) :
  Js.wp (interrupt reason)
    (fun r e' t =>
       r = Js.Normal tt /\
       t = ([Console Js.WarnL ("INTERRUPT: " ++ reason)]
            ++ (if Synthesis.speaking (synthesis (browser e)) then [SynthCancel] else [])
            ++ [Console Js.LogL "Speaking STOPPED"]
            ++ (if socketOpen (browser e) then [WsSend (Interrupt reason)] else [])
            ++ map (fun cb => InterruptCallback cb reason) (onInterruptCallbacks e)
            ++ DuplexWatch.capture_effects e)%list /\
       isSpeaking e' = false /\
       Synthesis.speaking (synthesis (browser e')) = false /\
       isInterrupted e' = true /\
       isListening e' = match audioContext e with
                        | Some _ => true
                        | None => isListening e
                        end) e.
Proof.
  engine_fields e. unfold DuplexWatch.capture_effects. cbn.
  unfold_engine. wp_go.
  all: wp_done.
Qed.

(** A frame that confirms voice activity while the engine speaks: the
    announcement, then the interruption in the order above; capture was on
    already, [startListening] only says so. *)
Lemma vad_barge_in (f : list float) (e : Engine) :
  audioContext e <> None -> isListening e = true -> isSpeaking e = true ->
  Synthesis.speaking (synthesis (browser e)) = true ->
  vadDetected (captureState e) = false -> confirms e f = true ->
  Js.wp (onaudioprocess f)
    (fun r e' t =>
       r = Js.Normal tt /\
       (firstn 4 t = [activity; Console Js.WarnL "INTERRUPT: vad_detected";
                      SynthCancel; Console Js.LogL "Speaking STOPPED"]) /\
       In (Console Js.WarnL "Already listening") (skipn 4 t) /\
       (~ In (Console Js.LogL "Listening started - VAD active") t) /\
       isSpeaking e' = false /\ isInterrupted e' = true /\
       isListening e' = true /\ vadFrameCount e' = 0) e.
Proof.
  engine_fields e. unfold confirms, loud. cbn.
  intros Hctx -> -> Hq -> Hc. apply andb_true_iff in Hc as [Hl Hk].
  destruct ctx as [a|]; [clear Hctx|congruence].
  unfold_engine. wp_go.
  all: use_branches; cbn; repeat apply conj; try reflexivity; try congruence.
  all: repeat rewrite in_app_iff; cbn [In]; rewrite ?in_map_iff;
    intuition (try congruence).
  all: repeat match goal with
         | H : In _ (_ ++ _) |- _ => apply in_app_or in H; destruct H
         | H : In _ (map _ _) |- _ => apply in_map_iff in H; destruct H as [? [? ?]]
         | H : In _ (_ :: _) |- _ => destruct H
         | H : In _ [] |- _ => destruct H
         | H : exists _, _ |- _ => destruct H as [? [? ?]]
         end; unfold activity in *; congruence.
Qed.

Lemma interrupt_sets_flag (reason : string) (e : Engine) :
  Js.wp (interrupt reason)
    (fun _ e' t => isInterrupted e' = true /\ completions t = []) e.
Proof.
  engine_fields e. unfold_engine. wp_go.
  all: autorewrite with trace; wp_done.
Qed.

(** What a frame does when it reaches a listening engine. *)
Lemma frame_turn (f : list float) (e : Engine) :
  audioContext e <> None -> isListening e = true ->
  exists r e' t,
    handler (AudioProcess f) e = (r, e', t) /\
    activities t
      = (if confirms e f && negb (vadDetected (captureState e)) then 1 else 0) /\
    audioContext e' <> None /\ isListening e' = true /\
    vadThreshold e' = vadThreshold e /\
    vadConsecutiveFrames e' = vadConsecutiveFrames e /\
    vadFrameCount e'
      = (if loud e f && negb (confirms e f) then S (vadFrameCount e) else 0) /\
    vadDetected (captureState e') = vadDetected (captureState e) || confirms e f.
Proof.
  intros Hctx Hli. apply wp_run, wp_frame; [contradiction|intros _].
  eapply wp_mono; [apply onaudioprocess_spec|].
  cbn. rewrite Hli. cbn.
  intros _ e' t (_ & Ha & Hc & Hl & Ht & Hk & Hn & Hv & _).
  rewrite Hc. auto 10.
Qed.

End Runs.

Section Detection.

Local Open Scope string_scope.

Lemma count_length (f : list float) : Vad.count f = length_as_number f.
Proof.
  unfold length_as_number.
  assert (Hs : forall (l : list float) (a : float),
             fold_left (fun n _ => n + 1)%float l (a + 1)%float
             = (fold_left (fun n _ => n + 1)%float l a + 1)%float).
  { induction l as [|y l IH]; intros a; [reflexivity|]. cbn. apply IH. }
  induction f as [|x f IH]; [reflexivity|].
  cbn [Vad.count fold_left]. rewrite IH. symmetry. apply Hs.
Qed.

(** [_calculateRMS] computes the root mean square. *)
Lemma calculateRMS_rms (f : list float) : _calculateRMS f = Vad.rms f.
Proof.
  unfold _calculateRMS, Vad.rms. cbv zeta. rewrite count_length. do 2 f_equal.
  assert (H : forall (l r : list float),
            fold_left (fun sum x => sum + x * x)%float l (Vad.squares r)
            = Vad.squares (rev l ++ r)).
  { induction l as [|x l IH]; intros r; [reflexivity|].
    cbn [fold_left rev]. rewrite <- app_assoc. cbn [app].
    exact (IH (x :: r)). }
  rewrite <- (app_nil_r (rev f)). exact (H f []).
Qed.

Lemma messages_nil : Vad.messages [] = 0.
Proof. reflexivity. Qed.

Lemma messages_cons x t :
  Vad.messages (x :: t) = (if Vad.is_message x then 1 else 0) + Vad.messages t.
Proof. unfold Vad.messages. cbn. destruct (Vad.is_message x); reflexivity. Qed.

Lemma messages_app t1 t2 : Vad.messages (t1 ++ t2) = Vad.messages t1 + Vad.messages t2.
Proof. unfold Vad.messages. now rewrite filter_app, length_app. Qed.

Lemma messages_interrupt_callbacks cbs reason :
  Vad.messages (map (fun cb => InterruptCallback cb reason) cbs) = 0.
Proof. induction cbs; [reflexivity|]. cbn [map]. now rewrite messages_cons. Qed.

Lemma messages_vad_callbacks cbs :
  Vad.messages (map (fun cb => VADCallback cb) cbs) = 0.
Proof. induction cbs; [reflexivity|]. cbn [map]. now rewrite messages_cons. Qed.

Lemma notified_nil : Vad.notified [] = [].
Proof. reflexivity. Qed.

Lemma notified_cons x t :
  Vad.notified (x :: t)
  = (match x with VADCallback cb => [cb] | _ => [] end ++ Vad.notified t)%list.
Proof. reflexivity. Qed.

Lemma notified_app t1 t2 :
  Vad.notified (t1 ++ t2) = (Vad.notified t1 ++ Vad.notified t2)%list.
Proof. unfold Vad.notified. apply flat_map_app. Qed.

Lemma notified_interrupt_callbacks cbs reason :
  Vad.notified (map (fun cb => InterruptCallback cb reason) cbs) = [].
Proof. induction cbs; [reflexivity|]. cbn [map]. now rewrite notified_cons. Qed.

Lemma notified_vad_callbacks cbs :
  Vad.notified (map (fun cb => VADCallback cb) cbs) = cbs.
Proof.
  induction cbs as [|cb cbs IH]; [reflexivity|]. cbn [map].
  rewrite notified_cons, IH. reflexivity.
Qed.

End Detection.

Create Rewrite HintDb detection.
#[local] Hint Rewrite messages_nil messages_cons messages_app
  messages_interrupt_callbacks messages_vad_callbacks
  notified_nil notified_cons notified_app
  notified_interrupt_callbacks notified_vad_callbacks
  activities_nil activities_cons activities_app
  activities_interrupt_callbacks activities_vad_callbacks : detection.

Section Frames.

Local Open Scope string_scope.

(** One frame, in full: whether it makes a detection, and all that a
    detection is. *)
Lemma frame_detection (f : list float) (e : Engine) :
  isListening e = true ->
  Js.wp (onaudioprocess f)
    (fun _ e' t =>
       let fires := confirms e f && negb (vadDetected (captureState e)) in
       activities t = (if fires then 1 else 0) /\
       Vad.messages t = (if fires && socketOpen (browser e) then 1 else 0) /\
       Vad.notified t = (if fires then onVADCallbacks e else []) /\
       timers (browser e')
         = (if fires then timers (browser e) ++ [(clock (browser e) + 1000)%N]
            else timers (browser e))%list /\
       isSpeaking e' = (if fires then false else isSpeaking e) /\
       isInterrupted e' = isInterrupted e || (fires && isSpeaking e) /\
       socketOpen (browser e') = socketOpen (browser e) /\
       clock (browser e') = clock (browser e) /\
       onVADCallbacks e' = onVADCallbacks e /\
       vadFrameCount e'
         = (if loud e f && negb (confirms e f) then S (vadFrameCount e) else 0) /\
       vadDetected (captureState e') = vadDetected (captureState e) || confirms e f) e.
Proof.
  engine_fields e. unfold loud, confirms. cbn. intros ->.
  unfold_engine. wp_go.
  all: autorewrite with detection; wp_done.
  all: rewrite ?app_nil_r, ?orb_false_r; reflexivity.
Qed.

End Frames.

Section Confirm.

Local Open Scope string_scope.

Lemma frame_detection_run (f : list float) (e : Engine) :
  audioContext e <> None -> isListening e = true ->
  exists r e' t,
    handler (AudioProcess f) e = (r, e', t) /\
    audioContext e' <> None /\ isListening e' = true /\
    vadThreshold e' = vadThreshold e /\
    vadConsecutiveFrames e' = vadConsecutiveFrames e /\
    let fires := confirms e f && negb (vadDetected (captureState e)) in
    activities t = (if fires then 1 else 0) /\
    Vad.messages t = (if fires && socketOpen (browser e) then 1 else 0) /\
    Vad.notified t = (if fires then onVADCallbacks e else []) /\
    timers (browser e')
      = (if fires then timers (browser e) ++ [(clock (browser e) + 1000)%N]
         else timers (browser e))%list /\
    isSpeaking e' = (if fires then false else isSpeaking e) /\
    isInterrupted e' = isInterrupted e || (fires && isSpeaking e) /\
    socketOpen (browser e') = socketOpen (browser e) /\
    clock (browser e') = clock (browser e) /\
    onVADCallbacks e' = onVADCallbacks e /\
    vadFrameCount e'
      = (if loud e f && negb (confirms e f) then S (vadFrameCount e) else 0) /\
    vadDetected (captureState e') = vadDetected (captureState e) || confirms e f.
Proof.
  intros Hctx Hli.
  destruct (frame_turn f e Hctx Hli)
    as (r & e' & t & E & _ & C & Li & T & K & _).
  exists r, e', t. split; [exact E|]. repeat (split; [assumption|]).
  assert (H : Js.wp (handler (AudioProcess f))
                (fun _ e1 t1 =>
                   let fires := confirms e f && negb (vadDetected (captureState e)) in
                   activities t1 = (if fires then 1 else 0) /\
                   Vad.messages t1 = (if fires && socketOpen (browser e) then 1 else 0) /\
                   Vad.notified t1 = (if fires then onVADCallbacks e else []) /\
                   timers (browser e1)
                     = (if fires then timers (browser e) ++ [(clock (browser e) + 1000)%N]
                        else timers (browser e))%list /\
                   isSpeaking e1 = (if fires then false else isSpeaking e) /\
                   isInterrupted e1 = isInterrupted e || (fires && isSpeaking e) /\
                   socketOpen (browser e1) = socketOpen (browser e) /\
                   clock (browser e1) = clock (browser e) /\
                   onVADCallbacks e1 = onVADCallbacks e /\
                   vadFrameCount e1
                     = (if loud e f && negb (confirms e f) then S (vadFrameCount e) else 0) /\
                   vadDetected (captureState e1)
                     = vadDetected (captureState e) || confirms e f) e).
  { apply wp_frame; [contradiction|intros _]. apply frame_detection, Hli. }
  unfold Js.wp in H. rewrite E in H. exact H.
Qed.

End Confirm.

Section Claims.

Local Open Scope string_scope.

(** C2, the claim as written fails: [startSpeaking] needs no audio
    context, so an engine can speak that was never initialized.  There
    [interrupt()] cancels the playback and then calls [startListening()],
    which refuses: the engine does not end in a listening state. *)
Lemma C2_interrupt_without_audio_context :
  isSpeaking DuplexWatch.uninitialized_speaker = true /\
  Synthesis.speaking (synthesis (browser DuplexWatch.uninitialized_speaker)) = true /\
  Js.trace_of (interrupt "user_interrupt" DuplexWatch.uninitialized_speaker)
    = [Console Js.WarnL "INTERRUPT: user_interrupt"; SynthCancel;
       Console Js.LogL "Speaking STOPPED"; WsSend (Interrupt "user_interrupt");
       Console Js.ErrorL "Audio context not initialized"] /\
  isListening (Js.state_of (interrupt "user_interrupt" DuplexWatch.uninitialized_speaker)) = false.
Proof. repeat apply conj; reflexivity. Qed.

(** C2 (amended): a barge-in while the engine speaks, on every engine.
    [interrupt] completes normally and its effects come in this order:
    the warning, [speechSynthesis.cancel()] when the synthesizer holds an
    utterance, the notifications, and only then what [startListening]
    does; afterwards nothing is being spoken and the completion of any
    utterance is suppressed when its end event arrives.  The engine ends
    listening when it has an audio context; without one [startListening]
    only reports the failure and capture stays as it was.  [vad_barge_in]
    shows the order when the call comes from the voice-activity detector,
    where the engine listens already. *)
Theorem C2_interrupt_order :
  forall (reason : string) (e : Engine),
    isSpeaking e = true ->
    let r := interrupt reason e in
    Js.result_of r = Js.Normal tt /\
    Js.trace_of r =
      ([Console Js.WarnL ("INTERRUPT: " ++ reason)]
       ++ (if Synthesis.speaking (synthesis (browser e)) then [SynthCancel] else [])
       ++ [Console Js.LogL "Speaking STOPPED"]
       ++ (if socketOpen (browser e) then [WsSend (Interrupt reason)] else [])
       ++ map (fun cb => InterruptCallback cb reason) (onInterruptCallbacks e)
       ++ DuplexWatch.capture_effects e)%list /\
    isSpeaking (Js.state_of r) = false /\
    Synthesis.speaking (synthesis (browser (Js.state_of r))) = false /\
    isListening (Js.state_of r)
      = match audioContext e with
        | Some _ => true
        | None => isListening e
        end /\
    (forall u, completions (Js.trace_of (handler (UtteranceEnd u) (Js.state_of r))) = []).
Proof.
  intros reason e _ r.
  pose proof (interrupt_run_any reason e) as H. unfold Js.wp in H. fold r in H.
  destruct H as (Hr & Ht & Hsp & Hq & Hi & Hl).
  repeat apply conj; try assumption.
  intros u. apply (suppressed (UtteranceEnd u)); [discriminate | exact Hi].
Qed.

Lemma C2_interrupt_order_witness :
  Js.trace_of (interrupt "vad_detected" speaking_engine) =
    [Console Js.WarnL "INTERRUPT: vad_detected"; SynthCancel;
     Console Js.LogL "Speaking STOPPED"; WsSend (Interrupt "vad_detected");
     Console Js.WarnL "Already listening"] /\
  isListening (Js.state_of (interrupt "vad_detected" speaking_engine)) = true.
Proof.
  destruct (C2_interrupt_order "vad_detected" speaking_engine eq_refl)
    as (_ & Ht & _ & _ & Hl & _).
  split; [exact Ht | exact Hl].
Defined.

(** C3, the claim as written fails: an utterance cut by [stopSpeaking]
    (directly, or by the [startSpeaking] of the next utterance) still gets
    its completion callback when its end event arrives; and after an
    [interrupt] the suppression is lost as soon as a new utterance starts.
    No utterance id is kept anywhere. *)
Lemma C3_stale_completion_fires :
  snd (run [StartSpeaking "one" (Some 7); UtteranceStart 0; StopSpeaking;
            UtteranceEnd 0] (constructor false))
  = [Console Js.LogL "Speaking STOPPED"; SynthSpeak 0 "one"; Console Js.LogL "Speaking";
     Console Js.LogL "Speaking started";
     SynthCancel; Console Js.LogL "Speaking STOPPED";
     Console Js.LogL "Speaking ended"; OnEnd 7] /\
  completions
    (snd (run [StartSpeaking "one" (Some 7); UtteranceStart 0;
               Interrupt_ "user_interrupt"; StartSpeaking "two" (Some 8);
               UtteranceEnd 0] (constructor false)))
  = [7].
Proof. split; reflexivity. Qed.

(** C3 (amended): once [interrupt] has cancelled the playback, no
    completion callback given to [startSpeaking] runs, whatever happens
    next, as long as [startSpeaking] is not called again; the mechanism is
    the flag [isInterrupted], which the next [startSpeaking] clears. *)
Theorem C3_interrupt_suppresses_completion :
  forall (reason : string) (e : Engine) (evs : list event),
    existsb is_startSpeaking evs = false ->
    completions (Js.trace_of (interrupt reason e)) = [] /\
    completions (snd (run evs (Js.state_of (interrupt reason e)))) = [].
Proof.
  intros reason e evs Hno.
  destruct (interrupt_sets_flag reason e) as [Hi Hc].
  split; [exact Hc|]. now apply suppressed_run.
Qed.

Lemma C3_interrupt_suppresses_completion_witness :
  completions
    (snd (run [UtteranceEnd 0; Tick 10; StopSpeaking]
            (Js.state_of (interrupt "user_interrupt" speaking_engine)))) = [].
Proof.
  apply (C3_interrupt_suppresses_completion "user_interrupt" speaking_engine
           [UtteranceEnd 0; Tick 10; StopSpeaking]).
  reflexivity.
Defined.

(** C4: the detector with [amplitudeThreshold = 0.01] and
    [confirmFrames = 3], listening, its counter at zero and nothing
    detected yet.  Two frames whose root mean square is above the
    threshold bring the counter to 2 and detect nothing.  A third frame
    that is not above it puts the counter back to 0, and nothing is
    detected: no announcement, no [vad_detected] message, no callback, no
    timer, no flag changed.  A third frame above it makes exactly one
    detection: one announcement, one [vad_detected] message on an open
    socket, each callback given to [onVAD] called once, what is being
    spoken interrupted, [vadDetected] set and its reset timer set for one
    second later. *)
Theorem C4_vad_confirm_frames :
  forall (e : Engine) (f1 f2 f3 : list float),
    audioContext e <> None -> isListening e = true ->
    vadThreshold e = 0.01%float -> vadConsecutiveFrames e = 3 ->
    vadFrameCount e = 0 -> vadDetected (captureState e) = false ->
    ltb 0.01 (Vad.rms f1) = true ->
    ltb 0.01 (Vad.rms f2) = true ->
    let two := run [AudioProcess f1; AudioProcess f2] e in
    let three := run [AudioProcess f1; AudioProcess f2; AudioProcess f3] e in
    (vadFrameCount (fst two) = 2 /\ activities (snd two) = 0 /\
     Vad.messages (snd two) = 0 /\ Vad.notified (snd two) = []) /\
    (ltb 0.01 (Vad.rms f3) = false ->
     vadFrameCount (fst three) = 0 /\
     activities (snd three) = 0 /\
     Vad.messages (snd three) = 0 /\
     Vad.notified (snd three) = [] /\
     vadDetected (captureState (fst three)) = false /\
     timers (browser (fst three)) = timers (browser e) /\
     isSpeaking (fst three) = isSpeaking e /\
     isInterrupted (fst three) = isInterrupted e) /\
    (ltb 0.01 (Vad.rms f3) = true ->
     activities (snd three) = 1 /\
     Vad.messages (snd three) = (if socketOpen (browser e) then 1 else 0) /\
     Vad.notified (snd three) = onVADCallbacks e /\
     vadDetected (captureState (fst three)) = true /\
     vadFrameCount (fst three) = 0 /\
     timers (browser (fst three))
       = (timers (browser e) ++ [(clock (browser e) + 1000)%N])%list /\
     isSpeaking (fst three) = false /\
     isInterrupted (fst three) = isInterrupted e || isSpeaking e).
Proof.
  intros e f1 f2 f3 Hctx Hli Hthr Hk Hcnt Hdet L1 L2 two three.
  destruct (frame_detection_run f1 e Hctx Hli)
    as (r1 & e1 & t1 & E1 & C1 & Li1 & T1 & K1 & A1 & M1 & V1 & Tm1 & Sp1 & In1
        & So1 & Ck1 & Cb1 & N1 & D1).
  destruct (frame_detection_run f2 e1 C1 Li1)
    as (r2 & e2 & t2 & E2 & C2 & Li2 & T2 & K2 & A2 & M2 & V2 & Tm2 & Sp2 & In2
        & So2 & Ck2 & Cb2 & N2 & D2).
  destruct (frame_detection_run f3 e2 C2 Li2)
    as (r3 & e3 & t3 & E3 & C3 & Li3 & T3 & K3 & A3 & M3 & V3 & Tm3 & Sp3 & In3
        & So3 & Ck3 & Cb3 & N3 & D3).
  unfold confirms, loud in *. rewrite !calculateRMS_rms in *.
  rewrite T2, T1, Hthr, K2, K1, Hk in *.
  rewrite Hcnt, Hdet, L1 in *. cbn in A1, M1, V1, Tm1, Sp1, In1, N1, D1.
  rewrite N1, D1, L2 in *. cbn in A2, M2, V2, Tm2, Sp2, In2, N2, D2.
  rewrite N2, D2 in *.
  rewrite orb_false_r in In1, In2.
  subst two three. cbn [run]. rewrite E1, E2. cbn [fst snd].
  rewrite E3. cbn [fst snd].
  autorewrite with detection.
  rewrite A1, A2, A3, M1, M2, M3, V1, V2, V3.
  split; [repeat split; assumption|].
  split; intros L3; rewrite L3 in *; cbn in *.
  - rewrite orb_false_r in In3.
    repeat split; try assumption; congruence.
  - rewrite So2, So1, Cb2, Cb1, Ck2, Ck1, Tm2, Tm1, In2, In1, Sp2, Sp1 in *.
    rewrite ?app_nil_r. repeat split; try assumption.
    now destruct (socketOpen (browser e)).
Qed.

Lemma C4_vad_confirm_frames_witness :
  ltb 0.01 (Vad.rms Vad.voiced_frame) = true /\
  ltb 0.01 (Vad.rms Vad.click_frame) = false /\
  (let quiet := run [AudioProcess Vad.voiced_frame; AudioProcess Vad.voiced_frame;
                     AudioProcess Vad.click_frame] Vad.watched_engine in
   vadFrameCount (fst quiet) = 0 /\ activities (snd quiet) = 0 /\
   Vad.messages (snd quiet) = 0 /\ Vad.notified (snd quiet) = []) /\
  (let loud := run [AudioProcess Vad.voiced_frame; AudioProcess Vad.voiced_frame;
                    AudioProcess Vad.voiced_frame] Vad.watched_engine in
   activities (snd loud) = 1 /\ Vad.messages (snd loud) = 1 /\
   Vad.notified (snd loud) = [5] /\
   vadDetected (captureState (fst loud)) = true /\
   timers (browser (fst loud)) = [1000%N]).
Proof.
  assert (Hctx : audioContext Vad.watched_engine <> None) by discriminate.
  destruct (C4_vad_confirm_frames Vad.watched_engine Vad.voiced_frame Vad.voiced_frame
              Vad.click_frame
              Hctx eq_refl eq_refl eq_refl eq_refl eq_refl eq_refl eq_refl)
    as (_ & Hq & _).
  destruct (C4_vad_confirm_frames Vad.watched_engine Vad.voiced_frame Vad.voiced_frame
              Vad.voiced_frame
              Hctx eq_refl eq_refl eq_refl eq_refl eq_refl eq_refl eq_refl)
    as (_ & _ & Hl).
  destruct (Hq eq_refl) as (Q0 & Q1 & Q2 & Q3 & _).
  destruct (Hl eq_refl) as (L0 & L1 & L2 & L3 & _ & L5 & _).
  repeat apply conj; try reflexivity; assumption.
Defined.

(** C5, the claim as written fails: with every frame above the threshold
    the detector announces voice activity at the third frame and, the
    one-second reset timer having fired, again at the twelfth; no frame
    below the threshold comes in between. *)
Lemma C5_fires_again_without_quiet_frame :
  loud listening_engine loud_frame = true /\
  activities (snd (run (burst 3) listening_engine)) = 1 /\
  activities (snd (run (burst 3 ++ burst 8) listening_engine)) = 1 /\
  activities (snd (run (burst 3 ++ burst 8 ++ [Timeout] ++ burst 1) listening_engine)) = 2.
Proof. repeat apply conj; vm_compute; reflexivity. Qed.

(** C5 (amended): the detector is held off by time.  Once an event has
    announced voice activity, no further announcement is made, whatever
    frames and calls follow, until the reset timer set at the detection
    fires (one second later). *)
Theorem C5_vad_refractory :
  forall (ev : event) (e : Engine) (evs : list event),
    0 < activities (Js.trace_of (handler ev e)) ->
    existsb is_timeout evs = false ->
    activities (snd (run evs (Js.state_of (handler ev e)))) = 0.
Proof.
  intros ev e evs Hpos Hno.
  apply refractory_run; [|exact Hno].
  exact (activity_sets_detected ev e Hpos).
Qed.

Lemma C5_vad_refractory_witness :
  activities
    (snd (run (burst 8)
            (Js.state_of (handler (AudioProcess loud_frame)
                            (fst (run (burst 2) listening_engine)))))) = 0.
Proof.
  apply (C5_vad_refractory (AudioProcess loud_frame)
           (fst (run (burst 2) listening_engine)) (burst 8)).
  - vm_compute. apply Nat.lt_0_1.
  - reflexivity.
Defined.

End Claims.

End DuplexFacts.

(** ** The page: recognition and synthesis *)

Module AppFacts.

Import App.

Ltac unfold_app :=
  unfold handler, fire, processUserMessage_resumed, processUserMessage,
    onresult, onerror, onend, onstart, utterance_onend, utterance_onerror,
    resume_wake, toggleListening, speakText, startListening, stopListening,
    recognition_start, recognition_stop, on_detector, setTimeout,
    session_over, finish, get_state, upd_state.

Ltac unfold_wake :=
  unfold Wake.start, Wake.stop, Wake.recognition_start, Wake.recognition_stop.

Ltac page_fields p :=
  destruct p as [[li sp ra co rec syn [ve al]] wd us fl tm ck].

(** The engines too, down to their phases. *)
Ltac engine_cases rec wd :=
  destruct rec as [[[] []]|];
  destruct wd as [[[] [[[] []]|] ? ? ?]|].

Section Methods.

Local Open Scope string_scope.

Lemma run_app (evs1 evs2 : list event) : forall p : Page,
  run (evs1 ++ evs2) p =
  (fst (run evs2 (fst (run evs1 p))),
   (snd (run evs1 p) ++ snd (run evs2 (fst (run evs1 p))))%list).
Proof.
  induction evs1 as [|ev evs1 IH]; intros p.
  - cbn. now destruct (run evs2 p).
  - cbn [app run]. destruct (turn ev p) as [p1 t1]. rewrite IH.
    destruct (run evs1 p1) as [p2 t2]. cbn.
    destruct (run evs2 p2) as [p3 t3]. cbn. now rewrite app_assoc.
Qed.

Lemma starts_app (t1 t2 : list effect) : starts (t1 ++ t2) = starts t1 + starts t2.
Proof. unfold starts. now rewrite filter_app, length_app. Qed.

(** [stop()] and [start()] of the wake-word detector never throw. *)
Lemma wake_stop_normal (d : Wake.Detector) :
  Js.wp Wake.stop (fun r _ _ => r = Js.Normal tt) d.
Proof.
  destruct d as [active rec words cb s]. unfold_wake. wp_go. all: wp_done.
Qed.

Lemma wake_start_normal (d : Wake.Detector) :
  Js.wp Wake.start (fun r _ _ => exists b, r = Js.Normal b) d.
Proof.
  destruct d as [active rec words cb s]. unfold_wake. wp_go.
  all: eexists; reflexivity.
Qed.

(** [stopListening()] never throws and leaves the three flags down. *)
Lemma stopListening_spec (p : Page) :
  Js.wp stopListening
    (fun r p' t =>
       r = Js.Normal tt /\
       isListening (state p') = false /\
       isRecognitionActive (state p') = false /\
       continuousListening (state p') = false /\
       isSpeaking (state p') = isSpeaking (state p) /\
       starts t = 0) p.
Proof.
  page_fields p. unfold_app. wp_go. all: wp_done.
Qed.

(** While [isSpeaking] is set, [onend] schedules nothing and starts
    nothing. *)
Lemma onend_quiet_while_speaking (p : Page) :
  isSpeaking (state p) = true ->
  Js.wp onend
    (fun r p' t =>
       r = Js.Normal tt /\ timers p' = timers p /\
       recognition (state p') = recognition (state p) /\ starts t = 0) p.
Proof.
  page_fields p. cbn. intros ->. unfold_app. wp_go. all: wp_done.
Qed.

(** [speakText] sets [isSpeaking], leaves the wake-word detector inactive,
    and stops the recognition engine when [isListening] says it runs; the
    calls of the synthesizer come last. *)
Lemma speakText_mutes (text : string) (p : Page) :
  synthesis (state p) <> None ->
  Js.wp (speakText text)
    (fun r p' t =>
       r = Js.Normal tt /\
       isSpeaking (state p') = true /\
       playing p' = true /\
       match wakeWordDetector p' with
       | Some d => Wake.isActive d = false
       | None => True
       end /\
       (isListening (state p) = true -> hearing p' = false) /\
       firstn 2 (rev t) = [SynthSpeak (utterances p) text; SynthCancel]) p.
Proof.
  page_fields p. cbn. intros Hsyn.
  destruct syn as [[q en]|]; [clear Hsyn|congruence].
  engine_cases rec wd.
  all: unfold_app; unfold_wake; wp_go.
  all: wp_done.
Qed.

End Methods.

Section Cycle.
Local Open Scope string_scope.

Lemma listening_reached (continuous : bool) :
  fst (run [Click continuous; RecognitionStarted] (loaded false))
  = listening_at 0 continuous.
Proof. destruct continuous; reflexivity. Qed.

Lemma turn_fire (k : nat) (p : Page) (due : N) (t : timer) :
  nth_error (timers p) k = Some (due, t) ->
  (due <= clock p)%N ->
  turn (Fire k) p = fired t (set_timers (remove_nth k (timers p)) p).
Proof.
  intros Hk Hdue. apply N.leb_le in Hdue.
  unfold turn, fired, handler, Js.bind, Js.gets, Js.when, Js.modify.
  rewrite Hk, Hdue.
  destruct (fire t _) as [[[a|e] p'] tr]; reflexivity.
Qed.

Lemma cycle_run (c : N) (continuous : bool) :
  exists t,
    run no_speech_cycle (listening_at c continuous)
      = (listening_at (c + 100 + 200) continuous, t) /\
    starts t = 1 /\ existsb is_failure t = false.
Proof.
  destruct continuous.
  - eexists. cbn.
    rewrite (turn_fire 1 _ (c + 100) EndRestart) by (cbn; first [reflexivity | lia]).
    cbn.
    rewrite (turn_fire 0 _ (c + 300) NoSpeechRestartContinuous)
      by (cbn; first [reflexivity | lia]).
    cbn. repeat apply conj; reflexivity.
  - eexists. cbn.
    rewrite (turn_fire 1 _ (c + 100) EndRestart) by (cbn; first [reflexivity | lia]).
    cbn.
    rewrite (turn_fire 0 _ (c + 300) NoSpeechRestartSingle)
      by (cbn; first [reflexivity | lia]).
    cbn. repeat apply conj; reflexivity.
Qed.

Lemma cycles_run (n : nat) : forall (c : N) (continuous : bool),
  starts (snd (run (cycles n) (listening_at c continuous))) = n /\
  existsb is_failure (snd (run (cycles n) (listening_at c continuous))) = false /\
  fst (run (cycles n) (listening_at c continuous))
    = listening_at (c + 300 * N.of_nat n) continuous.
Proof.
  induction n as [|n IH]; intros c continuous.
  - cbn. repeat apply conj; try reflexivity. f_equal. lia.
  - change (cycles (S n)) with (no_speech_cycle ++ cycles n)%list.
    rewrite run_app.
    destruct (cycle_run c continuous) as (t & E & Hs & Hf). rewrite E.
    cbn [fst snd].
    destruct (IH (c + 100 + 200)%N continuous) as (IHs & IHf & IHp).
    rewrite starts_app, existsb_app, Hs, Hf, IHs, IHf, IHp.
    repeat apply conj; try reflexivity. f_equal. lia.
Qed.

End Cycle.

Section Claims.

Local Open Scope string_scope.

(** C1, the code breaks the claim.  After [feedback_run] the page is
    speaking its second reply ([isSpeaking] set, utterance 1 in the
    synthesizer, no end of that speech and no interruption so far) and the
    recognition engine is running again: the timer that the end of the
    first reply had set called [startListening], which does not look at
    [isSpeaking].  The recognition result that comes next is taken: the
    page stops listening and schedules [processUserMessage] on its own
    words. *)
Theorem C1_recognition_restarts_during_speech :
  forall strict : bool,
    let before := fst (run feedback_run (loaded strict)) in
    let heard := RecognitionResult [("a long answer", true)] in
    isSpeaking (state before) = true /\
    playing before = true /\
    hearing before = true /\
    snd (turn heard before)
      = [Heard "" "a long answer";
         Console Js.LogL "Final transcript: a long answer";
         Status "Ready" Success; RecognitionStop (Js.Normal tt)] /\
    map snd (timers (fst (turn heard before)))
      = [HideTranscription; ProcessFinal "a long answer"] /\
    hears_itself (feedback_run ++ [heard]) (loaded strict) = true.
Proof.
  intros [|]; repeat apply conj; vm_compute; reflexivity.
Qed.

(** C6, the claim as written fails: seven transient failures in 2.1 s.
    Each of them is followed by a restart of the engine, the seventh as
    well; no failure is ever reported and the page goes on listening. *)
Lemma C6_no_rate_limit :
  let r := run (cycles 7) (listening_at 0 false) in
  starts (snd r) = 7 /\
  clock (fst r) = 2100%N /\
  existsb is_failure (snd r) = false /\
  isListening (state (fst r)) = true /\
  hearing (fst r) = true.
Proof. cbv zeta. repeat apply conj; vm_compute; reflexivity. Qed.

(** C6 (amended): the error handler keeps no count of restarts and knows
    no rate limit.  After a [no-speech] failure of a listening page the
    engine is restarted, however many failures came before: [n] failures
    in a row, 300 ms apart, give [n] restarts, no failure report, and a
    page that still listens.  Any other error that is not [aborted] stops
    listening at once: nothing is restarted and the error is reported. *)
Theorem C6_restarts_unbounded :
  (forall (n : nat) (now : N) (continuous : bool),
     let r := run (cycles n) (listening_at now continuous) in
     starts (snd r) = n /\
     existsb is_failure (snd r) = false /\
     clock (fst r) = (now + 300 * N.of_nat n)%N /\
     isListening (state (fst r)) = true /\
     hearing (fst r) = true) /\
  (forall (error : string) (p : Page),
     error <> "aborted" -> error <> "no-speech" ->
     let r := onerror error p in
     Js.result_of r = Js.Normal tt /\
     isListening (state (Js.state_of r)) = false /\
     starts (Js.trace_of r) = 0 /\
     existsb is_failure (Js.trace_of r) = true /\
     timers (Js.state_of r)
       = (timers p ++ [((clock p + 3000)%N, HideTranscription)])%list).
Proof.
  split.
  - intros n now continuous r. subst r.
    destruct (cycles_run n now continuous) as (Hs & Hf & Hp).
    rewrite Hs, Hf, Hp. repeat apply conj; reflexivity.
  - intros error p Ha Hn.
    change (Js.wp (onerror error)
              (fun r p' t =>
                 r = Js.Normal tt /\ isListening (state p') = false /\
                 starts t = 0 /\ existsb is_failure t = true /\
                 timers p'
                 = (timers p ++ [((clock p + 3000)%N, HideTranscription)])%list) p).
    page_fields p. destruct rec as [[[] []]|].
    all: unfold_app; wp_go.
    all: try (apply String.eqb_eq in Heqb; contradiction).
    all: try (apply String.eqb_eq in Heqb0; contradiction).
    all: repeat apply conj; reflexivity.
Qed.

Lemma C6_restarts_unbounded_witness :
  isListening (state (Js.state_of (onerror "network" (listening_at 0 false)))) = false /\
  starts (Js.trace_of (onerror "network" (listening_at 0 false))) = 0 /\
  existsb is_failure (Js.trace_of (onerror "network" (listening_at 0 false))) = true.
Proof.
  destruct C6_restarts_unbounded as [_ H].
  destruct (H "network" (listening_at 0 false)) as (_ & Hl & Hs & Hf & _);
    [discriminate | discriminate |].
  repeat apply conj; assumption.
Defined.

(** C9, the claim as written fails.  [start()] on an active detector does
    not throw and changes nothing, but it answers [false] with a warning,
    the answer of its failure paths (a detector that was never
    initialized), where a start that succeeds answers [true].  And
    [stopListening()] on a session that is not running (the engine idle,
    [isListening] down) is no no-op: it takes [continuousListening] down,
    sets the status line, calls [recognition.stop()] and sets a timer. *)
Lemma C9_start_reports_failure_stop_has_effects :
  Wake.isActive Wake.active_detector = true /\
  Js.result_of (Wake.start Wake.active_detector) = Js.Normal false /\
  Js.result_of (Wake.start Wake.constructor) = Js.Normal false /\
  Js.result_of (Wake.start Wake.idle_detector) = Js.Normal true /\
  isListening (state idle_after_command) = false /\
  in_session idle_after_command = false /\
  continuousListening (state idle_after_command) = true /\
  continuousListening (state (Js.state_of (stopListening idle_after_command))) = false /\
  Js.trace_of (stopListening idle_after_command)
    = [Status "Ready" Success; RecognitionStop (Js.Normal tt)] /\
  timers idle_after_command = [] /\
  timers (Js.state_of (stopListening idle_after_command))
    = [(3200%N, HideTranscription)].
Proof. repeat apply conj; vm_compute; reflexivity. Qed.

(** C9 (amended): stopping what does not run and starting what runs never
    throw.  [stop()] of the wake-word detector, when it is not active,
    does nothing at all; its [start()], when it is active, changes
    nothing, warns and answers [false].  Neither throws in any state.
    [stopListening()] never throws either, engines that raise on a
    needless [stop()] included, and leaves [isListening],
    [isRecognitionActive] and [continuousListening] down. *)
Theorem C9_stop_and_start_never_throw :
  (forall d : Wake.Detector,
     Wake.isActive d = false -> Wake.stop d = (Js.Normal tt, d, [])) /\
  (forall d : Wake.Detector,
     Wake.isActive d = true -> Wake.recognition d <> None ->
     Wake.start d
       = (Js.Normal false, d,
          [Wake.Console Js.WarnL "Wake word detection already active"])) /\
  (forall d : Wake.Detector,
     Js.result_of (Wake.stop d) = Js.Normal tt /\
     exists b, Js.result_of (Wake.start d) = Js.Normal b) /\
  (forall p : Page,
     Js.result_of (stopListening p) = Js.Normal tt /\
     isListening (state (Js.state_of (stopListening p))) = false /\
     isRecognitionActive (state (Js.state_of (stopListening p))) = false /\
     continuousListening (state (Js.state_of (stopListening p))) = false).
Proof.
  repeat apply conj.
  - intros [active rec words cb s]. cbn. intros ->. reflexivity.
  - intros [active [r|] words cb s]; cbn; intros -> Hr; [reflexivity|congruence].
  - intros d. split; [apply wake_stop_normal | apply wake_start_normal].
  - intros p. destruct (stopListening_spec p) as (H1 & H2 & H3 & H4 & _).
    repeat apply conj; assumption.
Qed.

Lemma C9_stop_and_start_never_throw_witness :
  Wake.stop Wake.idle_detector = (Js.Normal tt, Wake.idle_detector, []) /\
  Wake.start Wake.active_detector
    = (Js.Normal false, Wake.active_detector,
       [Wake.Console Js.WarnL "Wake word detection already active"]).
Proof.
  destruct C9_stop_and_start_never_throw as (Hstop & Hstart & _).
  split.
  - apply (Hstop Wake.idle_detector). reflexivity.
  - apply (Hstart Wake.active_detector); [reflexivity | discriminate].
Defined.

End Claims.

End AppFacts.

(* ===================================================================== *)
(** ** The audio engine over a run of events *)
(* ===================================================================== *)

Module DuplexRunFacts.

Import Duplex DuplexWatch DuplexFacts.

Section Streams.
Local Open Scope string_scope.

Lemma streams_nil : streams [] = 0.
Proof. reflexivity. Qed.

Lemma streams_cons x t :
  streams (x :: t) = (if is_stream x then 1 else 0) + streams t.
Proof. unfold streams. cbn. destruct (is_stream x); reflexivity. Qed.

Lemma streams_app t1 t2 : streams (t1 ++ t2) = streams t1 + streams t2.
Proof. unfold streams. now rewrite filter_app, length_app. Qed.

Lemma streams_interrupt_callbacks cbs reason :
  streams (map (fun cb => InterruptCallback cb reason) cbs) = 0.
Proof. induction cbs; [reflexivity|]. cbn [map]. now rewrite streams_cons. Qed.

Lemma streams_vad_callbacks cbs :
  streams (map (fun cb => VADCallback cb) cbs) = 0.
Proof. induction cbs; [reflexivity|]. cbn [map]. now rewrite streams_cons. Qed.

End Streams.

Create Rewrite HintDb watch.
#[local] Hint Rewrite streams_nil streams_cons streams_app
  streams_interrupt_callbacks streams_vad_callbacks
  activities_nil activities_cons activities_app
  activities_interrupt_callbacks activities_vad_callbacks : watch.

Section Deaf.
Local Open Scope string_scope.

Lemma deaf (ev : event) (e : Engine) :
  is_listen_call ev = false -> isListening e = false ->
  Js.wp (handler ev)
    (fun _ e' t => isListening e' = false /\ activities t = 0 /\ streams t = 0) e.
Proof.
  intros Hev Hl. destruct ev; try discriminate Hev.
  all: revert Hl; engine_fields e; cbn; intros ->; unfold_engine; wp_go.
  all: autorewrite with watch; wp_done.
Qed.

Lemma deaf_run (evs : list event) : forall e : Engine,
  existsb is_listen_call evs = false -> isListening e = false ->
  isListening (fst (run evs e)) = false /\
  activities (snd (run evs e)) = 0 /\ streams (snd (run evs e)) = 0.
Proof.
  induction evs as [|ev evs IH]; intros e Hno Hl; [now repeat split|].
  cbn [existsb] in Hno. apply orb_false_iff in Hno as [Hev Hno].
  apply (wp_handler_run ev evs e
           (fun e2 t => isListening e2 = false /\ activities t = 0 /\ streams t = 0)).
  eapply wp_mono; [apply deaf; assumption|].
  cbn. intros _ e1 t1 (Hl1 & Ha1 & Hs1) e2 t2 E.
  specialize (IH e1 Hno Hl1). rewrite E in IH. cbn in IH.
  rewrite activities_app, streams_app. intuition lia.
Qed.

End Deaf.

Section Throttle.
Local Open Scope string_scope.

Lemma next_send_clock (e : Engine) : (clock (browser e) <= next_send e)%N.
Proof.
  unfold next_send. destruct (_lastSendTime e) as [t|]; [|lia].
  destruct (t =? 0)%N; lia.
Qed.

Lemma calls_keep_time (ev : event) (e : Engine) :
  (forall f, ev <> AudioProcess f) -> (forall ms, ev <> Tick ms) ->
  Js.wp (handler ev)
    (fun _ e' t =>
       streams t = 0 /\ _lastSendTime e' = _lastSendTime e /\
       clock (browser e') = clock (browser e)) e.
Proof.
  intros Hf Ht. destruct ev; try (now exfalso; eapply Hf); try (now exfalso; eapply Ht).
  all: engine_fields e; unfold_engine; wp_go.
  all: autorewrite with watch; wp_done.
Qed.

Lemma frame_keeps_time (f : list float) (e : Engine) :
  Js.wp (handler (AudioProcess f))
    (fun _ e' t =>
       clock (browser e') = clock (browser e) /\
       (streams t = 0 /\ _lastSendTime e' = _lastSendTime e \/
        streams t <= 1 /\ _lastSendTime e' = Some (clock (browser e)) /\
        sendable e = true)) e.
Proof.
  engine_fields e; unfold sendable; cbn; unfold_engine; wp_go.
  all: autorewrite with watch; use_branches; cbn.
  all: split; [reflexivity|].
  all: first [left; split; reflexivity | right; repeat apply conj; auto].
Qed.

Lemma throttle_step (ev : event) (e : Engine) :
  (0 < clock (browser e))%N ->
  Js.wp (handler ev)
    (fun _ e' t =>
       (clock (browser e) <= clock (browser e'))%N /\
       (streams t = 0 /\ (next_send e <= next_send e')%N \/
        streams t = 1 /\ (next_send e <= clock (browser e'))%N /\
        (clock (browser e') + 101 <= next_send e')%N)) e.
Proof.
  intros Hpos.
  destruct ev as [media| | |text onEnd| |reason|cb|cb|f|u|u|u| |ms|open].
  9: { eapply wp_mono; [apply frame_keeps_time|]. cbn.
       intros _ e' t [Hc [[Hs Hl]|(Hs & Hl & Hd)]]; unfold next_send, sendable in *;
         rewrite Hl, Hc; clear Hl.
       - split; [lia|]. left. split; [exact Hs|lia].
       - split; [lia|].
         destruct (N.eqb_spec (clock (browser e)) 0) as [E|E]; [lia|].
         assert (Hn : (match _lastSendTime e with
                       | Some t0 => if (t0 =? 0)%N then clock (browser e)
                                    else N.max (t0 + 101) (clock (browser e))
                       | None => clock (browser e)
                       end <= clock (browser e))%N).
         { destruct (_lastSendTime e) as [t0|]; [|lia].
           destruct (N.eqb_spec t0 0); [lia|]. cbn in Hd.
           apply N.ltb_lt in Hd. lia. }
         assert (Hs' : streams t = 0 \/ streams t = 1) by lia.
         destruct Hs' as [Hs'|Hs']; [left|right]; (split; [exact Hs'|]); lia. }
  13: { unfold handler, upd_browser. apply wp_modify. cbn.
        unfold next_send. cbn. split; [lia|]. left. split; [reflexivity|].
        destruct (_lastSendTime e) as [t0|]; [|lia].
        destruct (t0 =? 0)%N; lia. }
  all: (eapply wp_mono; [apply calls_keep_time; discriminate|]); cbn;
    intros _ e' t (Hs & Hl & Hc); unfold next_send; rewrite Hl, Hc;
    (split; [lia|]); left; (split; [exact Hs|lia]).
Qed.

Lemma throttle_run (evs : list event) : forall e : Engine,
  (0 < clock (browser e))%N ->
  (clock (browser e) <= clock (browser (fst (run evs e))))%N /\
  (1 <= streams (snd (run evs e)) ->
   (next_send e + 101 * N.of_nat (streams (snd (run evs e)))
    <= clock (browser (fst (run evs e))) + 101)%N).
Proof.
  induction evs as [|ev evs IH]; intros e Hpos.
  { cbn [run fst snd]. split; [lia|]. rewrite streams_nil. lia. }
  apply (wp_handler_run ev evs e
    (fun e2 t => (clock (browser e) <= clock (browser e2))%N /\
       (1 <= streams t ->
        (next_send e + 101 * N.of_nat (streams t) <= clock (browser e2) + 101)%N))).
  eapply wp_mono; [apply throttle_step; exact Hpos|].
  cbv beta. intros _ e1 t1 [Hc1 Hstep] e2 t2 E.
  assert (Hpos1 : (0 < clock (browser e1))%N) by lia.
  specialize (IH e1 Hpos1). rewrite E in IH. cbn [fst snd] in IH.
  destruct IH as [Hc2 Hrest].
  split; [lia|]. rewrite streams_app. intros Hone.
  pose proof (next_send_clock e1) as Hn1.
  destruct Hstep as [[Hs Hn]|(Hs & Hn & Hm)]; rewrite Hs in *.
  - specialize (Hrest Hone). lia.
  - destruct (streams t2) as [|n] eqn:E2; [lia|].
    assert (H1 : 1 <= S n) by lia. specialize (Hrest H1). lia.
Qed.

End Throttle.

Section Counter.
Local Open Scope string_scope.

Lemma counter_step (ev : event) (e : Engine) :
  vadFrameCount e < vadConsecutiveFrames e ->
  Js.wp (handler ev)
    (fun _ e' _ =>
       vadConsecutiveFrames e' = vadConsecutiveFrames e /\
       vadThreshold e' = vadThreshold e /\
       vadFrameCount e' < vadConsecutiveFrames e') e.
Proof.
  intros Hlt. destruct ev.
  9: { apply wp_frame; [now repeat split|intros _].
       eapply wp_mono; [apply onaudioprocess_spec|].
       cbn. intros _ e' t (_ & _ & _ & _ & Ht & Hk & Hn & _).
       rewrite Hk, Hn. repeat split; [exact Ht|].
       unfold confirms, loud. destruct (isListening e); [|exact Hlt].
       destruct (ltb (vadThreshold e) (_calculateRMS inputData)); cbn [andb negb]; [|lia].
       destruct (Nat.leb_spec (vadConsecutiveFrames e) (S (vadFrameCount e)));
         cbn [negb]; lia. }
  all: revert Hlt; engine_fields e; cbn; intros Hlt; unfold_engine; wp_go.
  all: wp_done.
Qed.

Lemma counter_run (evs : list event) : forall e : Engine,
  vadFrameCount e < vadConsecutiveFrames e ->
  vadConsecutiveFrames (fst (run evs e)) = vadConsecutiveFrames e /\
  vadThreshold (fst (run evs e)) = vadThreshold e /\
  vadFrameCount (fst (run evs e)) < vadConsecutiveFrames e.
Proof.
  induction evs as [|ev evs IH]; intros e Hlt; [now repeat split|].
  apply (wp_handler_run ev evs e
    (fun e2 _ => vadConsecutiveFrames e2 = vadConsecutiveFrames e /\
                 vadThreshold e2 = vadThreshold e /\
                 vadFrameCount e2 < vadConsecutiveFrames e)).
  eapply wp_mono; [apply counter_step; exact Hlt|].
  cbn. intros _ e1 t1 (Hk & Ht & Hc) e2 t2 E.
  specialize (IH e1 Hc). rewrite E in IH. cbn in IH.
  rewrite Hk, Ht in IH. exact IH.
Qed.

End Counter.

Section Stale.
Local Open Scope string_scope.

(** A frame cancels the speech only through [interrupt], which
    [_onVoiceActivityDetected] calls only while [isSpeaking] is set. *)
Lemma frame_spares_speech (f : list float) (e : Engine) :
  isSpeaking e = false ->
  Js.wp (handler (AudioProcess f))
    (fun _ e' t =>
       ~ In SynthCancel t /\
       synthesis (browser e') = synthesis (browser e) /\
       isSpeaking e' = false) e.
Proof.
  engine_fields e; cbn; intros ->; unfold_engine; wp_go.
  all: use_branches; cbn; repeat apply conj; try reflexivity.
  all: rewrite ?in_app_iff; cbn [In]; rewrite ?in_map_iff; unfold activity.
  all: intuition (try congruence).
  all: repeat match goal with H : exists _, _ |- _ => destruct H as [? [? ?]] end;
    try congruence.
Qed.

Lemma startSpeaking_replaces (text : string) (cb : option Js.callback) (e : Engine) :
  text <> "" ->
  Js.wp (startSpeaking text cb)
    (fun _ e' _ =>
       isSpeaking e' = true /\
       currentUtterance (playbackState e') = Some (List.length (closures (browser e))) /\
       Synthesis.queue (synthesis (browser e')) = [List.length (closures (browser e))] /\
       Synthesis.ending (synthesis (browser e'))
         = (Synthesis.ending (synthesis (browser e))
            ++ Synthesis.queue (synthesis (browser e)))%list) e.
Proof.
  intros Ht. apply String.eqb_neq in Ht.
  unfold startSpeaking. rewrite Ht.
  engine_fields e. destruct q; unfold_engine; wp_go.
  all: use_branches; cbn; repeat apply conj; try reflexivity.
  all: now rewrite app_nil_r.
Qed.

Lemma late_event_clears (u v : nat) (e : Engine) :
  u <> v ->
  Synthesis.queue (synthesis (browser e)) = [v] ->
  In u (Synthesis.ending (synthesis (browser e))) ->
  forall ev, ev = UtteranceEnd u \/ ev = UtteranceError u ->
  Js.wp (handler ev)
    (fun _ e' _ =>
       isSpeaking e' = false /\
       Synthesis.queue (synthesis (browser e')) = [v]) e.
Proof.
  intros Huv Hq Hin ev Hev.
  assert (Hex : existsb (Nat.eqb u) (Synthesis.ending (synthesis (browser e))) = true).
  { apply existsb_exists. exists u. split; [exact Hin | apply Nat.eqb_refl]. }
  apply Nat.eqb_neq in Huv. clear Hin.
  revert Hq Hex. engine_fields e. cbn. intros -> Hex.
  destruct Hev as [-> | ->]; unfold_engine; unfold finishes;
    apply wp_bind, wp_gets; cbn; rewrite Huv, Hex; cbn; wp_go.
  all: use_branches; cbn; rewrite ?Huv; repeat apply conj; reflexivity.
Qed.

End Stale.

Section Main.

Local Open Scope string_scope.

(** X1: the throttle of [_sendAudioToBackend] over a whole run.  From
    any state of the engine at a time when [Date.now()] is positive,
    whatever is called and whatever the browser delivers, consecutive
    [audio_stream] messages are more than 100 ms apart: [n] of them need
    at least [101 * (n - 1)] ms of elapsed time. *)
Theorem X1_audio_stream_throttled :
  forall (evs : list event) (e : Engine),
    (0 < clock (browser e))%N ->
    (N.of_nat (streams (snd (run evs e))) * 101
     <= clock (browser (fst (run evs e))) - clock (browser e) + 101)%N.
Proof.
  intros evs e Hpos.
  destruct (throttle_run evs e Hpos) as [Hc Hn].
  pose proof (next_send_clock e) as Hs.
  destruct (streams (snd (run evs e))) as [|n] eqn:E; [lia|].
  assert (H1 : 1 <= S n) by lia. specialize (Hn H1). lia.
Qed.

Lemma X1_audio_stream_throttled_witness :
  (N.of_nat (streams (snd (run (burst 3) awake_engine))) * 101
   <= clock (browser (fst (run (burst 3) awake_engine)))
      - clock (browser awake_engine) + 101)%N.
Proof.
  apply (X1_audio_stream_throttled (burst 3) awake_engine).
  reflexivity.
Defined.

(** X2: while [isListening] is false nothing is captured.  Until
    [startListening()] or [interrupt()] is called, no frame announces
    voice activity and no frame is sent to the backend, whatever else
    happens; the engine stays in that state. *)
Theorem X2_nothing_captured_while_not_listening :
  forall (evs : list event) (e : Engine),
    isListening e = false ->
    existsb is_listen_call evs = false ->
    isListening (fst (run evs e)) = false /\
    activities (snd (run evs e)) = 0 /\
    streams (snd (run evs e)) = 0.
Proof.
  intros evs e Hl Hno. now apply deaf_run.
Qed.

Lemma X2_nothing_captured_while_not_listening_witness :
  let evs := [Initialize (Some Running); AudioProcess loud_frame; Tick 128;
              AudioProcess loud_frame; StartSpeaking "hello" None;
              AudioProcess loud_frame; Timeout] in
  isListening (fst (run evs (constructor true))) = false /\
  activities (snd (run evs (constructor true))) = 0 /\
  streams (snd (run evs (constructor true))) = 0.
Proof.
  cbv zeta.
  apply (X2_nothing_captured_while_not_listening
           [Initialize (Some Running); AudioProcess loud_frame; Tick 128;
            AudioProcess loud_frame; StartSpeaking "hello" None;
            AudioProcess loud_frame; Timeout] (constructor true));
    reflexivity.
Defined.

(** X3: the frame counter at rest.  [vadFrameCount] is below
    [vadConsecutiveFrames] after every event once it was below it: the
    handler that brings the counter up to the confirmation count puts it
    back to zero before it returns; and no method changes
    [vadConsecutiveFrames]. *)
Theorem X3_frame_counter_stays_below_confirmation :
  forall (evs : list event) (e : Engine),
    vadFrameCount e < vadConsecutiveFrames e ->
    vadFrameCount (fst (run evs e)) < vadConsecutiveFrames (fst (run evs e)) /\
    vadConsecutiveFrames (fst (run evs e)) = vadConsecutiveFrames e.
Proof.
  intros evs e Hlt. destruct (counter_run evs e Hlt) as (Hk & _ & Hc).
  rewrite Hk. now split.
Qed.

Lemma X3_frame_counter_stays_below_confirmation_witness :
  vadFrameCount (fst (run (burst 5) listening_engine)) < 3 /\
  vadConsecutiveFrames (fst (run (burst 5) listening_engine)) = 3.
Proof.
  apply (X3_frame_counter_stays_below_confirmation (burst 5) listening_engine).
  vm_compute. repeat constructor.
Defined.

(** X4: the late event of a replaced utterance.  When [startSpeaking]
    replaces an utterance that is in the synthesizer, the end (or error)
    event of the replaced utterance, which the browser delivers
    afterwards, runs a handler that does not know which utterance it
    belongs to: it takes [isSpeaking] down although the new utterance is
    in the synthesizer, and a frame with voice activity then cancels
    nothing. *)
Theorem X4_late_event_of_replaced_utterance :
  forall (text : string) (cb : option Js.callback) (old : nat) (late : event)
         (f : list float) (e : Engine),
    text <> "" ->
    Synthesis.queue (synthesis (browser e)) = [old] ->
    old < List.length (closures (browser e)) ->
    late = UtteranceEnd old \/ late = UtteranceError old ->
    let e1 := Js.state_of (startSpeaking text cb e) in
    let e2 := Js.state_of (handler late e1) in
    isSpeaking e1 = true /\
    Synthesis.queue (synthesis (browser e1)) = [List.length (closures (browser e))] /\
    isSpeaking e2 = false /\
    Synthesis.queue (synthesis (browser e2)) = [List.length (closures (browser e))] /\
    ~ In SynthCancel (Js.trace_of (handler (AudioProcess f) e2)).
Proof.
  intros text cb old late f e Ht Hq Hold Hlate e1 e2.
  destruct (startSpeaking_replaces text cb e Ht) as (Hs1 & _ & Hq1 & Hen1).
  fold e1 in Hs1, Hq1, Hen1.
  assert (Hne : old <> List.length (closures (browser e))) by lia.
  assert (Hin : In old (Synthesis.ending (synthesis (browser e1)))).
  { rewrite Hen1, Hq. apply in_or_app. right. now left. }
  destruct (late_event_clears old _ e1 Hne Hq1 Hin late Hlate) as [Hs2 Hq2].
  fold e2 in Hs2, Hq2.
  destruct (frame_spares_speech f e2 Hs2) as (Hc & _).
  repeat split; assumption.
Qed.

Lemma X4_late_event_of_replaced_utterance_witness :
  let e1 := Js.state_of (startSpeaking "And tomorrow it rains" None speaking_engine) in
  let e2 := Js.state_of (handler (UtteranceEnd 0) e1) in
  isSpeaking e1 = true /\
  Synthesis.queue (synthesis (browser e1)) = [1] /\
  isSpeaking e2 = false /\
  Synthesis.queue (synthesis (browser e2)) = [1] /\
  ~ In SynthCancel (Js.trace_of (handler (AudioProcess loud_frame) e2)).
Proof.
  apply (X4_late_event_of_replaced_utterance "And tomorrow it rains" None 0
           (UtteranceEnd 0) loud_frame speaking_engine).
  - discriminate.
  - reflexivity.
  - vm_compute. repeat constructor.
  - left. reflexivity.
Defined.

End Main.

End DuplexRunFacts.

(* ===================================================================== *)
(** ** The audio engine's [destroy()] *)
(* ===================================================================== *)

Module DuplexLifeFacts.
Import Duplex DuplexLife DuplexFacts.

Section Destroy.
Local Open Scope string_scope.

Lemma destroy_releases (d : Device) :
  let r := destroy d in
  Js.result_of r = Js.Normal tt /\
  isListening (engine (Js.state_of r)) = false /\
  isSpeaking (engine (Js.state_of r)) = false /\
  audioContext (engine (Js.state_of r)) = None /\
  Synthesis.speaking (synthesis (browser (engine (Js.state_of r)))) = false /\
  processor (Js.state_of r) = false /\
  microphone (Js.state_of r) = false /\
  stream (Js.state_of r) = false.
Proof.
  destruct d as [e pr mi st]. engine_fields e.
  destruct q, pr, mi, st, ctx; cbn; repeat split.
Qed.

Lemma destroy_twice (d : Device) :
  let d1 := Js.state_of (destroy d) in
  destroy d1 =
  (Js.Normal tt, d1,
   [Of (Console Js.LogL "Listening stopped"); Of (Console Js.LogL "Speaking STOPPED");
    Of (Console Js.LogL "Audio engine destroyed")]).
Proof.
  destruct d as [e pr mi st]. engine_fields e.
  destruct q, pr, mi, st, ctx; reflexivity.
Qed.

End Destroy.

Section Life.
Local Open Scope string_scope.

(** X5: [destroy()] releases every handle once and leaves a dead engine.
    Of the calls that release something, the first [destroy()] makes
    exactly those whose handle is set, in the order of the source; after
    it nothing listens or speaks and every handle is null.  A second
    [destroy()] releases nothing and changes nothing, and
    [startListening()] on the destroyed engine returns false and leaves
    it not listening. *)
Theorem X5_destroy_releases_once :
  forall d : Device,
    let r := destroy d in
    let d1 := Js.state_of r in
    Js.result_of r = Js.Normal tt /\
    filter releases (Js.trace_of r)
      = ((if Synthesis.speaking (synthesis (browser (engine d)))
          then [Of SynthCancel] else [])
         ++ (if processor d then [ProcessorDisconnect] else [])
         ++ (if microphone d then [MicrophoneDisconnect] else [])
         ++ (if stream d then [TracksStop] else [])
         ++ (match audioContext (engine d) with
             | Some _ => [AudioClose] | None => [] end))%list /\
    (isListening (engine d1) = false /\ isSpeaking (engine d1) = false /\
     audioContext (engine d1) = None /\
     processor d1 = false /\ microphone d1 = false /\ stream d1 = false) /\
    (Js.state_of (destroy d1) = d1 /\
     filter releases (Js.trace_of (destroy d1)) = []) /\
    (Js.result_of (lift startListening d1) = Js.Normal false /\
     isListening (engine (Js.state_of (lift startListening d1))) = false).
Proof.
  intros d r d1.
  destruct (destroy_releases d)
    as (Hr & Hl & Hs & Hc & Hq & Hp & Hm & Hst).
  fold r in Hr. fold r d1 in Hl, Hs, Hc, Hq, Hp, Hm, Hst.
  split; [exact Hr|]. split.
  { subst r. destruct d as [e pr mi st]. engine_fields e.
    destruct q, pr, mi, st, ctx; reflexivity. }
  split; [now repeat split|]. split.
  { pose proof (destroy_twice d) as H2. cbv zeta in H2.
    subst d1 r. rewrite H2. split; reflexivity. }
  destruct d1 as [e1 pr1 mi1 st1]. cbn [engine] in *.
  unfold lift, Js.zoom, startListening, Js.bind, Js.gets.
  cbn [engine]. rewrite Hc. cbn. now split.
Qed.

End Life.

End DuplexLifeFacts.

(* ===================================================================== *)
(** ** The wake-word detector: results, restarts and sensitivity *)
(* ===================================================================== *)

Module WakeResultFacts.
Import Wake WakeWatch.
Section Callback.
Local Open Scope string_scope.

Lemma onresult_invokes (results : list string) : forall d : Detector,
  Js.wp (onresult results)
    (fun r d' t =>
       r = Js.Normal tt /\
       wakeWords d' = wakeWords d /\
       onWakeWordCallback d' = onWakeWordCallback d /\
       invoked t =
         match onWakeWordCallback d with
         | Some _ => filter (matches (wakeWords d)) (map normalized results)
         | None => []
         end) d.
Proof.
  induction results as [|r rest IH]; intros d.
  { unfold Js.wp. cbn. destruct (onWakeWordCallback d); auto. }
  cbn [onresult map filter]. fold (normalized r).
  apply wp_bind.
  unfold Js.wp at 1. rewrite isWakeWord_run. cbn [Js.result_of Js.state_of Js.trace_of fst snd].
  fold (matches (wakeWords d) (normalized r)).
  destruct (matches (wakeWords d) (normalized r)) eqn:Hm.
  - apply wp_bind. cbn [Js.when app].
    destruct d as [act rec ws [cb|] s]; cbn [onWakeWordCallback wakeWords] in *.
    all: destruct act, rec as [[[] []]|]; unfold Js.wp at 1; cbn;
      (eapply wp_mono; [apply IH|]); cbn;
      intros r0 d' t (-> & Hw & Hc & Hi); fold (invoked t); rewrite Hi;
      repeat split; assumption.
  - apply wp_bind. cbn [Js.when app]. apply wp_ret. cbn [app].
    eapply wp_mono; [apply IH|]. cbn. intros r0 d' t (-> & Hw & Hc & Hi).
    rewrite Hi. repeat split; assumption.
Qed.

End Callback.

Section Results.
Local Open Scope string_scope.

(** X7: for transcripts in ASCII, the wake-word callback is called once
    for every result of the event whose transcript matches, in the order
    of the results, with the lower-cased and trimmed transcript; the first
    match does not end the loop.  Without a callback nothing is called. *)
Theorem X7_callback_once_per_matching_result :
  forall (results : list string) (d : Detector),
    forallb Text.is_ascii results = true ->
    Js.result_of (onresult results d) = Js.Normal tt /\
    invoked (Js.trace_of (onresult results d))
      = match onWakeWordCallback d with
        | Some _ => filter (matches (wakeWords d)) (map normalized results)
        | None => []
        end.
Proof.
  intros results d _.
  pose proof (onresult_invokes results d) as H. unfold Js.wp in H.
  destruct H as (Hr & _ & _ & Hi). now split.
Qed.

Lemma X7_callback_once_per_matching_result_witness :
  let d := set_onWakeWordCallback (Some 3) active_detector in
  let results := ["  Hey Smartii "; "what a day"; "COMPUTER, lights on"] in
  Js.result_of (onresult results d) = Js.Normal tt /\
  invoked (Js.trace_of (onresult results d)) = ["hey smartii"; "computer, lights on"].
Proof.
  exact (X7_callback_once_per_matching_result
           ["  Hey Smartii "; "what a day"; "COMPUTER, lights on"]
           (set_onWakeWordCallback (Some 3) active_detector) eq_refl).
Defined.

End Results.

End WakeResultFacts.

Module FloatFacts.
Import SpecFloat FloatOps FloatAxioms.

Section Order.

Lemma SFcompare_antisym (x y : spec_float) :
  SFcompare y x = option_map CompOpp (SFcompare x y).
Proof.
  destruct x as [sx|sx| |sx mx ex], y as [sy|sy| |sy my ey]; cbn;
    try reflexivity; try (destruct sx; reflexivity); try (destruct sy; reflexivity);
    try (destruct sx, sy; reflexivity).
  destruct sx, sy; try reflexivity.
  - rewrite (Z.compare_antisym ex ey).
    destruct (ex ?= ey)%Z; cbn; try reflexivity.
    rewrite (Pos.compare_cont_antisym mx my Eq). cbn.
    now destruct (Pos.compare_cont Eq my mx).
  - rewrite (Z.compare_antisym ex ey).
    destruct (ex ?= ey)%Z; cbn; try reflexivity.
    rewrite (Pos.compare_cont_antisym mx my Eq). cbn.
    now destruct (Pos.compare_cont Eq my mx).
Qed.

Lemma is_nan_compare (x : float) :
  is_nan x = false -> forall y, is_nan y = false ->
  SFcompare (Prim2SF x) (Prim2SF y) <> None.
Proof.
  unfold is_nan. rewrite !FloatAxioms.eqb_spec. unfold SFeqb.
  intros Hx y. rewrite FloatAxioms.eqb_spec. intros Hy.
  destruct (Prim2SF x) as [sx|sx| |sx mx ex], (Prim2SF y) as [sy|sy| |sy my ey];
    cbn in *; try discriminate Hx; try discriminate Hy;
    try (destruct sx; discriminate); try (destruct sy; discriminate); discriminate.
Qed.

Lemma ltb_leb (x y : float) : ltb x y = true -> leb x y = true.
Proof.
  rewrite ltb_spec, leb_spec. unfold SFltb, SFleb.
  now destruct (SFcompare (Prim2SF x) (Prim2SF y)) as [[]|].
Qed.

Lemma not_ltb_leb (x y : float) :
  is_nan x = false -> is_nan y = false -> ltb x y = false -> leb y x = true.
Proof.
  intros Hx Hy. pose proof (is_nan_compare x Hx y Hy) as Hc.
  rewrite ltb_spec, leb_spec. unfold SFltb, SFleb.
  rewrite (SFcompare_antisym (Prim2SF x) (Prim2SF y)).
  destruct (SFcompare (Prim2SF x) (Prim2SF y)) as [[]|]; cbn; congruence.
Qed.

Lemma ltb_not_leb (x y : float) : ltb x y = true -> leb y x = false.
Proof.
  rewrite ltb_spec, leb_spec. unfold SFltb, SFleb.
  rewrite (SFcompare_antisym (Prim2SF x) (Prim2SF y)).
  now destruct (SFcompare (Prim2SF x) (Prim2SF y)) as [[]|].
Qed.

Lemma not_ltb_eqb (x y : float) :
  is_nan x = false -> is_nan y = false ->
  ltb x y = false -> ltb y x = false -> PrimFloat.eqb x y = true.
Proof.
  intros Hx Hy. pose proof (is_nan_compare x Hx y Hy) as Hc.
  rewrite !ltb_spec, FloatAxioms.eqb_spec. unfold SFltb, SFeqb.
  rewrite (SFcompare_antisym (Prim2SF x) (Prim2SF y)).
  destruct (SFcompare (Prim2SF x) (Prim2SF y)) as [[]|]; cbn; congruence.
Qed.

Lemma eqb_refl (x : float) : is_nan x = false -> PrimFloat.eqb x x = true.
Proof. unfold is_nan. now destruct (PrimFloat.eqb x x). Qed.

End Order.

Section Clamp.

Lemma clamp_nan (v : float) :
  is_nan v = true -> is_nan (Math.max 0 (Math.min 1 v)) = true.
Proof.
  intros H. unfold Math.min. rewrite H, orb_true_r.
  reflexivity.
Qed.

Lemma clamp_bounds (v : float) :
  is_nan v = false ->
  leb 0 (Math.max 0 (Math.min 1 v)) = true /\
  leb (Math.max 0 (Math.min 1 v)) 1 = true /\
  (leb 0 v = true -> leb v 1 = true ->
   PrimFloat.eqb (Math.max 0 (Math.min 1 v)) v = true).
Proof.
  intros Hv.
  assert (H1 : is_nan 1 = false) by reflexivity.
  assert (H0 : is_nan 0 = false) by reflexivity.
  assert (Hm : Math.min 1 v = 1%float /\ ltb 1 v = true
               \/ Math.min 1 v = v /\ ltb 1 v = false).
  { unfold Math.min. rewrite Hv, H1. cbn [orb].
    destruct (ltb 1 v); [left; now split|right].
    split; [|reflexivity]. destruct (ltb v 1); reflexivity. }
  destruct Hm as [[-> L1]|[-> L1]].
  - repeat split; try reflexivity.
    intros _ Hle. apply ltb_not_leb in L1. congruence.
  - pose proof (not_ltb_leb 1 v H1 Hv L1) as Hle1.
    unfold Math.max. rewrite Hv, H0. cbn [orb].
    destruct (ltb 0 v) eqn:L0.
    + repeat split; [now apply ltb_leb | exact Hle1 | intros _ _; now apply eqb_refl].
    + destruct (ltb v 0) eqn:L2.
      * repeat split; try reflexivity.
        intros Hle0 _. apply ltb_not_leb in L2. congruence.
      * change (get_sign 0) with false. cbn iota.
        repeat split; try reflexivity.
        intros _ _. now apply not_ltb_eqb.
Qed.

End Clamp.


End FloatFacts.

Module WakeLoopFacts.
Import Wake WakeLoop.

Ltac unfold_loop :=
  unfold handler, fire, onstart, onend, onerror, try_start, session_over,
    setSensitivity, lift, Wake.fire, Wake.start, Wake.stop, Wake.addWakeWord,
    Wake.onWakeWord, Wake.recognition_start, Wake.recognition_stop.

Section Asleep.
Local Open Scope string_scope.

Lemma asleep (ev : event) (d : Detector) :
  is_start ev = false -> isActive d = false -> hearing d = false ->
  Js.wp (handler ev)
    (fun _ d' t =>
       isActive d' = false /\ hearing d' = false /\
       woken t = [] /\ scheduled t = []) d.
Proof.
  intros Hev Ha Hh. destruct ev; try discriminate Hev.
  6: { unfold handler. apply wp_bind, wp_gets. rewrite Hh. cbn.
       apply wp_ret. now repeat split. }
  all: revert Ha Hh; destruct d as [act [[ph strict]|] ws cb0 sens]; cbn;
    intros -> Hh; try (destruct ph; try discriminate Hh); unfold_loop; wp_go.
  all: wp_done.
Qed.

Lemma asleep_run (evs : list event) : forall d : Detector,
  existsb is_start evs = false -> isActive d = false -> hearing d = false ->
  isActive (fst (run evs d)) = false /\ hearing (fst (run evs d)) = false /\
  woken (snd (run evs d)) = [] /\ scheduled (snd (run evs d)) = [].
Proof.
  induction evs as [|ev evs IH]; intros d Hno Ha Hh; [now repeat split|].
  cbn [existsb] in Hno. apply orb_false_iff in Hno as [Hev Hno].
  cbn [run].
  pose proof (asleep ev d Hev Ha Hh) as H. unfold Js.wp in H.
  destruct (handler ev d) as [[r d1] t1]. cbn in H.
  destruct H as (Ha1 & Hh1 & Hw1 & Hs1).
  specialize (IH d1 Hno Ha1 Hh1). destruct (run evs d1) as [d2 t2].
  cbn in *. destruct IH as (Ha2 & Hh2 & Hw2 & Hs2).
  unfold woken, scheduled in *. rewrite !flat_map_app, Hw1, Hw2, Hs1, Hs2.
  now repeat split.
Qed.

Lemma error_keeps_state (error : string) (d : Detector) :
  Js.wp (handler (Error error)) (fun _ d' _ => d' = d) d.
Proof.
  destruct d as [act [[ph strict]|] ws cb sens]; unfold_loop; wp_go.
  all: reflexivity.
Qed.

Lemma restart_after_end (error : string) (d : Detector) :
  isActive d = true -> in_session d = true ->
  let r := run [Error error; Ended; Fire AfterEnd] d in
  isActive (fst r) = true /\ hearing (fst r) = true /\
  In (500%N, AfterEnd) (scheduled (snd r)).
Proof.
  intros Ha Hs. cbn [run].
  pose proof (error_keeps_state error d) as H. unfold Js.wp in H.
  destruct (handler (Error error) d) as [[r1 d1] t1]. cbn in H. subst d1.
  revert Ha Hs. destruct d as [act [[ph strict]|] ws cb sens]; cbn -[scheduled In];
    intros -> Hs; try discriminate Hs.
  destruct ph; try discriminate Hs; cbn -[scheduled In];
    unfold scheduled; rewrite flat_map_app, in_app_iff; cbn; auto.
Qed.

End Asleep.

Section Loop.
Local Open Scope string_scope.
Import WakeWatch.

Lemma onresult_asleep (results : list string) : forall d : Detector,
  isActive d = false -> hearing d = false ->
  Js.wp (Wake.onresult results)
    (fun _ d' t => isActive d' = false /\ hearing d' = false) d.
Proof.
  induction results as [|r rest IH]; intros d Ha Hh.
  { unfold Js.wp. cbn. now split. }
  cbn [Wake.onresult].
  apply wp_bind.
  unfold Js.wp at 1. rewrite isWakeWord_run.
  cbn [Js.result_of Js.state_of Js.trace_of fst snd].
  match goal with |- context [Js.when ?b _] => destruct b end.
  - apply wp_bind. cbn [Js.when app].
    revert Ha Hh. destruct d as [act rec ws [cb|] s]; cbn [isActive];
      intros -> Hh; unfold Js.wp at 1; cbn;
      (eapply wp_mono; [apply IH; [reflexivity | exact Hh]|]); cbn;
      intros r0 d' t H; exact H.
  - apply wp_bind. cbn [Js.when app]. apply wp_ret. cbn [app].
    eapply wp_mono; [apply IH; assumption|]. cbn. intros r0 d' t H; exact H.
Qed.

Lemma onresult_stops (results : list string) : forall d : Detector,
  isActive d = true -> hearing d = true ->
  Js.wp (Wake.onresult results)
    (fun _ d' t =>
       if existsb (matches (wakeWords d)) (map normalized results)
       then isActive d' = false /\ hearing d' = false /\
            In (1000%N, AfterWake) (scheduled (map Of t))
       else d' = d) d.
Proof.
  induction results as [|r rest IH]; intros d Ha Hh.
  { unfold Js.wp. cbn. reflexivity. }
  cbn [Wake.onresult map existsb]. fold (normalized r).
  apply wp_bind.
  unfold Js.wp at 1. rewrite isWakeWord_run.
  cbn [Js.result_of Js.state_of Js.trace_of fst snd].
  fold (matches (wakeWords d) (normalized r)).
  destruct (matches (wakeWords d) (normalized r)) eqn:Hm.
  - apply wp_bind. cbn [Js.when app orb].
    revert Ha Hh. destruct d as [act [[ph strict]|] ws cb s];
      cbn [isActive]; intros -> Hh; try discriminate Hh.
    destruct ph; try discriminate Hh.
    destruct cb as [cb|]; unfold Js.wp at 1; cbn -[scheduled In];
      (eapply wp_mono; [apply onresult_asleep; reflexivity|]);
      cbn -[scheduled In]; intros r0 d' t (Ha' & Hh');
      (split; [exact Ha'|split; [exact Hh'|]]);
      unfold scheduled; cbn; auto.
  - apply wp_bind. cbn [Js.when app orb]. apply wp_ret. cbn [app].
    eapply wp_mono; [apply IH; assumption|]. cbn. intros r0 d' t H; exact H.
Qed.

Lemma onresult_inactive (results : list string) : forall d : Detector,
  isActive d = false -> Js.state_of (Wake.onresult results d) = d.
Proof.
  induction results as [|r rest IH]; intros d Ha; [reflexivity|].
  cbn [Wake.onresult]. unfold Js.bind at 1. rewrite isWakeWord_run.
  match goal with |- context [Js.when ?b _] => destruct b end.
  - destruct d as [act rec ws [cb|] s]; cbn [isActive] in Ha; subst act; cbn;
      match goal with
      | |- context [Wake.onresult rest ?D] =>
          specialize (IH D eq_refl); destruct (Wake.onresult rest D) as [[? ?] ?]
      end; exact IH.
  - cbn. specialize (IH d Ha). destruct (Wake.onresult rest d) as [[? ?] ?]. exact IH.
Qed.

(** X6: a detection ends the detector's listening for good.  When a
    result event brings a transcript that matches, the handler calls
    [stop()] and schedules a restart after 1000 ms; the restart reads
    [isActive], which [stop()] has just cleared, so it starts nothing.
    As long as nobody calls [start()] and the engine delivers no further
    result, whatever else happens (the timers, the engine's end and
    errors) the detector stays inactive, its engine is not started, the
    callback is not called again and nothing more is scheduled.  A result
    that the engine still delivers after [stop()] goes through [onresult]
    like any other and may call the callback again, but it leaves the
    detector as it is: stopped. *)
Theorem X6_detection_stops_the_detector :
  forall (results late : list string) (evs : list event) (d : Detector),
    isActive d = true -> hearing d = true ->
    existsb (matches (wakeWords d)) (map normalized results) = true ->
    existsb is_start evs = false ->
    existsb is_result evs = false ->
    let after := run [Result results] d in
    let final := run (Result results :: evs) d in
    In (1000%N, AfterWake) (scheduled (snd after)) /\
    isActive (fst after) = false /\
    Js.state_of (Wake.onresult late (fst after)) = fst after /\
    isActive (fst final) = false /\ hearing (fst final) = false /\
    woken (snd final) = woken (snd after) /\
    scheduled (snd final) = scheduled (snd after).
Proof.
  intros results late evs d Ha Hh Hm Hno _. cbv zeta.
  pose proof (onresult_stops results d Ha Hh) as H. rewrite Hm in H.
  unfold Js.wp in H.
  assert (E : handler (Result results) d
              = (Js.result_of (Wake.onresult results d),
                 Js.state_of (Wake.onresult results d),
                 map Of (Js.trace_of (Wake.onresult results d)))).
  { unfold handler, Js.bind, Js.gets. rewrite Hh.
    cbn [Js.when Js.result_of Js.state_of Js.trace_of fst snd app].
    unfold lift, Js.zoom.
    destruct (Wake.onresult results d) as [[r1 d1] t1]. reflexivity. }
  cbn [run]. rewrite E. clear E.
  destruct (Wake.onresult results d) as [[r1 d1] t1].
  cbn [Js.result_of Js.state_of Js.trace_of fst snd] in *.
  destruct H as (Ha1 & Hh1 & Hs1).
  destruct (asleep_run evs d1 Hno Ha1 Hh1) as (Ha2 & Hh2 & Hw2 & Hs2).
  destruct (run evs d1) as [d2 t2]. cbn [fst snd] in *.
  rewrite !app_nil_r.
  unfold woken, scheduled in *. rewrite !flat_map_app, Hw2, Hs2, !app_nil_r.
  repeat split; try assumption. now apply onresult_inactive.
Qed.

Lemma X6_detection_stops_the_detector_witness :
  let results := ["what a day"; "Hey  Smartii, lights on"] in
  let evs := [Fire AfterWake; Ended; Fire AfterEnd; Error "network";
              Fire AfterError; Stop] in
  let after := run [Result results] active_detector in
  let final := run (Result results :: evs) active_detector in
  In (1000%N, AfterWake) (scheduled (snd after)) /\
  isActive (fst after) = false /\
  Js.state_of (Wake.onresult ["computer"] (fst after)) = fst after /\
  isActive (fst final) = false /\ hearing (fst final) = false /\
  woken (snd final) = woken (snd after) /\
  scheduled (snd final) = scheduled (snd after).
Proof.
  cbv zeta.
  apply (X6_detection_stops_the_detector
           ["what a day"; "Hey  Smartii, lights on"] ["computer"]
           [Fire AfterWake; Ended; Fire AfterEnd; Error "network";
            Fire AfterError; Stop] active_detector);
    reflexivity.
Defined.

(** X8: a stopped detector stays stopped.  While the detector is
    inactive and its engine delivers no results, no event but a call of
    [start()] changes that: the wake-word callback is never called and no
    restart is scheduled, whatever the engine reports and whichever timer
    fires. *)
Theorem X8_stopped_detector_stays_stopped :
  forall (evs : list event) (d : Detector),
    isActive d = false -> hearing d = false ->
    existsb is_start evs = false ->
    isActive (fst (run evs d)) = false /\ hearing (fst (run evs d)) = false /\
    woken (snd (run evs d)) = [] /\ scheduled (snd (run evs d)) = [].
Proof.
  intros evs d Ha Hh Hno. now apply asleep_run.
Qed.

Lemma X8_stopped_detector_stays_stopped_witness :
  let evs := [OnWakeWord 0; Result ["hey smartii"]; Ended; Fire AfterEnd;
              Error "network"; Fire AfterError; Fire AfterWake; Stop] in
  isActive (fst (run evs idle_detector)) = false /\
  hearing (fst (run evs idle_detector)) = false /\
  woken (snd (run evs idle_detector)) = [] /\
  scheduled (snd (run evs idle_detector)) = [].
Proof.
  cbv zeta.
  apply (X8_stopped_detector_stays_stopped
           [OnWakeWord 0; Result ["hey smartii"]; Ended; Fire AfterEnd;
            Error "network"; Fire AfterError; Fire AfterWake; Stop]
           idle_detector);
    reflexivity.
Defined.

(** X9: an active detector restarts its engine after every end of a
    session, whatever error came before it.  [onerror] schedules no
    restart for [not-allowed], but it leaves [isActive] set, and the
    [end] event that follows the error schedules the restart after 500 ms;
    when that timer fires the engine is started again. *)
Theorem X9_engine_restarts_after_any_error :
  forall (error : string) (d : Detector),
    isActive d = true -> in_session d = true ->
    let r := run [Error error; Ended; Fire AfterEnd] d in
    isActive (fst r) = true /\ hearing (fst r) = true /\
    In (500%N, AfterEnd) (scheduled (snd r)).
Proof.
  intros error d Ha Hs. now apply restart_after_end.
Qed.

Lemma X9_engine_restarts_after_any_error_witness :
  isActive (fst (run [Error "not-allowed"; Ended; Fire AfterEnd] active_detector)) = true /\
  hearing (fst (run [Error "not-allowed"; Ended; Fire AfterEnd] active_detector)) = true /\
  In (500%N, AfterEnd)
     (scheduled (snd (run [Error "not-allowed"; Ended; Fire AfterEnd] active_detector))).
Proof.
  apply (X9_engine_restarts_after_any_error "not-allowed" active_detector);
    reflexivity.
Defined.

(** X10: [setSensitivity] keeps the sensitivity within [0, 1].  For
    every number that is not NaN the stored value lies between 0 and 1,
    and it is the argument when that lies in the range; NaN is stored as
    NaN.  No other field changes. *)
Theorem X10_setSensitivity_clamps :
  forall (value : float) (d : Detector),
    let d' := Js.state_of (setSensitivity value d) in
    (if is_nan value then is_nan (sensitivity d') = true
     else PrimFloat.leb 0 (sensitivity d') = true /\
          PrimFloat.leb (sensitivity d') 1 = true /\
          (PrimFloat.leb 0 value = true -> PrimFloat.leb value 1 = true ->
           PrimFloat.eqb (sensitivity d') value = true)) /\
    isActive d' = isActive d /\ recognition d' = recognition d /\
    wakeWords d' = wakeWords d /\ onWakeWordCallback d' = onWakeWordCallback d.
Proof.
  intros value d d'. subst d'. cbn [setSensitivity].
  unfold setSensitivity, Js.bind, Js.modify, Js.emit.
  cbn [Js.state_of Js.result_of fst snd set_sensitivity sensitivity isActive
       recognition wakeWords onWakeWordCallback].
  split; [|now repeat split].
  destruct (is_nan value) eqn:Hn.
  - now apply FloatFacts.clamp_nan.
  - now apply FloatFacts.clamp_bounds.
Qed.

End Loop.

End WakeLoopFacts.

(* ===================================================================== *)
(** ** script.js: messages and stop commands *)
(* ===================================================================== *)

Module AppMessageFacts.
Import App AppWatch AppFacts.
Section Texts.
Local Open Scope string_scope.

Lemma trimEnd_blank (s : string) : blank s = true -> Str.trimEnd s = "".
Proof.
  induction s as [|c s IH]; [reflexivity|]. cbn.
  intros H. apply andb_true_iff in H as [Hc Hs]. now rewrite (IH Hs), Hc.
Qed.

Lemma trimStart_blank (s : string) : blank (Str.trimStart s) = blank s.
Proof.
  induction s as [|c s IH]; [reflexivity|]. cbn.
  destruct (Str.isWhiteSpace c) eqn:E; cbn; [exact IH | now rewrite E].
Qed.

Lemma trimEnd_empty (s : string) : Str.trimEnd s = "" -> blank s = true.
Proof.
  induction s as [|c s IH]; [reflexivity|]. cbn.
  destruct (Str.trimEnd s) eqn:E; [|discriminate].
  destruct (Str.isWhiteSpace c); [|discriminate]. intros _. now apply IH.
Qed.

Lemma trim_blank (s : string) : Str.trim s = "" <-> blank s = true.
Proof.
  unfold Str.trim. split; intros H.
  - apply trimEnd_empty in H. now rewrite trimStart_blank in H.
  - apply trimEnd_blank. now rewrite trimStart_blank.
Qed.





Lemma processUserMessage_blank (text : string) (p : Page) :
  blank text = true -> processUserMessage text p = (Js.Normal tt, p, []).
Proof.
  intros H. apply trim_blank in H. unfold processUserMessage. now rewrite H.
Qed.

Lemma processUserMessage_spec (text : string) (p : Page) :
  blank text = false ->
  Js.wp (processUserMessage text)
    (fun r p' t =>
       r = Js.Normal tt /\
       said User t = [text] /\
       if is_sleep_command text then
         requests t = [] /\ said Assistant t = [stopped_listening] /\
         inFlight p' = inFlight p /\
         alwaysListening (settings (state p')) = false /\
         isListening (state p') = false /\
         isRecognitionActive (state p') = false /\
         continuousListening (state p') = false
       else
         requests t = [text] /\ said Assistant t = [] /\
         inFlight p' = S (inFlight p) /\
         settings (state p') = settings (state p)) p.
Proof.
  intros Hb.
  assert (Ht : String.eqb (Str.trim text) "" = false).
  { apply String.eqb_neq. intros E. apply trim_blank in E. congruence. }
  unfold processUserMessage. rewrite Ht.
  fold (is_sleep_command text).
  page_fields p. destruct (is_sleep_command text).
  all: unfold_app; unfold_wake; wp_go.
  all: wp_done.
Qed.

Lemma restart_inert (t : timer) (p : Page) :
  is_restart t = true -> isListening (state p) = false ->
  fire t p = (Js.Normal tt, p, []).
Proof.
  page_fields p. cbn. intros Ht ->.
  destruct t; try discriminate Ht; destruct co; reflexivity.
Qed.

End Texts.

Section Messages.
Local Open Scope string_scope.



Lemma flags_after_stop (p : Page) (t : timer) :
  is_restart t = true ->
  fire t (Js.state_of (stopListening p))
  = (Js.Normal tt, Js.state_of (stopListening p), []).
Proof.
  intros Ht. apply restart_inert; [exact Ht|].
  pose proof (stopListening_spec p) as H. unfold Js.wp in H. apply H.
Qed.

(** X11: what [processUserMessage] does with a text in ASCII, up to its
    [await].  A text of white space only is ignored: nothing is shown,
    sent or changed.  Every other text is shown in the chat once, as the
    user's; then either it is a stop command, which is answered on the
    spot and never sent to the backend, or it is sent to the backend, once
    and unchanged, and no answer is shown before the reply comes.  The
    call never throws. *)
Theorem X11_processUserMessage_routes :
  forall (text : string) (p : Page),
    Text.is_ascii text = true ->
    let r := processUserMessage text p in
    Js.result_of r = Js.Normal tt /\
    if blank text then Js.state_of r = p /\ Js.trace_of r = []
    else
      said User (Js.trace_of r) = [text] /\
      if is_sleep_command text then
        requests (Js.trace_of r) = [] /\
        said Assistant (Js.trace_of r) = [stopped_listening] /\
        inFlight (Js.state_of r) = inFlight p
      else
        requests (Js.trace_of r) = [text] /\
        said Assistant (Js.trace_of r) = [] /\
        inFlight (Js.state_of r) = S (inFlight p) /\
        settings (state (Js.state_of r)) = settings (state p).
Proof.
  intros text p _ r. subst r. destruct (blank text) eqn:Hb.
  - rewrite (processUserMessage_blank text p Hb). now repeat split.
  - pose proof (processUserMessage_spec text p Hb) as H. unfold Js.wp in H.
    destruct H as (Hr & Hu & H). split; [exact Hr|]. split; [exact Hu|].
    destruct (is_sleep_command text).
    + destruct H as (H1 & H2 & H3 & _). now repeat split.
    + exact H.
Qed.

Lemma X11_processUserMessage_routes_witness :
  let ignored := processUserMessage "   " (listening_at 5 true) in
  let sent := processUserMessage "What time is it?" (listening_at 5 true) in
  (Js.state_of ignored = listening_at 5 true /\ Js.trace_of ignored = []) /\
  said User (Js.trace_of sent) = ["What time is it?"] /\
  requests (Js.trace_of sent) = ["What time is it?"] /\
  said Assistant (Js.trace_of sent) = [] /\
  inFlight (Js.state_of sent) = 1.
Proof.
  cbv zeta.
  destruct (X11_processUserMessage_routes "   " (listening_at 5 true) eq_refl)
    as (_ & Hi).
  destruct (X11_processUserMessage_routes "What time is it?" (listening_at 5 true)
              eq_refl) as (_ & Hu & Hq & Ha & Hf & _).
  repeat apply conj; try assumption; apply Hi.
Defined.



(** X13: [stopListening()] disarms the pending restarts.  After it, in
    every state and for every recognition engine, a restart that [onend]
    or the [no-speech] branch of [onerror] had scheduled runs without
    starting the engine: it changes nothing and has no effect. *)
Theorem X13_stopListening_disarms_restarts :
  forall (p : Page) (t : timer),
    is_restart t = true ->
    let p1 := Js.state_of (stopListening p) in
    Js.result_of (stopListening p) = Js.Normal tt /\
    isListening (state p1) = false /\
    fire t p1 = (Js.Normal tt, p1, []).
Proof.
  intros p t Ht p1. subst p1.
  pose proof (stopListening_spec p) as H. unfold Js.wp in H.
  destruct H as (Hr & Hl & _).
  repeat split; try assumption. now apply flags_after_stop.
Qed.

Lemma X13_stopListening_disarms_restarts_witness :
  Js.result_of (stopListening (listening_at 5 true)) = Js.Normal tt /\
  isListening (state (Js.state_of (stopListening (listening_at 5 true)))) = false /\
  fire EndRestart (Js.state_of (stopListening (listening_at 5 true)))
  = (Js.Normal tt, Js.state_of (stopListening (listening_at 5 true)), []).
Proof.
  apply (X13_stopListening_disarms_restarts (listening_at 5 true) EndRestart).
  reflexivity.
Defined.

End Messages.

End AppMessageFacts.

(* ===================================================================== *)
(** ** script.js: preferences, chat and backend replies *)
(* ===================================================================== *)

Module UiFacts.
Import Ui.

Ltac unfold_ui :=
  unfold handler, processUserMessage,
    handleMemoryAction, fetchMemoryData_resumed, fetchMemoryData,
    sendMessageToBackend_resumed, sendMessageToBackend,
    init_preferences, recognition_language, loadSettings, load_flag,
    themeOption_click, autoDetect_change, language_change, animations_change,
    alwaysListening_change, speechRate_input, voiceType_change,
    loadTheme, toggleTheme, clearChat,
    getClientId, setItem, getItem, upd_body, upd_settings.

Section StorageFacts.
Local Open Scope string_scope.

Lemma getItem_setItem (k v : string) (s : Storage.t) :
  Storage.getItem k (Storage.setItem k v s) = Some v.
Proof.
  induction s as [|[k0 v0] s IH]; cbn.
  - now rewrite String.eqb_refl.
  - destruct (String.eqb k0 k) eqn:E; cbn; rewrite E; [reflexivity | exact IH].
Qed.

Lemma getItem_setItem_other (k k' v : string) (s : Storage.t) :
  k <> k' -> Storage.getItem k' (Storage.setItem k v s) = Storage.getItem k' s.
Proof.
  intros Hk. induction s as [|[k0 v0] s IH]; cbn.
  - apply String.eqb_neq in Hk. now rewrite Hk.
  - destruct (String.eqb k0 k) eqn:E; cbn.
    + apply String.eqb_eq in E. subst k0.
      apply String.eqb_neq in Hk. now rewrite Hk.
    + destruct (String.eqb k0 k'); [reflexivity | exact IH].
Qed.

End StorageFacts.

Section ClientId.
Local Open Scope string_scope.



End ClientId.

Section Chat.
Local Open Scope string_scope.
Variables toLocaleTimeString toLocaleDateString : N -> string.

Abbreviation addMessage := (addMessage toLocaleTimeString toLocaleDateString).

(** A message is rendered in the turn that makes it: no time has passed. *)
Lemma addMessage_run (text : string) (who : App.sender) (p : Page) :
  addMessage text who p =
  (Js.Normal tt,
   let m := {| id := clock p; text := text; sender := who; timestamp := clock p |} in
   set_chatMessages (chatMessages p ++ [rendered m])
     (set_messages (messages p ++ [m]) p),
   []).
Proof.
  unfold Ui.addMessage, createMessageElement, formatTime, Js.bind, Js.gets, Js.modify, Js.ret.
  cbn. rewrite Z.sub_diag. reflexivity.
Qed.

Lemma wp_addMessage (text : string) (who : App.sender)
  (Q : _ -> Page -> list effect -> Prop) (p : Page) :
  Q (Js.Normal tt)
    (set_chatMessages
       (chatMessages p
        ++ [rendered {| id := clock p; text := text; sender := who; timestamp := clock p |}])
       (set_messages
          (messages p
           ++ [{| id := clock p; text := text; sender := who; timestamp := clock p |}]) p))
    [] ->
  Js.wp (addMessage text who) Q p.
Proof. unfold Js.wp. rewrite addMessage_run. exact (fun H => H). Qed.

End Chat.

Ltac wp_ui :=
  lazymatch goal with
  | |- Js.wp _ ?Q _ =>
      let P := fresh "P" in
      let HP := fresh "HP" in
      remember Q as P eqn:HP;
      repeat (first [apply wp_addMessage | wp_step]; cbn -[Ui.addMessage]);
      subst P; cbn
  end.

Ltac ui_fields p :=
  destruct p as [s ms rl st body chat cfg pend ck].

Section ClassFacts.
Local Open Scope string_scope.

Lemma contains_add (c d : string) (l : ClassList.t) :
  ClassList.contains c (ClassList.add d l) = String.eqb c d || ClassList.contains c l.
Proof.
  unfold ClassList.add, ClassList.contains.
  destruct (existsb (String.eqb d) l) eqn:E.
  - destruct (String.eqb_spec c d) as [->|]; [now rewrite E | reflexivity].
  - rewrite existsb_app. cbn. rewrite orb_false_r. apply orb_comm.
Qed.

Lemma contains_remove (c d : string) (l : ClassList.t) :
  ClassList.contains c (ClassList.remove d l)
  = negb (String.eqb c d) && ClassList.contains c l.
Proof.
  unfold ClassList.remove, ClassList.contains.
  induction l as [|x l IH]; cbn; [now rewrite andb_false_r|].
  destruct (String.eqb_spec d x) as [->|Hdx]; cbn.
  - rewrite IH. destruct (String.eqb c x); reflexivity.
  - rewrite IH. destruct (String.eqb_spec c x) as [->|]; cbn; [|reflexivity].
    destruct (String.eqb_spec x d) as [->|]; [contradiction | reflexivity].
Qed.

Lemma contains_toggle_other (c d : string) (force : bool) (l : ClassList.t) :
  c <> d ->
  ClassList.contains c (ClassList.toggle d force l) = ClassList.contains c l.
Proof.
  intros H. apply String.eqb_neq in H. unfold ClassList.toggle.
  destruct force; rewrite ?contains_add, ?contains_remove, H; reflexivity.
Qed.

End ClassFacts.

Section Persistence.
Local Open Scope string_scope.
Variable parseFloat : string -> float.

(** A conditional update of a field is an update by a conditional value. *)
Lemma wp_when_field {A} (set : A -> Settings -> Settings) (get : Settings -> A)
  (c : bool) (x : A) (Q : _ -> Page -> list effect -> Prop) (p : Page) :
  (forall s, set (get s) s = s) ->
  Q (Js.Normal tt)
    (set_settings (set (if c then x else get (settings p)) (settings p)) p) [] ->
  Js.wp (Js.when c (upd_settings (set x))) Q p.
Proof.
  intros Hset. destruct c; [exact (fun H => H)|].
  rewrite Hset. destruct p. exact (fun H => H).
Qed.

Lemma wp_when_body (c : bool) (f g : ClassList.t -> ClassList.t)
  (Q : _ -> Page -> list effect -> Prop) (p : Page) :
  Q (Js.Normal tt)
    (set_bodyClasses (if c then g (f (bodyClasses p)) else bodyClasses p) p) [] ->
  Js.wp (Js.when c (Js.bind (upd_body f) (fun _ => upd_body g))) Q p.
Proof. destruct c, p; exact (fun H => H). Qed.

Lemma wp_load_field {A} (set : A -> Settings -> Settings) (get : Settings -> A)
  (g : bool -> A) (key : string) (after : bool -> ClassList.t -> ClassList.t)
  (Q : _ -> Page -> list effect -> Prop) (p : Page) :
  (forall s, set (get s) s = s) ->
  Q (Js.Normal tt)
    (set_bodyClasses
       match Storage.getItem key (localStorage p) with
       | Some v => after (String.eqb v "true") (bodyClasses p)
       | None => bodyClasses p
       end
       (set_settings
          (set match Storage.getItem key (localStorage p) with
               | Some v => g (String.eqb v "true")
               | None => get (settings p)
               end (settings p)) p)) [] ->
  Js.wp (load_flag key (fun b => set (g b)) (fun b => upd_body (after b))) Q p.
Proof.
  intros Hset. unfold Js.wp, load_flag, getItem, Js.bind, Js.gets.
  destruct (Storage.getItem key (localStorage p)); [destruct p; exact (fun H => H)|].
  rewrite Hset. destruct p. exact (fun H => H).
Qed.

Lemma wp_load_field_plain {A} (set : A -> Settings -> Settings) (get : Settings -> A)
  (g : bool -> A) (key : string)
  (Q : _ -> Page -> list effect -> Prop) (p : Page) :
  (forall s, set (get s) s = s) ->
  Q (Js.Normal tt)
    (set_settings
       (set match Storage.getItem key (localStorage p) with
            | Some v => g (String.eqb v "true")
            | None => get (settings p)
            end (settings p)) p) [] ->
  Js.wp (load_flag key (fun b => set (g b)) (fun _ => Js.ret tt)) Q p.
Proof.
  intros Hset. unfold Js.wp, load_flag, getItem, Js.bind, Js.gets.
  destruct (Storage.getItem key (localStorage p)); [destruct p; exact (fun H => H)|].
  rewrite Hset. destruct p. exact (fun H => H).
Qed.

Lemma settings_ext (s r : Settings) :
  theme s = theme r -> voiceType s = voiceType r -> speechRate s = speechRate r ->
  voiceEnabled s = voiceEnabled r -> alwaysListening s = alwaysListening r ->
  animations s = animations r -> language s = language r ->
  wakeWordEnabled s = wakeWordEnabled r -> vadSensitivity s = vadSensitivity r ->
  autoDetectLanguage s = autoDetectLanguage r -> s = r.
Proof. destruct s, r; cbn; intros; subst; reflexivity. Qed.

Ltac init_chain :=
  unfold init_preferences, loadSettings, loadTheme,
    getItem, upd_settings at 1, fresh;
  apply wp_bind, wp_bind, wp_gets; cbn;
  apply wp_bind, wp_modify; cbn;
  apply wp_when_body; cbn;
  apply wp_bind, wp_bind, wp_gets; cbn;
  apply wp_bind, wp_gets; cbn; apply wp_bind, wp_gets; cbn;
  (apply wp_bind, (wp_when_field set_voiceType voiceType);
     [intros []; reflexivity|]); cbn;
  (apply wp_bind, (wp_when_field set_speechRate speechRate);
     [intros []; reflexivity|]); cbn;
  (apply wp_bind, (wp_when_field set_language language);
     [intros []; reflexivity|]); cbn -[load_flag];
  (apply wp_bind, (wp_load_field_plain set_alwaysListening alwaysListening (fun b => b));
     [intros []; reflexivity|]); cbn -[load_flag];
  (apply wp_bind, (wp_load_field set_animations animations (fun b => b));
     [intros []; reflexivity|]); cbn -[load_flag];
  (apply (wp_load_field_plain set_autoDetectLanguage autoDetectLanguage Some);
     [intros []; reflexivity|]); cbn.

Ltac settings_fields :=
  cbn [theme voiceType speechRate voiceEnabled alwaysListening animations
       language wakeWordEnabled vadSensitivity autoDetectLanguage
       set_autoDetectLanguage set_animations set_alwaysListening
       set_language set_speechRate set_voiceType set_theme initial_settings].

Lemma init_restores (supported : bool) (st : Storage.t) (body : ClassList.t)
  (cfg : Config) (now : N) :
  Js.wp (init_preferences parseFloat supported)
    (fun _ p' _ => settings p' = stored parseFloat st /\ localStorage p' = st)
    (fresh st body cfg now).
Proof.
  init_chain. unfold recognition_language, stored.
  assert (Hf : forall a d : string,
            (if truthy (Some a) then or_else (Some a) "" else d) = or_else (Some a) d).
  { intros a d. cbn. now destruct (String.eqb a ""). }
  destruct supported; repeat (wp_step; cbn); (split; [|reflexivity]).
  all: apply settings_ext; settings_fields; try reflexivity.
  all: try match goal with
           | |- context [Storage.getItem ?k ?s] =>
               destruct (Storage.getItem k s) as [v|]; [apply Hf | reflexivity]
           end.
  all: match goal with
       | |- context [Storage.getItem ?k ?s] => now destruct (Storage.getItem k s)
       end.
Qed.

Lemma init_language (supported : bool) (st : Storage.t) (body : ClassList.t)
  (cfg : Config) (now : N) :
  Js.wp (init_preferences parseFloat supported)
    (fun _ p' _ =>
       recognitionLang p' =
         if supported then Some (or_else (Some (language (settings p'))) "en-US")
         else None)
    (fresh st body cfg now).
Proof.
  init_chain. unfold recognition_language.
  destruct supported; repeat (wp_step; cbn -[or_else]); reflexivity.
Qed.

Lemma init_body (supported : bool) (st : Storage.t) (body : ClassList.t)
  (cfg : Config) (now : N) :
  Js.wp (init_preferences parseFloat supported)
    (fun _ p' _ =>
       ClassList.contains "dark-mode" (bodyClasses p') =
         (if String.eqb (theme (settings p')) "light" then false
          else ClassList.contains "dark-mode" body) /\
       ClassList.contains "light-mode" (bodyClasses p') =
         (if String.eqb (theme (settings p')) "light" then true
          else ClassList.contains "light-mode" body))
    (fresh st body cfg now).
Proof.
  init_chain. unfold recognition_language.
  destruct supported; repeat (wp_step; cbn -[or_else String.eqb]); settings_fields.
  all: destruct (Storage.getItem "smartii-animations" st) as [v|];
    rewrite ?(contains_toggle_other "dark-mode" "no-animations") by discriminate;
    rewrite ?(contains_toggle_other "light-mode" "no-animations") by discriminate.
  all: destruct (String.eqb (or_else (Storage.getItem "smartii-theme" st) "dark") "light");
    rewrite ?contains_add, ?contains_remove; split; reflexivity.
Qed.

Variables toLocaleTimeString toLocaleDateString : N -> string.

Abbreviation handler := (handler toLocaleTimeString toLocaleDateString parseFloat).
Abbreviation run := (run toLocaleTimeString toLocaleDateString parseFloat).

Ltac stored_fields :=
  apply settings_ext; unfold stored, but_alwaysListening;
  cbn [theme voiceType speechRate voiceEnabled alwaysListening animations
       language wakeWordEnabled vadSensitivity autoDetectLanguage
       set_autoDetectLanguage set_animations set_alwaysListening
       set_language set_speechRate set_voiceType set_theme];
  rewrite ?getItem_setItem;
  repeat rewrite getItem_setItem_other by discriminate;
  try reflexivity.

(** A listener stores what it sets: as long as no stop command comes,
    the settings are those that the storage holds. *)
Lemma persist_step (ev : event) (p : Page) :
  well_formed ev = true -> is_stop_command ev = false ->
  settings p = stored parseFloat (localStorage p) ->
  Js.wp (handler ev)
    (fun _ p' _ => settings p' = stored parseFloat (localStorage p')) p.
Proof.
  intros Hw Hs. ui_fields p. cbn [settings localStorage]. intros ->.
  destruct ev; cbn in Hw;
    cbn [is_stop_command] in Hs; unfold AppWatch.is_sleep_command in Hs;
    unfold_ui; wp_ui.
  all: try reflexivity.
  all: try congruence.
  all: stored_fields.
  all: try (destruct checked; reflexivity).
  all: cbn; now destruct (String.eqb _ "").
Qed.

Lemma persist_run (evs : list event) : forall p : Page,
  forallb well_formed evs = true -> existsb is_stop_command evs = false ->
  settings p = stored parseFloat (localStorage p) ->
  settings (fst (run evs p)) = stored parseFloat (localStorage (fst (run evs p))).
Proof.
  induction evs as [|ev evs IH]; intros p Hw Hs Hp; [exact Hp|].
  cbn [forallb] in Hw. apply andb_true_iff in Hw as [Hev Hw].
  cbn [existsb] in Hs. apply orb_false_iff in Hs as [Hsv Hs].
  cbn [Ui.run].
  pose proof (persist_step ev p Hev Hsv Hp) as H. unfold Js.wp in H.
  destruct (handler ev p) as [[r p1] t1]. cbn in H.
  specialize (IH p1 Hw Hs H). destruct (run evs p1) as [p2 t2]. exact IH.
Qed.

(** With stop commands among the events, every setting but
    [alwaysListening] is still the one that the storage holds. *)
Lemma persist_step_but (ev : event) (p : Page) :
  well_formed ev = true ->
  but_alwaysListening (settings p)
    = but_alwaysListening (stored parseFloat (localStorage p)) ->
  Js.wp (handler ev)
    (fun _ p' _ =>
       but_alwaysListening (settings p')
       = but_alwaysListening (stored parseFloat (localStorage p'))) p.
Proof.
  intros Hw. ui_fields p. cbn [settings localStorage]. intros Hp.
  assert (Hf : theme s = theme (stored parseFloat st) /\
               voiceType s = voiceType (stored parseFloat st) /\
               speechRate s = speechRate (stored parseFloat st) /\
               voiceEnabled s = voiceEnabled (stored parseFloat st) /\
               animations s = animations (stored parseFloat st) /\
               language s = language (stored parseFloat st) /\
               wakeWordEnabled s = wakeWordEnabled (stored parseFloat st) /\
               vadSensitivity s = vadSensitivity (stored parseFloat st) /\
               autoDetectLanguage s = autoDetectLanguage (stored parseFloat st)).
  { unfold but_alwaysListening, set_alwaysListening in Hp.
    injection Hp as H1 H2 H3 H4 H5 H6 H7 H8 H9. repeat split; assumption. }
  clear Hp. destruct Hf as (H1 & H2 & H3 & H4 & H5 & H6 & H7 & H8 & H9).
  unfold stored in H1, H2, H3, H4, H5, H6, H7, H8, H9.
  cbn [theme voiceType speechRate voiceEnabled alwaysListening animations
       language wakeWordEnabled vadSensitivity autoDetectLanguage]
    in H1, H2, H3, H4, H5, H6, H7, H8, H9.
  destruct ev; cbn in Hw; unfold_ui; wp_ui.
  all: stored_fields; try assumption.
  all: try (destruct checked; reflexivity).
  all: cbn; now destruct (String.eqb _ "").
Qed.

Lemma persist_run_but (evs : list event) : forall p : Page,
  forallb well_formed evs = true ->
  but_alwaysListening (settings p)
    = but_alwaysListening (stored parseFloat (localStorage p)) ->
  but_alwaysListening (settings (fst (run evs p)))
  = but_alwaysListening (stored parseFloat (localStorage (fst (run evs p)))).
Proof.
  induction evs as [|ev evs IH]; intros p Hw Hp; [exact Hp|].
  cbn [forallb] in Hw. apply andb_true_iff in Hw as [Hev Hw].
  cbn [Ui.run].
  pose proof (persist_step_but ev p Hev Hp) as H. unfold Js.wp in H.
  destruct (handler ev p) as [[r p1] t1]. cbn in H.
  specialize (IH p1 Hw H). destruct (run evs p1) as [p2 t2]. exact IH.
Qed.

End Persistence.

Section Theme.
Local Open Scope string_scope.

Lemma toggleTheme_spec (p : Page) :
  Js.wp toggleTheme
    (fun r p' t =>
       let dark := ClassList.contains "dark-mode" (bodyClasses p) in
       r = Js.Normal tt /\ t = [] /\
       theme (settings p') = (if dark then "light" else "dark") /\
       Storage.getItem "smartii-theme" (localStorage p') = Some (theme (settings p')) /\
       ClassList.contains "dark-mode" (bodyClasses p') = negb dark /\
       ClassList.contains "light-mode" (bodyClasses p') = dark /\
       (forall c, c <> "dark-mode" -> c <> "light-mode" ->
          ClassList.contains c (bodyClasses p') = ClassList.contains c (bodyClasses p)) /\
       messages p' = messages p /\ chatMessages p' = chatMessages p) p.
Proof.
  ui_fields p. unfold_ui. wp_ui.
  all: rewrite ?getItem_setItem; repeat apply conj; try reflexivity.
  all: try (intros c Hd Hl; apply String.eqb_neq in Hd, Hl).
  all: rewrite ?contains_add, ?contains_remove, ?contains_add, ?Heqb;
    rewrite ?Hd, ?Hl; reflexivity.
Qed.

End Theme.

Section Pages.
Local Open Scope string_scope.
Variables toLocaleTimeString toLocaleDateString : N -> string.
Variable parseFloat : string -> float.

Abbreviation formatTime := (formatTime toLocaleTimeString toLocaleDateString).
Abbreviation addMessage := (addMessage toLocaleTimeString toLocaleDateString).
Abbreviation clearChat := (clearChat toLocaleTimeString toLocaleDateString).
Abbreviation handleMemoryAction := (handleMemoryAction toLocaleTimeString toLocaleDateString).
Abbreviation fetchMemoryData_resumed :=
  (fetchMemoryData_resumed toLocaleTimeString toLocaleDateString).
Abbreviation handler := (handler toLocaleTimeString toLocaleDateString parseFloat).
Abbreviation run := (run toLocaleTimeString toLocaleDateString parseFloat).

Lemma mirrors_step (ev : event) (p : Page) :
  mirrors p -> Js.wp (handler ev) (fun _ p' _ => mirrors p') p.
Proof.
  unfold mirrors. ui_fields p. cbn [chatMessages messages]. intros ->.
  destruct ev; unfold_ui; wp_ui.
  all: rewrite ?map_app; reflexivity.
Qed.

Lemma mirrors_run (evs : list event) : forall p : Page,
  mirrors p -> mirrors (fst (run evs p)).
Proof.
  induction evs as [|ev evs IH]; intros p Hp; [exact Hp|].
  cbn [Ui.run].
  pose proof (mirrors_step ev p Hp) as H. unfold Js.wp in H.
  destruct (handler ev p) as [[r p1] t1]. cbn in H.
  specialize (IH p1 H). destruct (run evs p1) as [p2 t2]. exact IH.
Qed.

Lemma clearChat_run (p : Page) :
  clearChat true p =
  (Js.Normal tt,
   let m := {| id := clock p; text := welcome; sender := App.Assistant;
               timestamp := clock p |} in
   set_chatMessages [rendered m] (set_messages [m] p), []).
Proof.
  unfold Ui.clearChat. cbn [Js.when]. unfold Js.bind, Js.modify.
  rewrite addMessage_run. destruct p; reflexivity.
Qed.

Lemma memory_reply_spec (type : string) (reply : outcome Memory) (p : Page) :
  Js.wp (fetchMemoryData_resumed type reply)
    (fun r p' t =>
       r = Js.Normal tt /\ fetches t = [] /\
       settings p' = settings p /\ localStorage p' = localStorage p /\
       pending p' = pending p /\
       exists m, messages p' = (messages p ++ [m])%list /\
                 chatMessages p' = (chatMessages p ++ [rendered m])%list /\
                 sender m = App.Assistant /\ timestamp m = clock p /\
                 (match reply with
                  | Answered true (Some _) => True
                  | _ => text m = "Memory feature coming soon! Backend integration in progress."
                  end)) p.
Proof.
  ui_fields p. destruct reply as [|[] [[[[|i l]|]]|]]; unfold_ui; wp_ui.
  all: repeat apply conj; try reflexivity.
  all: eexists; repeat apply conj; reflexivity.
Qed.

Lemma memory_action_known (w : string) (mask : list bool) (p : Page) :
  In w ["routines"; "preferences"; "tasks"] ->
  Js.wp (handleMemoryAction (Str.recase mask w))
    (fun r p' t =>
       r = Js.Normal tt /\
       fetches t = [("GET", API_BASE_URL (config p) ++ "/memory/" ++ w)] /\
       pending p' = (pending p ++ [w])%list /\
       List.length (messages p') = S (List.length (messages p))) p.
Proof.
  intros Hw. unfold Ui.handleMemoryAction. cbv zeta. rewrite toLowerCase_recase.
  ui_fields p.
  destruct Hw as [<-|[<-|[<-|[]]]]; cbn -[Ui.addMessage]; unfold_ui; wp_ui.
  all: rewrite length_app; cbn; repeat apply conj; try reflexivity; lia.
Qed.

Lemma memory_action_unknown (title : string) (p : Page) :
  ~ In (Str.toLowerCase title) ["routines"; "preferences"; "tasks"] ->
  Js.wp (handleMemoryAction title)
    (fun r p' t =>
       r = Js.Normal tt /\ fetches t = [] /\
       pending p' = pending p /\ messages p' = messages p /\
       chatMessages p' = chatMessages p) p.
Proof.
  intros Hn. unfold Ui.handleMemoryAction. cbv zeta.
  destruct (String.eqb_spec (Str.toLowerCase title) "routines") as [E|_];
    [exfalso; apply Hn; rewrite E; cbn; auto|].
  destruct (String.eqb_spec (Str.toLowerCase title) "preferences") as [E|_];
    [exfalso; apply Hn; rewrite E; cbn; auto|].
  destruct (String.eqb_spec (Str.toLowerCase title) "tasks") as [E|_];
    [exfalso; apply Hn; rewrite E; cbn; auto|].
  ui_fields p. wp_ui. repeat apply conj; reflexivity.
Qed.

Lemma or_else_nonempty (a : option string) (d : string) :
  d <> "" -> or_else a d <> "".
Proof.
  intros Hd. destruct a as [v|]; cbn; [|exact Hd].
  destruct (String.eqb_spec v ""); assumption.
Qed.

Lemma backend_reply_spec (reply : outcome ChatData) (p : Page) :
  Js.wp (sendMessageToBackend_resumed reply)
    (fun r p' t =>
       p' = p /\ fetches t = [] /\
       exists answer, r = Js.Normal answer /\ reply_text answer <> "" /\
         match reply with
         | Answered true (Some data) =>
             url answer = data_url data /\ open_url answer = data_open_url data
         | _ => reply_text answer = apology /\ actions answer = [] /\
                opens answer = None
         end) p.
Proof.
  destruct reply as [|[] [data|]]; unfold_ui; wp_ui.
  all: repeat apply conj; try reflexivity.
  all: eexists; repeat apply conj; try reflexivity; cbn [reply_text].
  all: try discriminate.
  apply or_else_nonempty, or_else_nonempty. discriminate.
Qed.

End Pages.


Section Preferences.
Local Open Scope string_scope.
Variables toLocaleTimeString toLocaleDateString : N -> string.
Variable parseFloat : string -> float.

Abbreviation run := (run toLocaleTimeString toLocaleDateString parseFloat).
Abbreviation reload := (reload parseFloat).
Abbreviation init_preferences := (init_preferences parseFloat).
Abbreviation language_change :=
  (language_change toLocaleTimeString toLocaleDateString).
Abbreviation clearChat := (clearChat toLocaleTimeString toLocaleDateString).
Abbreviation handleMemoryAction :=
  (handleMemoryAction toLocaleTimeString toLocaleDateString).
Abbreviation fetchMemoryData_resumed :=
  (fetchMemoryData_resumed toLocaleTimeString toLocaleDateString).


(** X15: the settings survive a reload, but for a stop command.  On a
    page that [init()] has set up, after any sequence of uses of the
    settings panel, the theme switch, the memory cards and the chat, a
    reload brings back the settings as the storage holds them; every
    setting but [alwaysListening] is exactly as the page had it, since
    every listener stores what it sets under the key and in the form that
    [loadTheme] and [loadSettings] read.  When no message was a stop
    command, [alwaysListening] is as the page had it too.  A stop command
    clears it and stores nothing: the reload then brings back what the
    panel stored last, or the default.  (The controls deliver a value that
    is not empty, the messages are in ASCII.) *)
Theorem X15_settings_survive_reload :
  forall (supported supported' : bool) (st : Storage.t) (body body' : ClassList.t)
         (cfg : Config) (now : N) (evs : list event),
    forallb well_formed evs = true ->
    let p0 := Js.state_of (init_preferences supported (fresh st body cfg now)) in
    let p1 := fst (run evs p0) in
    let p2 := reload supported' body' p1 in
    settings p2 = stored parseFloat (localStorage p1) /\
    but_alwaysListening (settings p2) = but_alwaysListening (settings p1) /\
    (existsb is_stop_command evs = false -> settings p2 = settings p1).
Proof.
  intros supported supported' st body body' cfg now evs Hw p0 p1 p2.
  pose proof (init_restores parseFloat supported st body cfg now) as H0.
  unfold Js.wp in H0. fold p0 in H0. destruct H0 as [Hs Hl].
  assert (H1 : settings p0 = stored parseFloat (localStorage p0))
    by (rewrite Hl; exact Hs).
  assert (H3 : settings p2 = stored parseFloat (localStorage p1)).
  { subst p2. unfold Ui.reload.
    pose proof (init_restores parseFloat supported' (localStorage p1) body'
                  (config p1) (clock p1)) as H3.
    unfold Js.wp in H3. apply H3. }
  split; [exact H3|]. split.
  - rewrite H3. symmetry.
    apply (persist_run_but parseFloat toLocaleTimeString toLocaleDateString evs p0 Hw).
    now rewrite H1.
  - intros Hno. rewrite H3. symmetry.
    exact (persist_run parseFloat toLocaleTimeString toLocaleDateString evs p0 Hw Hno H1).
Qed.

(** X16: the theme switch.  After [toggleTheme()] the body carries
    exactly one of the classes [dark-mode] and [light-mode], the other
    one than before; [state.settings.theme] names it and localStorage
    holds the same name; no other class of the body and nothing in the
    chat changes.  A second toggle brings the first class back. *)
Theorem X16_toggleTheme_flips :
  forall p : Page,
    let dark := fun q => ClassList.contains "dark-mode" (bodyClasses q) in
    let light := fun q => ClassList.contains "light-mode" (bodyClasses q) in
    let p1 := Js.state_of (toggleTheme p) in
    let p2 := Js.state_of (toggleTheme p1) in
    dark p1 = negb (dark p) /\ light p1 = negb (dark p1) /\
    theme (settings p1) = (if dark p1 then "dark" else "light") /\
    Storage.getItem "smartii-theme" (localStorage p1) = Some (theme (settings p1)) /\
    (forall c, c <> "dark-mode" -> c <> "light-mode" ->
       ClassList.contains c (bodyClasses p1) = ClassList.contains c (bodyClasses p)) /\
    messages p1 = messages p /\ chatMessages p1 = chatMessages p /\
    dark p2 = dark p /\ light p2 = negb (dark p) /\
    theme (settings p2) = (if dark p then "dark" else "light").
Proof.
  intros p dark light p1 p2. subst dark light. cbv beta.
  pose proof (toggleTheme_spec p) as H1. unfold Js.wp in H1. fold p1 in H1.
  cbv zeta in H1.
  destruct H1 as (_ & _ & Ht1 & Hs1 & Hd1 & Hl1 & Ho1 & Hm1 & Hc1).
  pose proof (toggleTheme_spec p1) as H2. unfold Js.wp in H2. fold p2 in H2.
  cbv zeta in H2.
  destruct H2 as (_ & _ & Ht2 & _ & Hd2 & Hl2 & _).
  repeat split; try assumption.
  all: rewrite ?Hd2, ?Hl2, ?Ht2, ?Hl1, ?Ht1, ?Hd1;
    now destruct (ClassList.contains "dark-mode" (bodyClasses p)).
Qed.

(** X17: the theme survives a reload on a page whose document starts
    dark.  [loadTheme] acts on the stored name [light] only, so it is
    the document's own classes that make the dark theme: when the body
    comes with [dark-mode] and without [light-mode], the page shows after
    a reload the theme that was last chosen with the switch. *)
Theorem X17_theme_survives_reload :
  forall (supported : bool) (body : ClassList.t) (p : Page),
    ClassList.contains "dark-mode" body = true ->
    ClassList.contains "light-mode" body = false ->
    let p1 := Js.state_of (toggleTheme p) in
    let p2 := reload supported body p1 in
    theme (settings p2) = theme (settings p1) /\
    ClassList.contains "dark-mode" (bodyClasses p2)
      = ClassList.contains "dark-mode" (bodyClasses p1) /\
    ClassList.contains "light-mode" (bodyClasses p2)
      = ClassList.contains "light-mode" (bodyClasses p1).
Proof.
  intros supported body p Hd Hl p1 p2.
  pose proof (toggleTheme_spec p) as H1. unfold Js.wp in H1. fold p1 in H1.
  cbv zeta in H1.
  destruct H1 as (_ & _ & Ht1 & Hs1 & Hd1 & Hl1 & _).
  pose proof (init_restores parseFloat supported (localStorage p1) body
                (config p1) (clock p1)) as H2.
  pose proof (init_body parseFloat supported (localStorage p1) body
                (config p1) (clock p1)) as H3.
  unfold Js.wp in H2, H3. fold (reload supported body p1) in H2, H3.
  fold p2 in H2, H3. destruct H2 as [H2 _]. destruct H3 as [H3d H3l].
  assert (Ht : theme (settings p2) = theme (settings p1)).
  { rewrite H2. unfold stored. cbn [theme]. rewrite Hs1, Ht1.
    now destruct (ClassList.contains "dark-mode" (bodyClasses p)). }
  split; [exact Ht|].
  rewrite H3d, H3l, Ht, Hd1, Hl1, Ht1, Hd, Hl.
  now destruct (ClassList.contains "dark-mode" (bodyClasses p)).
Qed.

(** X18: the recognition language after a change and after a reload.
    Choosing a language of the selector sets the recognition engine to
    the locale that [langMap] gives for it; after a reload
    [initSpeechRecognition] reads the stored code itself, so the engine
    gets the bare code, which is not that locale. *)
Theorem X18_recognition_language_after_reload :
  forall (value locale current : string) (body : ClassList.t) (p : Page),
    In (value, locale) langMap ->
    recognitionLang p = Some current ->
    let p1 := Js.state_of (language_change value p) in
    recognitionLang p1 = Some locale /\
    language (settings p1) = value /\
    recognitionLang (reload true body p1) = Some value /\
    value <> locale.
Proof.
  intros value locale current classes p Hin Hrec p1.
  assert (W : forall q : Page,
            recognitionLang q = Some current ->
            Js.wp (language_change value)
              (fun _ p' _ =>
                 recognitionLang p' = Some locale /\ language (settings p') = value /\
                 Storage.getItem "smartii-language" (localStorage p') = Some value) q).
  { intros q. ui_fields q. cbn [recognitionLang]. intros ->.
    cbn in Hin.
    repeat (destruct Hin as [Hin|Hin];
            [injection Hin as <- <-; unfold_ui; wp_ui;
             rewrite getItem_setItem; repeat split|]).
    contradiction. }
  pose proof (W p Hrec) as H1. unfold Js.wp in H1. fold p1 in H1.
  destruct H1 as (Hr1 & Hl1 & Hst1).
  pose proof (init_restores parseFloat true (localStorage p1) classes
                (config p1) (clock p1)) as H2.
  pose proof (init_language parseFloat true (localStorage p1) classes
                (config p1) (clock p1)) as H3.
  unfold Js.wp in H2, H3. fold (reload true classes p1) in H2, H3.
  destruct H2 as [H2 _].
  assert (Hlang : language (settings (reload true classes p1)) = value /\
                  or_else (Some value) "en-US" = value /\ value <> locale).
  { rewrite H2. unfold stored. cbn [language]. rewrite Hst1.
    clear - Hin. cbn in Hin.
    repeat (destruct Hin as [Hin|Hin];
            [injection Hin as <- <-; repeat split; discriminate|]).
    contradiction. }
  destruct Hlang as (Hlang & Hor & Hne).
  repeat split; try assumption.
  rewrite H3, Hlang, Hor. reflexivity.
Qed.

(** X19: the chat list shows [state.messages], and its time labels
    never change.  Once the list holds one element for each message, in
    their order, with the message's text and sender, it does so after
    every event; and every element still reads [Just now], however much
    time has passed: [formatTime] is called once, when the message is
    made.  [clearChat()], when confirmed, leaves the welcome message
    alone in both. *)
Theorem X19_chat_mirrors_messages :
  forall (evs : list event) (p : Page),
    chatMessages p = map rendered (messages p) ->
    let p1 := fst (run evs p) in
    let p2 := Js.state_of (clearChat true p1) in
    chatMessages p1 = map rendered (messages p1) /\
    Forall (fun el => timeText el = "Just now") (chatMessages p1) /\
    map text (messages p2) = [welcome] /\
    map textContent (chatMessages p2) = [welcome].
Proof.
  intros evs p Hp p1 p2.
  pose proof (mirrors_run toLocaleTimeString toLocaleDateString parseFloat
                evs p Hp) as H1.
  fold p1 in H1. unfold mirrors in H1.
  split; [exact H1|]. split.
  - rewrite H1. apply Forall_forall. intros el Hel.
    apply in_map_iff in Hel as (m & <- & _). reflexivity.
  - subst p2. rewrite clearChat_run. cbn. split; reflexivity.
Qed.

(** X20: a memory card's button, for a title in ASCII.  The title is
    compared without regard to letter case: for [routines], [preferences]
    and [tasks] in any spelling the handler shows one more message and
    asks the backend once, with GET, for [/memory/] and the lower-case
    name.  For every other title it shows nothing and asks nothing.  It
    never throws. *)
Theorem X20_handleMemoryAction_dispatch :
  forall (title : string) (p : Page),
    Text.is_ascii title = true ->
    let lower := Str.toLowerCase title in
    let r := handleMemoryAction title p in
    Js.result_of r = Js.Normal tt /\
    if existsb (String.eqb lower) ["routines"; "preferences"; "tasks"] then
      fetches (Js.trace_of r) = [("GET", API_BASE_URL (config p) ++ "/memory/" ++ lower)] /\
      pending (Js.state_of r) = (pending p ++ [lower])%list /\
      List.length (messages (Js.state_of r)) = S (List.length (messages p))
    else
      fetches (Js.trace_of r) = [] /\
      pending (Js.state_of r) = pending p /\
      messages (Js.state_of r) = messages p /\
      chatMessages (Js.state_of r) = chatMessages p.
Proof.
  intros title p _ lower r.
  destruct (existsb (String.eqb lower) ["routines"; "preferences"; "tasks"]) eqn:E.
  - apply existsb_exists in E as (w & Hw & Hlw). apply String.eqb_eq in Hlw.
    pose proof (memory_action_known toLocaleTimeString toLocaleDateString
                  w [] p Hw) as H.
    unfold Js.wp in H.
    assert (Hsame : handleMemoryAction (Str.recase [] w) p = r).
    { subst r. unfold Ui.handleMemoryAction. cbv zeta.
      rewrite toLowerCase_recase. fold lower. rewrite Hlw.
      assert (Hl : Str.toLowerCase w = w)
        by (destruct Hw as [<-|[<-|[<-|[]]]]; reflexivity).
      rewrite Hl.
      destruct Hw as [<-|[<-|[<-|[]]]]; reflexivity. }
    rewrite Hsame in H. rewrite Hlw. destruct H as (Hr & Hf & Hp & Hm).
    now repeat split.
  - assert (Hn : ~ In (Str.toLowerCase title) ["routines"; "preferences"; "tasks"]).
    { intros Hin.
      assert (E' : existsb (String.eqb lower) ["routines"; "preferences"; "tasks"] = true)
        by (apply existsb_exists; exists lower; split;
            [exact Hin | apply String.eqb_refl]).
      congruence. }
    pose proof (memory_action_unknown toLocaleTimeString toLocaleDateString
                  title p Hn) as H.
    unfold Js.wp in H. fold r in H. exact H.
Qed.

(** X21: the reply to a memory request.  However the request ends
    (the network fails, the backend answers with an error status, the
    body is not JSON, the list is missing, empty or long), the function
    adds exactly one message of the assistant to the chat and never
    throws; when the request failed the message is the fixed
    "coming soon" line.  The settings and localStorage stay as they
    are. *)
Theorem X21_memory_reply_always_answers :
  forall (type : string) (reply : outcome Memory) (p : Page),
    let r := fetchMemoryData_resumed type reply p in
    Js.result_of r = Js.Normal tt /\
    settings (Js.state_of r) = settings p /\
    localStorage (Js.state_of r) = localStorage p /\
    exists m : Message,
      messages (Js.state_of r) = (messages p ++ [m])%list /\
      chatMessages (Js.state_of r) = (chatMessages p ++ [rendered m])%list /\
      sender m = App.Assistant /\
      match reply with
      | Answered true (Some _) => True
      | _ => text m = "Memory feature coming soon! Backend integration in progress."
      end.
Proof.
  intros type reply p r.
  pose proof (memory_reply_spec toLocaleTimeString toLocaleDateString
                type reply p) as H.
  unfold Js.wp in H. fold r in H.
  destruct H as (Hr & _ & Hs & Hl & _ & m & Hm & Hc & Hsd & _ & Ht).
  repeat split; try assumption. exists m. now repeat split.
Qed.

(** X22: [sendMessageToBackend] never rejects.  Whatever becomes of the
    request, the function resolves to a reply whose text is not empty
    and leaves the page as it is.  A reply of the backend passes its
    [url] and [open_url] through; every failure gives the apology, with
    no action and nothing to open. *)
Theorem X22_sendMessageToBackend_never_rejects :
  forall (reply : outcome ChatData) (p : Page),
    let r := sendMessageToBackend_resumed reply p in
    Js.state_of r = p /\
    exists answer : Reply,
      Js.result_of r = Js.Normal answer /\
      reply_text answer <> "" /\
      match reply with
      | Answered true (Some data) =>
          url answer = data_url data /\ open_url answer = data_open_url data
      | _ => reply_text answer = apology /\ actions answer = [] /\
             opens answer = None
      end.
Proof.
  intros reply p r.
  pose proof (backend_reply_spec reply p) as H. unfold Js.wp in H. fold r in H.
  destruct H as (Hp & _ & answer & Hr & Hne & Hm).
  split; [exact Hp|]. exists answer. now repeat split.
Qed.

End Preferences.

Section Samples.
Local Open Scope string_scope.

Lemma X15_settings_survive_reload_witness :
  let clock_time := fun _ : N => "10:30" in
  let calendar := fun _ : N => "1/1/2026" in
  let parse := fun s : string => if String.eqb s "1.5" then 1.5%float else 1%float in
  let evs := [VoiceTypeChange "male"; SpeechRateInput "1.5";
              AlwaysListeningChange true; LanguageChange "es"; ThemeToggleClick;
              AutoDetectChange true; AnimationsChange false;
              UserMessage "What time is it?";
              ThemeOptionClick "light"; ClearChatClick true] in
  let p0 := Js.state_of (init_preferences parse true
                           (fresh [] ["dark-mode"] (CONFIG "localhost" "client_x_1") 1)) in
  let p1 := fst (run clock_time calendar parse evs p0) in
  let p1' := fst (run clock_time calendar parse
                    (evs ++ [UserMessage "Now go to sleep"]) p0) in
  settings (reload parse true ["dark-mode"] p1) = settings p1 /\
  but_alwaysListening (settings (reload parse true ["dark-mode"] p1'))
    = but_alwaysListening (settings p1') /\
  alwaysListening (settings p1') = false /\
  alwaysListening (settings (reload parse true ["dark-mode"] p1')) = true.
Proof.
  cbv zeta.
  destruct (X15_settings_survive_reload (fun _ : N => "10:30") (fun _ : N => "1/1/2026")
              (fun s : string => if String.eqb s "1.5" then 1.5%float else 1%float)
              true true [] ["dark-mode"] ["dark-mode"] (CONFIG "localhost" "client_x_1") 1
              [VoiceTypeChange "male"; SpeechRateInput "1.5";
               AlwaysListeningChange true; LanguageChange "es"; ThemeToggleClick;
               AutoDetectChange true; AnimationsChange false;
               UserMessage "What time is it?";
               ThemeOptionClick "light"; ClearChatClick true] eq_refl)
    as (_ & _ & Hsame).
  destruct (X15_settings_survive_reload (fun _ : N => "10:30") (fun _ : N => "1/1/2026")
              (fun s : string => if String.eqb s "1.5" then 1.5%float else 1%float)
              true true [] ["dark-mode"] ["dark-mode"] (CONFIG "localhost" "client_x_1") 1
              ([VoiceTypeChange "male"; SpeechRateInput "1.5";
                AlwaysListeningChange true; LanguageChange "es"; ThemeToggleClick;
                AutoDetectChange true; AnimationsChange false;
                UserMessage "What time is it?";
                ThemeOptionClick "light"; ClearChatClick true]
               ++ [UserMessage "Now go to sleep"]) eq_refl)
    as (_ & Hbut & _).
  repeat apply conj;
    [exact (Hsame eq_refl) | exact Hbut | reflexivity | reflexivity].
Defined.

Lemma X17_theme_survives_reload_witness :
  let parse := fun _ : string => 1%float in
  let p := fresh [] ["dark-mode"] (CONFIG "localhost" "client_x_1") 1 in
  let p1 := Js.state_of (toggleTheme p) in
  let p2 := reload parse true ["dark-mode"] p1 in
  theme (settings p2) = theme (settings p1) /\
  ClassList.contains "dark-mode" (bodyClasses p2)
    = ClassList.contains "dark-mode" (bodyClasses p1) /\
  ClassList.contains "light-mode" (bodyClasses p2)
    = ClassList.contains "light-mode" (bodyClasses p1).
Proof.
  cbv zeta.
  apply (X17_theme_survives_reload (fun _ : string => 1%float) true ["dark-mode"]
           (fresh [] ["dark-mode"] (CONFIG "localhost" "client_x_1") 1));
    reflexivity.
Defined.

Lemma X18_recognition_language_after_reload_witness :
  let clock_time := fun _ : N => "10:30" in
  let calendar := fun _ : N => "1/1/2026" in
  let parse := fun _ : string => 1%float in
  let p := Js.state_of (init_preferences parse true
                          (fresh [] ["dark-mode"] (CONFIG "localhost" "client_x_1") 1)) in
  let p1 := Js.state_of (language_change clock_time calendar "es" p) in
  recognitionLang p1 = Some "es-ES" /\
  language (settings p1) = "es" /\
  recognitionLang (reload parse true ["dark-mode"] p1) = Some "es" /\
  "es" <> "es-ES".
Proof.
  cbv zeta.
  apply (X18_recognition_language_after_reload (fun _ : N => "10:30")
           (fun _ : N => "1/1/2026") (fun _ : string => 1%float)
           "es" "es-ES" "en" ["dark-mode"]
           (Js.state_of (init_preferences (fun _ : string => 1%float) true
                           (fresh [] ["dark-mode"] (CONFIG "localhost" "client_x_1") 1)))).
  - right. left. reflexivity.
  - reflexivity.
Defined.

Lemma X19_chat_mirrors_messages_witness :
  let clock_time := fun _ : N => "10:30" in
  let calendar := fun _ : N => "1/1/2026" in
  let parse := fun _ : string => 1%float in
  let evs := [NewMessage "Hello" App.User; Tick 7200000;
              NewMessage "Hi there" App.Assistant; Tick 90000000;
              MemoryActionClick "Tasks"; MemoryReply 0 Rejected] in
  let p := fresh [] ["dark-mode"] (CONFIG "localhost" "client_x_1") 1 in
  let p1 := fst (run clock_time calendar parse evs p) in
  let p2 := Js.state_of (clearChat clock_time calendar true p1) in
  chatMessages p1 = map rendered (messages p1) /\
  Forall (fun el => timeText el = "Just now") (chatMessages p1) /\
  map text (messages p2) = [welcome] /\
  map textContent (chatMessages p2) = [welcome].
Proof.
  cbv zeta.
  apply (X19_chat_mirrors_messages (fun _ : N => "10:30") (fun _ : N => "1/1/2026")
           (fun _ : string => 1%float)
           [NewMessage "Hello" App.User; Tick 7200000;
            NewMessage "Hi there" App.Assistant; Tick 90000000;
            MemoryActionClick "Tasks"; MemoryReply 0 Rejected]
           (fresh [] ["dark-mode"] (CONFIG "localhost" "client_x_1") 1)).
  reflexivity.
Defined.

Lemma X20_handleMemoryAction_dispatch_witness :
  let clock_time := fun _ : N => "10:30" in
  let calendar := fun _ : N => "1/1/2026" in
  let p := fresh [] ["dark-mode"] (CONFIG "localhost" "client_x_1") 1 in
  let known := handleMemoryAction clock_time calendar "Tasks" p in
  let unknown := handleMemoryAction clock_time calendar "Notes" p in
  fetches (Js.trace_of known) = [("GET", "http://localhost:8000/memory/tasks")] /\
  pending (Js.state_of known) = ["tasks"] /\
  List.length (messages (Js.state_of known)) = 1 /\
  fetches (Js.trace_of unknown) = [] /\
  messages (Js.state_of unknown) = [].
Proof.
  cbv zeta.
  destruct (X20_handleMemoryAction_dispatch (fun _ : N => "10:30")
              (fun _ : N => "1/1/2026") "Tasks"
              (fresh [] ["dark-mode"] (CONFIG "localhost" "client_x_1") 1) eq_refl)
    as (_ & Hf & Hp & Hm).
  destruct (X20_handleMemoryAction_dispatch (fun _ : N => "10:30")
              (fun _ : N => "1/1/2026") "Notes"
              (fresh [] ["dark-mode"] (CONFIG "localhost" "client_x_1") 1) eq_refl)
    as (_ & Hf' & _ & Hm' & _).
  repeat apply conj; assumption.
Defined.

End Samples.

End UiFacts.
